(** * sitrans-terrenos: the land search agent

    A shallow embedding of [src/realestate/data_loader.py] and
    [src/realestate/agent.py]: the listing record, the search criteria,
    the eligibility filter [matches], the scoring engine [_score_listing]
    with [_transport_score] and [_mode_availability], and the ranking
    entry point [search].

    Conventions of the embedding.
    - A Python [float] (and an [int] used as a number) is an exact
      rational of [Q]; equality of numbers is [==].  Rounding, infinities
      and NaN of the binary format, and the [int]s that are too large for
      a float, are outside this model: the module [Float64] embeds the
      filter, the scoring engine and the ranking a second time with them,
      for the statements on the tolerance of the sum and on exceptions.
    - A Python exception is a value [Raise e] of the [result] type; every
      [/] of the source goes through [pydiv], which raises
      [ZeroDivisionError] on a zero divisor.
    - A [dict] is a [gmap], a [set] of strings a [gset string].
    - [str.lower] is a parameter [lower] of the development: nothing is
      assumed about it.  [ascii_lower] is the instance used to run the
      definitions on concrete inputs. *)

From Stdlib Require Import QArith Qminmax Qabs Qround Lqa SpecFloat.
From stdpp Require Import gmap strings list fin_maps sorting.

Open Scope Q_scope.

(** ** Exceptions and results *)

Inductive exn : Type :=
  | ZeroDivisionError
  | TypeError.

Inductive result (A : Type) : Type :=
  | Ok (a : A)
  | Raise (e : exn).
Arguments Ok {A} a.
Arguments Raise {A} e.

#[global] Instance result_ret : MRet result := fun _ a => Ok a.
#[global] Instance result_bind : MBind result := fun _ _ f m =>
  match m with
  | Ok a => f a
  | Raise e => Raise e
  end.

(** A [for] loop whose body may raise: the accumulator is threaded through
    the elements from left to right and the first exception stops it. *)
Fixpoint for_each {A S : Type} (body : S → A → result S) (l : list A) (s : S)
    : result S :=
  match l with
  | [] => Ok s
  | x :: l' => s' ← body s x; for_each body l' s'
  end.

(** ** Numbers *)

Definition Qltb (x y : Q) : bool := negb (Qle_bool y x).

(** Truth value of a number: [if x:] holds for every number but zero. *)
Definition truthy_num (x : Q) : bool := negb (Qeq_bool x 0).

(** Truth value of a sequence: [if xs:] holds when it is not empty. *)
Definition truthy_seq {A : Type} (l : list A) : bool :=
  match l with
  | [] => false
  | _ :: _ => true
  end.

(** [x / y] of Python. *)
Definition pydiv (x y : Q) : result Q :=
  if Qeq_bool y 0 then Raise ZeroDivisionError else Ok (x / y).

(** [round(x)] to the nearest integer, ties to the even one. *)
Definition round_half_even (x : Q) : Z :=
  let f := Qfloor x in
  let r := x - inject_Z f in
  if Qltb r (1 # 2) then f
  else if Qltb (1 # 2) r then (f + 1)%Z
  else if Z.even f then f else (f + 1)%Z.

(** [round(x, 2)]. *)
Definition round2 (x : Q) : Q := inject_Z (round_half_even (x * 100)) / 100.

(** ** Values of the JSON inventory *)

#[local] Unset Elimination Schemes.
Inductive pyval : Type :=
  | PNone
  | PBool (b : bool)
  | PNum (q : Q)
  | PStr (s : string)
  | PList (l : list pyval)
  | PDict (d : list (string * pyval)).
#[local] Set Elimination Schemes.

(** [bool(v)]. *)
Definition truthy (v : pyval) : bool :=
  match v with
  | PNone => false
  | PBool b => b
  | PNum q => truthy_num q
  | PStr s => negb (String.eqb s "")
  | PList l => truthy_seq l
  | PDict d => truthy_seq d
  end.

(** [bool(d.get(k))]: a missing key gives [None], which is false. *)
Definition truthy_get (v : option pyval) : bool :=
  match v with
  | Some v => truthy v
  | None => false
  end.

(** [isinstance(v, (int, float))], with the number when it holds; [bool] is
    a subclass of [int]. *)
Definition as_number (v : option pyval) : option Q :=
  match v with
  | Some (PNum q) => Some q
  | Some (PBool b) => Some (if b then 1 else 0)
  | _ => None
  end.

(** ** data_loader.py *)

Definition MACROZONE_BY_REGION : gmap string string :=
  list_to_map [
    ("Arica y Parinacota", "Norte Grande");
    ("Tarapacá", "Norte Grande");
    ("Antofagasta", "Norte Grande");
    ("Atacama", "Norte Chico");
    ("Coquimbo", "Norte Chico");
    ("Valparaíso", "Zona Centro");
    ("Metropolitana de Santiago", "Zona Centro");
    ("Libertador General Bernardo O'Higgins", "Zona Centro");
    ("Libertador General Bernardo O’Higgins", "Zona Centro");
    ("O'Higgins", "Zona Centro");
    ("O’Higgins", "Zona Centro");
    ("Maule", "Zona Centro-Sur");
    ("Ñuble", "Zona Sur");
    ("Nuble", "Zona Sur");
    ("Biobío", "Zona Sur");
    ("Biobio", "Zona Sur");
    ("La Araucanía", "Zona Sur");
    ("Los Ríos", "Zona Sur");
    ("Los Lagos", "Zona Austral");
    ("Aysén del General Carlos Ibáñez del Campo", "Zona Austral");
    ("Aysen del General Carlos Ibanez del Campo", "Zona Austral");
    ("Magallanes y de la Antártica Chilena", "Zona Austral")
  ]%string.

(** The dataclass [Listing]; its fields [id] and [name] are [listing_id] and
    [listing_name] here. *)
Record Listing : Type := {
  listing_id : string;
  listing_name : string;
  region : string;
  province : string;
  commune : string;
  locality : string;
  property_type : string;
  area_m2 : Q;
  price_per_m2 : Q;
  zoning : string;
  services : list string;
  transport : gmap string pyval;
  topography : string;
  notes : string;
  url : string
}.

Definition total_price (self : Listing) : Q :=
  area_m2 self * price_per_m2 self.

Definition macrozone (self : Listing) : string :=
  default "Zona Desconocida"%string (MACROZONE_BY_REGION !! region self).

(** ** agent.py: the criteria *)

Record SearchCriteria : Type := {
  preferred_regions : list string;
  preferred_macrozones : list string;
  target_zonings : list string;
  min_area_m2 : Q;
  min_area_hectares : Q;
  max_total_price : option Q;
  max_price_per_m2 : option Q;
  required_services : list string;
  preferred_services : list string;
  transport_importance : gmap string Q;
  desired_property_types : list string
}.

(** [SearchCriteria()]: every field at its default. *)
Definition default_criteria : SearchCriteria := {|
  preferred_regions := [];
  preferred_macrozones := [];
  target_zonings := [];
  min_area_m2 := 0;
  min_area_hectares := 0;
  max_total_price := None;
  max_price_per_m2 := None;
  required_services := [];
  preferred_services := [];
  transport_importance := ∅;
  desired_property_types := []
|}.

Definition _area_threshold_m2 (self : SearchCriteria) : Q :=
  let min_m2 := Qmax (min_area_m2 self) 0 in
  if truthy_num (min_area_hectares self)
  then Qmax min_m2 (min_area_hectares self * 10000)
  else min_m2.

(** *** from_dict

    An instance of the dataclass is its attribute dictionary: the
    constructor raises [TypeError] on a keyword that is not a field, stores
    every other argument as it is and fills the absent fields with their
    defaults. *)

Definition field_defaults : gmap string pyval :=
  list_to_map [
    ("preferred_regions", PList []);
    ("preferred_macrozones", PList []);
    ("target_zonings", PList []);
    ("min_area_m2", PNum 0);
    ("min_area_hectares", PNum 0);
    ("max_total_price", PNone);
    ("max_price_per_m2", PNone);
    ("required_services", PList []);
    ("preferred_services", PList []);
    ("transport_importance", PDict []);
    ("desired_property_types", PList [])
  ]%string.

(** The constructor call of [from_dict], on the keyword arguments. *)
Definition cls (kwargs : gmap string pyval) : result (gmap string pyval) :=
  if bool_decide (dom kwargs ⊆ dom field_defaults)
  then Ok (kwargs ∪ field_defaults)
  else Raise TypeError.

Definition from_dict (data : gmap string pyval) : result (gmap string pyval) :=
  let kwargs := data in
  cls kwargs.

(** The typed reading of an attribute dictionary: the criteria it stands
    for when every attribute has the type its annotation gives. *)
Definition as_str (v : pyval) : option string :=
  match v with
  | PStr s => Some s
  | _ => None
  end.

Definition as_strs (v : option pyval) : option (list string) :=
  match v with
  | Some (PList l) => mapM as_str l
  | _ => None
  end.

Definition as_float (v : option pyval) : option Q :=
  match v with
  | Some (PNum q) => Some q
  | _ => None
  end.

Definition as_opt_float (v : option pyval) : option (option Q) :=
  match v with
  | Some PNone => Some None
  | Some (PNum q) => Some (Some q)
  | _ => None
  end.

(** In a JSON object the last of several equal keys is the one kept. *)
Definition as_weights (v : option pyval) : option (gmap string Q) :=
  match v with
  | Some (PDict d) =>
      list_to_map
        <$> mapM (λ kv, q ← as_float (Some kv.2); Some (kv.1, q)) (reverse d)
  | _ => None
  end.

Definition criteria_of (o : gmap string pyval) : option SearchCriteria :=
  regions ← as_strs (o !! "preferred_regions"%string);
  macrozones ← as_strs (o !! "preferred_macrozones"%string);
  zonings ← as_strs (o !! "target_zonings"%string);
  m2 ← as_float (o !! "min_area_m2"%string);
  ha ← as_float (o !! "min_area_hectares"%string);
  total ← as_opt_float (o !! "max_total_price"%string);
  per_m2 ← as_opt_float (o !! "max_price_per_m2"%string);
  required ← as_strs (o !! "required_services"%string);
  preferred ← as_strs (o !! "preferred_services"%string);
  importance ← as_weights (o !! "transport_importance"%string);
  types ← as_strs (o !! "desired_property_types"%string);
  Some {|
    preferred_regions := regions;
    preferred_macrozones := macrozones;
    target_zonings := zonings;
    min_area_m2 := m2;
    min_area_hectares := ha;
    max_total_price := total;
    max_price_per_m2 := per_m2;
    required_services := required;
    preferred_services := preferred;
    transport_importance := importance;
    desired_property_types := types
  |}.

(** ** agent.py: the filter, the scoring engine and the ranking *)

(** The [highlights] dictionary: its ten keys are always the same. *)
Record Highlights : Type := {
  h_region : string;
  h_macrozona : string;
  h_ubicacion : string;
  h_servicios_cubiertos : list string;
  h_servicios_preferidos : list string;
  h_precio_total_clp : Q;
  h_precio_m2_clp : Q;
  h_transporte : gmap string pyval;
  h_area_m2 : Q;
  h_area_ha : Q
}.

Record SearchResult : Type := {
  listing : Listing;
  score : Q;
  breakdown : gmap string Q;
  highlights : Highlights
}.

(** [len(s)] as a number. *)
Definition len (s : gset string) : Q := inject_Z (Z.of_nat (size s)).

(** [sorted(s)] of a set of strings. *)
Definition sorted (s : gset string) : list string :=
  merge_sort (λ a b, Is_true (String.leb a b)) (elements s).

(** [sum(m.values())]. *)
Definition sum_values (m : gmap string Q) : Q :=
  foldl Qplus 0 (snd <$> map_to_list m).

(** [results.sort(key=lambda result: result.score, reverse=True)]: the
    built-in sort is stable, also when reversed.  [insert_by_score r rs] puts
    [r], which comes before every element of [rs] in the unsorted list, in
    front of the first result whose score is not greater than its own. *)
Fixpoint insert_by_score (r : SearchResult) (rs : list SearchResult)
    : list SearchResult :=
  match rs with
  | [] => [r]
  | r' :: rs' =>
      if Qle_bool (score r') (score r) then r :: r' :: rs'
      else r' :: insert_by_score r rs'
  end.

Definition sort_by_score (rs : list SearchResult) : list SearchResult :=
  foldr insert_by_score [] rs.

(** [xs[:n]]: the first [n] elements, and for a negative [n] all but the
    last [-n]. *)
Definition slice_to {A : Type} (n : Z) (xs : list A) : list A :=
  if (0 <=? n)%Z then take (Z.to_nat n) xs
  else take (length xs - Z.to_nat (- n)) xs.

(** A lowering that changes the letters [A] to [Z] of ASCII only. *)
Definition ascii_lower_char (c : Ascii.ascii) : Ascii.ascii :=
  let n := Ascii.nat_of_ascii c in
  if (65 <=? n)%nat && (n <=? 90)%nat then Ascii.ascii_of_nat (n + 32) else c.

Fixpoint ascii_lower (s : string) : string :=
  match s with
  | EmptyString => EmptyString
  | String c s' => String (ascii_lower_char c) (ascii_lower s')
  end.

(** ** Auxiliary definitions for the statements *)

#[global] Instance Qeq_decision (x y : Q) : Decision (x == y) := Qeq_dec x y.

(** [by_score a b]: [a] may come before [b] in a list sorted by score,
    highest first. *)
Definition by_score (a b : SearchResult) : Prop := score b <= score a.

(** The results with a given score, in the order of the list. *)
Definition with_score (s : Q) (rs : list SearchResult) : list SearchResult :=
  filter (λ r, score r == s) rs.

(** [criteria] with another value of one field. *)
Definition with_preferred_regions (regions : list string)
    (criteria : SearchCriteria) : SearchCriteria := {|
  preferred_regions := regions;
  preferred_macrozones := preferred_macrozones criteria;
  target_zonings := target_zonings criteria;
  min_area_m2 := min_area_m2 criteria;
  min_area_hectares := min_area_hectares criteria;
  max_total_price := max_total_price criteria;
  max_price_per_m2 := max_price_per_m2 criteria;
  required_services := required_services criteria;
  preferred_services := preferred_services criteria;
  transport_importance := transport_importance criteria;
  desired_property_types := desired_property_types criteria
|}.

Definition with_max_total_price (cap : option Q) (criteria : SearchCriteria)
    : SearchCriteria := {|
  preferred_regions := preferred_regions criteria;
  preferred_macrozones := preferred_macrozones criteria;
  target_zonings := target_zonings criteria;
  min_area_m2 := min_area_m2 criteria;
  min_area_hectares := min_area_hectares criteria;
  max_total_price := cap;
  max_price_per_m2 := max_price_per_m2 criteria;
  required_services := required_services criteria;
  preferred_services := preferred_services criteria;
  transport_importance := transport_importance criteria;
  desired_property_types := desired_property_types criteria
|}.

Definition with_max_price_per_m2 (cap : option Q) (criteria : SearchCriteria)
    : SearchCriteria := {|
  preferred_regions := preferred_regions criteria;
  preferred_macrozones := preferred_macrozones criteria;
  target_zonings := target_zonings criteria;
  min_area_m2 := min_area_m2 criteria;
  min_area_hectares := min_area_hectares criteria;
  max_total_price := max_total_price criteria;
  max_price_per_m2 := cap;
  required_services := required_services criteria;
  preferred_services := preferred_services criteria;
  transport_importance := transport_importance criteria;
  desired_property_types := desired_property_types criteria
|}.

(** ** A sample inventory

    The two listings and the criteria of the end-to-end example of the
    specification, and the inputs on which the statements below are run. *)

Definition parcel_A : Listing := {|
  listing_id := "A";
  listing_name := "Terreno A";
  region := "Valparaíso";
  province := "";
  commune := "";
  locality := "";
  property_type := "industrial";
  area_m2 := 10000;
  price_per_m2 := 5000;
  zoning := "ZI";
  services := ["agua"; "electricidad"];
  transport := {[ "distancia_km" := PNum 2.5 ]};
  topography := "";
  notes := "";
  url := ""
|}%string.

Definition parcel_B : Listing := {|
  listing_id := "B";
  listing_name := "Terreno B";
  region := "Maule";
  province := "";
  commune := "";
  locality := "";
  property_type := "industrial";
  area_m2 := 3000;
  price_per_m2 := 4000;
  zoning := "ZI";
  services := ["electricidad"];
  transport := ∅;
  topography := "";
  notes := "";
  url := ""
|}%string.

(** A plot of two square metres. *)
Definition small_plot : Listing := {|
  listing_id := "P";
  listing_name := "Sitio";
  region := "Maule";
  province := "";
  commune := "";
  locality := "";
  property_type := "sitio";
  area_m2 := 2;
  price_per_m2 := 4000;
  zoning := "ZH";
  services := [];
  transport := ∅;
  topography := "";
  notes := "";
  url := ""
|}%string.

(** [required_services=["electricidad"], min_area_m2=5000] *)
Definition example_criteria : SearchCriteria := {|
  preferred_regions := [];
  preferred_macrozones := [];
  target_zonings := [];
  min_area_m2 := 5000;
  min_area_hectares := 0;
  max_total_price := None;
  max_price_per_m2 := None;
  required_services := ["electricidad"%string];
  preferred_services := [];
  transport_importance := ∅;
  desired_property_types := []
|}.

(** [max_total_price=0, max_price_per_m2=0] *)
Definition zero_cap_criteria : SearchCriteria :=
  with_max_total_price (Some 0) (with_max_price_per_m2 (Some 0) default_criteria).

(** [preferred_regions=["maule"]] *)
Definition maule_criteria : SearchCriteria :=
  with_preferred_regions ["maule"%string] default_criteria.

(** ** data_loader.py: building the listings

    As for the criteria, an instance of the dataclass [Listing] is its
    attribute dictionary.  The constructor raises [TypeError] on a keyword
    that is not a field and on a missing field without default. *)

(** The fields without default, in the order of the class. *)
Definition listing_required : list string :=
  ["id"; "name"; "region"; "province"; "commune"; "locality";
   "property_type"; "area_m2"; "price_per_m2"; "zoning"; "services";
   "transport"; "topography"]%string.

(** [notes: str = ""] and [url: str = ""] *)
Definition listing_defaults : gmap string pyval :=
  list_to_map [("notes", PStr ""); ("url", PStr "")]%string.

Definition listing_fields : gset string :=
  list_to_set listing_required ∪ dom listing_defaults.

(** The constructor call on the keyword arguments of a row. *)
Definition Listing_new (kwargs : gmap string pyval)
    : result (gmap string pyval) :=
  if negb (bool_decide (dom kwargs ⊆ listing_fields)) then Raise TypeError
  else if negb (bool_decide (list_to_set listing_required ⊆ dom kwargs))
  then Raise TypeError
  else Ok (kwargs ∪ listing_defaults).

(** The list comprehension: one constructor call for each row, in order. *)
Definition listings_from_iterable (rows : list (gmap string pyval))
    : result (list (gmap string pyval)) :=
  for_each (λ (listings : list (gmap string pyval)) row,
              listing ← Listing_new row; Ok (listings ++ [listing]))
           rows [].

(** A row with every required field and no unknown one. *)
Definition well_keyed (row : gmap string pyval) : Prop :=
  list_to_set listing_required ⊆ dom row ∧ dom row ⊆ listing_fields.

(** The names of the macrozones, and the one of an unknown region. *)
Definition macrozone_names : list string :=
  ["Norte Grande"; "Norte Chico"; "Zona Centro"; "Zona Centro-Sur";
   "Zona Sur"; "Zona Austral"; "Zona Desconocida"]%string.

(** ** Strings

    A string is the sequence of the bytes of its UTF-8 encoding.  The
    patterns below are searched from left to right without overlap, as
    [str.replace], [str.count] and [str.split] do; on well-formed UTF-8 a
    match of the bytes is a match of the characters. *)

(** [bool(s)] *)
Definition truthy_str (s : string) : bool :=
  match s with
  | EmptyString => false
  | String _ _ => true
  end.

(** [s.replace(old, new)] for a non-empty [old], and with [Some n] as
    [limit], [s.replace(old, new, n)].  [skip] counts the characters of a
    match that are still to be passed over. *)
Fixpoint replace_from (old new : string) (limit : option nat) (skip : nat)
    (s : string) : string :=
  match s with
  | EmptyString => EmptyString
  | String c s' =>
      match skip with
      | S k => replace_from old new limit k s'
      | O =>
          match limit with
          | Some O => s
          | _ =>
              if String.prefix old s
              then new +:+ replace_from old new (pred <$> limit)
                                        (String.length old - 1) s'
              else String c (replace_from old new limit 0 s')
          end
      end
  end.

Definition replace (old new s : string) : string :=
  replace_from old new None 0 s.

Definition replace_n (old new : string) (n : nat) (s : string) : string :=
  replace_from old new (Some n) 0 s.

(** [s.count(sub)] for a non-empty [sub]. *)
Fixpoint count_from (sub : string) (skip : nat) (s : string) : nat :=
  match s with
  | EmptyString => 0
  | String c s' =>
      match skip with
      | S k => count_from sub k s'
      | O =>
          if String.prefix sub s
          then S (count_from sub (String.length sub - 1) s')
          else count_from sub 0 s'
      end
  end.

Definition count (sub s : string) : nat := count_from sub 0 s.

(** [s.split(sep)] for a separator of one character. *)
Fixpoint split (sep : Ascii.ascii) (s : string) : list string :=
  match s with
  | EmptyString => [EmptyString]
  | String c s' =>
      if Ascii.eqb c sep then EmptyString :: split sep s'
      else match split sep s' with
           | part :: parts => String c part :: parts
           | [] => [String c EmptyString]
           end
  end.

(** The no-break space U+00A0. *)
Definition nbsp : string :=
  String (Ascii.ascii_of_nat 194) (String (Ascii.ascii_of_nat 160) EmptyString).

(** [s] without the occurrences of the character [a]. *)
Fixpoint without_char (a : Ascii.ascii) (s : string) : string :=
  match s with
  | EmptyString => EmptyString
  | String c s' =>
      if Ascii.eqb c a then without_char a s' else String c (without_char a s')
  end.

(** Every character of [s] passes the test [p]. *)
Fixpoint all_chars (p : Ascii.ascii → bool) (s : string) : bool :=
  match s with
  | EmptyString => true
  | String c s' => p c && all_chars p s'
  end.

Definition is_digit (c : Ascii.ascii) : bool :=
  let n := Ascii.nat_of_ascii c in (48 <=? n)%nat && (n <=? 57)%nat.

Definition point : Ascii.ascii := Ascii.ascii_of_nat 46.
Definition comma : Ascii.ascii := Ascii.ascii_of_nat 44.
Definition semicolon : Ascii.ascii := Ascii.ascii_of_nat 59.

Definition is_digit_or_point (c : Ascii.ascii) : bool :=
  is_digit c || Ascii.eqb c point.

(** ** web.py: results and exceptions

    A call of web.py returns, raises [IndexError] (the first element of an
    empty list), or raises what the agent raises. *)

Inductive web_result (A : Type) : Type :=
  | Returns (a : A)
  | IndexError
  | Raises (e : exn).
Arguments Returns {A} a.
Arguments IndexError {A}.
Arguments Raises {A} e.

#[global] Instance web_result_ret : MRet web_result := fun _ a => Returns a.
#[global] Instance web_result_bind : MBind web_result := fun _ _ f m =>
  match m with
  | Returns a => f a
  | IndexError => IndexError
  | Raises e => Raises e
  end.

(** A call of the agent inside web.py. *)
Definition lift {A : Type} (r : result A) : web_result A :=
  match r with
  | Ok a => Returns a
  | Raise e => Raises e
  end.

(** [xs[0]] *)
Definition first (xs : list string) : web_result string :=
  match xs with
  | x :: _ => Returns x
  | [] => IndexError
  end.

(** A simple reading of decimal numerals, to run the definitions: digits
    with at most one point. *)
Fixpoint digits_value (acc : Z) (s : string) : option Z :=
  match s with
  | EmptyString => Some acc
  | String c s' =>
      if is_digit c
      then digits_value (10 * acc + Z.of_nat (Ascii.nat_of_ascii c - 48)) s'
      else None
  end.

Definition decimal_of (s : string) : option Q :=
  match split point s with
  | [whole] =>
      if truthy_str whole then inject_Z <$> digits_value 0 whole else None
  | [whole; frac] =>
      if truthy_str (whole +:+ frac)
      then n ← digits_value 0 (whole +:+ frac);
           Some (inject_Z n / inject_Z (10 ^ Z.of_nat (String.length frac)))
      else None
  | _ => None
  end.

(** Removal of the blanks of ASCII at both ends. *)
Definition is_blank (c : Ascii.ascii) : bool :=
  let n := Ascii.nat_of_ascii c in
  ((9 <=? n)%nat && (n <=? 13)%nat) || ((28 <=? n)%nat && (n <=? 32)%nat).

Fixpoint lstrip (s : string) : string :=
  match s with
  | EmptyString => EmptyString
  | String c s' => if is_blank c then lstrip s' else s
  end.

Fixpoint rstrip (s : string) : string :=
  match s with
  | EmptyString => EmptyString
  | String c s' =>
      match rstrip s' with
      | EmptyString => if is_blank c then EmptyString else String c EmptyString
      | rest => String c rest
      end
  end.

Definition ascii_strip (s : string) : string := rstrip (lstrip s).

(** [s] with [new] in the place of every occurrence of the character [a]:
    what [replace] does for a pattern of one character. *)
Fixpoint subst_char (a : Ascii.ascii) (new s : string) : string :=
  match s with
  | EmptyString => EmptyString
  | String c s' =>
      if Ascii.eqb c a then new +:+ subst_char a new s'
      else String c (subst_char a new s')
  end.

(** The number of occurrences of the character [a] in [s]. *)
Fixpoint count_char (a : Ascii.ascii) (s : string) : nat :=
  match s with
  | EmptyString => 0
  | String c s' => if Ascii.eqb c a then S (count_char a s') else count_char a s'
  end.

(** ** Further sample inputs *)

(** [max_total_price=60000000, max_price_per_m2=6000] *)
Definition capped_criteria : SearchCriteria :=
  with_max_total_price (Some 60000000)
    (with_max_price_per_m2 (Some 6000) default_criteria).

(** The row of listing A in the inventory file. *)
Definition row_A : gmap string pyval :=
  list_to_map [
    ("id", PStr "A"); ("name", PStr "Terreno A");
    ("region", PStr "Valparaíso"); ("province", PStr "");
    ("commune", PStr ""); ("locality", PStr "");
    ("property_type", PStr "industrial"); ("area_m2", PNum 10000);
    ("price_per_m2", PNum 5000); ("zoning", PStr "ZI");
    ("services", PList [PStr "agua"; PStr "electricidad"]);
    ("transport", PDict [("distancia_km", PNum 2.5)]);
    ("topography", PStr "")
  ]%string.

(** [region=Maule&min_area=1,5&area_unit=ha&max_price=0&required_services=agua;luz] *)
Definition sample_query : gmap string (list string) :=
  list_to_map [
    ("region", ["Maule"]); ("min_area", ["1,5"]); ("area_unit", ["ha"]);
    ("max_price", ["0"]); ("required_services", ["agua; luz"])
  ]%string.

(** ** The scoring engine on Python's numbers

    The exact rationals above have no rounding, no infinity, no NaN and no
    integer too large for a float.  The module [Float64] embeds the filter,
    the scoring engine and the ranking of [agent.py] a second time, on the
    numbers Python computes with.
    - An [int] is an integer of [Z]; [bool] is a subclass of [int].
    - A [float] is a number of the binary64 format: a [spec_float] of the
      Standard Library at precision 53 and maximal exponent 1024, with its
      signed zeros, its infinities and its NaN; [+], [-], [*] and [/] round
      to the nearest float, ties to even.  The floats of the format are the
      [valid_binary] ones; the statements hold for every [spec_float].
    - [int * int] is exact.  An operation that mixes [int] and [float]
      converts the [int] first, which raises [OverflowError] when it is out
      of the range of the floats; so does [int / int] when the quotient is.
      [/] raises [ZeroDivisionError] on a zero divisor.  The other float
      operations do not raise: they overflow to an infinity.
    - [max(a, b)] is [b] when [b > a] and [a] otherwise, [min(a, b)] is [b]
      when [b < a] and [a] otherwise; a comparison with NaN is false.
    - A [dict] whose order is observed is an association list in insertion
      order.
    - [str.lower], [round(x, 2)] on a float and the built-in sort are
      parameters: nothing is assumed about them. *)

Module Float64.

Definition prec : Z := 53%Z.
Definition emax : Z := 1024%Z.

(** *** Exceptions and results *)

Inductive exn : Type :=
  | ZeroDivisionError
  | OverflowError.

Inductive result (A : Type) : Type :=
  | Ok (a : A)
  | Raise (e : exn).
Arguments Ok {A} a.
Arguments Raise {A} e.

#[global] Instance result_ret : MRet result := fun _ a => Ok a.
#[global] Instance result_bind : MBind result := fun _ _ f m =>
  match m with
  | Ok a => f a
  | Raise e => Raise e
  end.

Fixpoint for_each {A S : Type} (body : S → A → result S) (l : list A) (s : S)
    : result S :=
  match l with
  | [] => Ok s
  | x :: l' => s' ← body s x; for_each body l' s'
  end.

(** *** Floats *)

Definition fadd : spec_float → spec_float → spec_float := SFadd prec emax.
Definition fsub : spec_float → spec_float → spec_float := SFsub prec emax.
Definition fmul : spec_float → spec_float → spec_float := SFmul prec emax.
Definition fdiv : spec_float → spec_float → spec_float := SFdiv prec emax.

Definition is_zero (x : spec_float) : bool :=
  match x with
  | S754_zero _ => true
  | _ => false
  end.

Definition is_infinite (x : spec_float) : bool :=
  match x with
  | S754_infinity _ => true
  | _ => false
  end.

(** [math.isfinite(x)] *)
Definition is_finite (x : spec_float) : bool :=
  match x with
  | S754_zero _ | S754_finite _ _ _ => true
  | S754_infinity _ | S754_nan => false
  end.

(** An integer as a significand with exponent 0: exact, not normalised. *)
Definition exact (n : Z) : spec_float :=
  match n with
  | Z0 => S754_zero false
  | Zpos p => S754_finite false p 0
  | Zneg p => S754_finite true p 0
  end.

(** The float nearest to the quotient [n / d] of two integers, [d] not
    zero: an infinity when the quotient is out of range. *)
Definition nearest (n d : Z) : spec_float := SFdiv prec emax (exact n) (exact d).

(** The float of a decimal literal: [decimal 25 2] is [0.25], [decimal 1 9]
    is [1e-9]. *)
Definition decimal (digits places : Z) : spec_float :=
  nearest digits (10 ^ places).

(** [max(x, y)] and [min(x, y)] of two floats. *)
Definition fmax (x y : spec_float) : spec_float := if SFltb x y then y else x.
Definition fmin (x y : spec_float) : spec_float := if SFltb y x then y else x.

(** *** Numbers *)

Inductive number : Type :=
  | PyInt (n : Z)
  | PyFloat (x : spec_float).

(** [float(n)] of an [int]. *)
Definition float_of_int (n : Z) : result spec_float :=
  let x := nearest n 1 in
  if is_infinite x then Raise OverflowError else Ok x.

(** [n / d] of two [int]s. *)
Definition int_truediv (n d : Z) : result spec_float :=
  if (d =? 0)%Z then Raise ZeroDivisionError else
  let x := nearest n d in
  if is_infinite x then Raise OverflowError else Ok x.

(** The conversion of an operand of a mixed operation. *)
Definition to_float (a : number) : result spec_float :=
  match a with
  | PyInt n => float_of_int n
  | PyFloat x => Ok x
  end.

Definition add (a b : number) : result number :=
  match a, b with
  | PyInt m, PyInt n => Ok (PyInt (m + n))
  | _, _ => x ← to_float a; y ← to_float b; Ok (PyFloat (fadd x y))
  end.

Definition sub (a b : number) : result number :=
  match a, b with
  | PyInt m, PyInt n => Ok (PyInt (m - n))
  | _, _ => x ← to_float a; y ← to_float b; Ok (PyFloat (fsub x y))
  end.

Definition mul (a b : number) : result number :=
  match a, b with
  | PyInt m, PyInt n => Ok (PyInt (m * n))
  | _, _ => x ← to_float a; y ← to_float b; Ok (PyFloat (fmul x y))
  end.

(** [a / b] *)
Definition truediv (a b : number) : result spec_float :=
  match a, b with
  | PyInt m, PyInt n => int_truediv m n
  | _, _ =>
      x ← to_float a; y ← to_float b;
      if is_zero y then Raise ZeroDivisionError else Ok (fdiv x y)
  end.

(** The comparison of an [int] with a float is exact. *)
Definition compare_int_float (n : Z) (x : spec_float) : option comparison :=
  match x with
  | S754_nan => None
  | S754_infinity s => Some (if s then Gt else Lt)
  | S754_zero _ => Some (n ?= 0)%Z
  | S754_finite s m e =>
      let v := cond_Zopp s (Zpos m) in
      Some (if (0 <=? e)%Z then (n ?= v * 2 ^ e)%Z
            else (n * 2 ^ (- e) ?= v)%Z)
  end.

Definition compare (a b : number) : option comparison :=
  match a, b with
  | PyInt m, PyInt n => Some (m ?= n)%Z
  | PyFloat x, PyFloat y => SFcompare x y
  | PyInt m, PyFloat y => compare_int_float m y
  | PyFloat x, PyInt n => CompOpp <$> compare_int_float n x
  end.

(** [a < b], [a > b] and [a <= b] *)
Definition lt (a b : number) : bool :=
  match compare a b with
  | Some Lt => true
  | _ => false
  end.

Definition gt (a b : number) : bool :=
  match compare a b with
  | Some Gt => true
  | _ => false
  end.

Definition le (a b : number) : bool :=
  match compare a b with
  | Some (Lt | Eq) => true
  | _ => false
  end.

(** [max(a, b)] and [min(a, b)] *)
Definition pymax (a b : number) : number := if gt b a then b else a.
Definition pymin (a b : number) : number := if lt b a then b else a.

(** [abs(a)] *)
Definition pyabs (a : number) : number :=
  match a with
  | PyInt n => PyInt (Z.abs n)
  | PyFloat x => PyFloat (SFabs x)
  end.

(** Truth value of a number: false for [0], [0.0] and [-0.0] only. *)
Definition truthy_num (a : number) : bool :=
  match a with
  | PyInt n => negb (n =? 0)%Z
  | PyFloat x => negb (is_zero x)
  end.

(** [sum(xs)]: the items are added to [0] from left to right.  (CPython
    from 3.12 on adds floats with a compensation term, which can change
    the last bits of the sum of three or more floats.  The statements use
    [sum] for the weights, where only what it raises matters, and for the
    entries of the breakdown, where it is the sum that the [score +=] of
    the scoring engine builds.) *)
Definition sum (xs : list number) : result number := for_each add xs (PyInt 0).

(** *** Values of the JSON inventory *)

#[local] Unset Elimination Schemes.
Inductive value : Type :=
  | VNone
  | VBool (b : bool)
  | VNum (a : number)
  | VStr (s : string)
  | VList (l : list value)
  | VDict (d : list (string * value)).
#[local] Set Elimination Schemes.

Definition truthy (v : value) : bool :=
  match v with
  | VNone => false
  | VBool b => b
  | VNum a => truthy_num a
  | VStr s => negb (String.eqb s "")
  | VList l => truthy_seq l
  | VDict d => truthy_seq d
  end.

Definition truthy_get (v : option value) : bool :=
  match v with
  | Some v => truthy v
  | None => false
  end.

(** [isinstance(v, (int, float))], with the number when it holds. *)
Definition as_number (v : option value) : option number :=
  match v with
  | Some (VNum a) => Some a
  | Some (VBool b) => Some (PyInt (if b then 1 else 0))
  | _ => None
  end.

(** [d[k] = v] on a dictionary in insertion order: the value of a key that
    is present is replaced in place, a new key goes to the end. *)
Fixpoint dict_set {A : Type} (k : string) (v : A) (d : list (string * A))
    : list (string * A) :=
  match d with
  | [] => [(k, v)]
  | (k', v') :: d' =>
      if String.eqb k' k then (k', v) :: d' else (k', v') :: dict_set k v d'
  end.

(** *** The records *)

Record Listing : Type := {
  listing_id : string;
  listing_name : string;
  region : string;
  province : string;
  commune : string;
  locality : string;
  property_type : string;
  area_m2 : number;
  price_per_m2 : number;
  zoning : string;
  services : list string;
  transport : gmap string value;
  topography : string;
  notes : string;
  url : string
}.

Definition total_price (self : Listing) : result number :=
  mul (area_m2 self) (price_per_m2 self).

Definition macrozone (self : Listing) : string :=
  default "Zona Desconocida"%string (MACROZONE_BY_REGION !! region self).

Record SearchCriteria : Type := {
  preferred_regions : list string;
  preferred_macrozones : list string;
  target_zonings : list string;
  min_area_m2 : number;
  min_area_hectares : number;
  max_total_price : option number;
  max_price_per_m2 : option number;
  required_services : list string;
  preferred_services : list string;
  transport_importance : list (string * number);
  desired_property_types : list string
}.

Definition _area_threshold_m2 (self : SearchCriteria) : result number :=
  let min_m2 := pymax (min_area_m2 self) (PyFloat (decimal 0 0)) in
  if truthy_num (min_area_hectares self)
  then hectares_m2 ← mul (min_area_hectares self) (PyInt 10000);
       Ok (pymax min_m2 hectares_m2)
  else Ok min_m2.

Record Highlights : Type := {
  h_region : string;
  h_macrozona : string;
  h_ubicacion : string;
  h_servicios_cubiertos : list string;
  h_servicios_preferidos : list string;
  h_precio_total_clp : number;
  h_precio_m2_clp : number;
  h_transporte : gmap string value;
  h_area_m2 : number;
  h_area_ha : spec_float
}.

Record SearchResult : Type := {
  listing : Listing;
  score : spec_float;
  breakdown : list (string * spec_float);
  highlights : Highlights
}.

(** [len(s)] *)
Definition len (s : gset string) : Z := Z.of_nat (size s).

(** *** The filter, the scoring engine and the ranking *)

Section Engine.

Variable lower : string → string.

(** [round(x, 2)] of a float. *)
Variable round2 : spec_float → spec_float.

(** The list after [results.sort(key=lambda result: result.score,
    reverse=True)]. *)
Variable sort_by_score : list SearchResult → list SearchResult.

Definition lowered (xs : list string) : gset string :=
  list_to_set (lower <$> xs).

Definition rejects (value : string) (preferred : list string) : bool :=
  if truthy_seq preferred
  then negb (bool_decide (lower value ∈ lowered preferred))
  else false.

Definition matches (self : SearchCriteria) (listing : Listing) : result bool :=
  if rejects (macrozone listing) (preferred_macrozones self) then Ok false else
  if rejects (region listing) (preferred_regions self) then Ok false else
  if rejects (property_type listing) (desired_property_types self)
  then Ok false else
  if rejects (zoning listing) (target_zonings self) then Ok false else
  min_area ← _area_threshold_m2 self;
  if lt (area_m2 listing) min_area then Ok false else
  over ←
    match max_total_price self with
    | Some cap => total ← total_price listing; Ok (gt total cap)
    | None => Ok false
    end;
  if over : bool then Ok false else
  if match max_price_per_m2 self with
     | Some cap => gt (price_per_m2 listing) cap
     | None => false
     end then Ok false else
  let services := lowered (services listing) in
  Ok (forallb (λ service, bool_decide (lower service ∈ services))
              (required_services self)).

(** [max(0.0, 1.0 - min(r, bound))] *)
Definition headroom (r bound : spec_float) : spec_float :=
  fmax (decimal 0 0) (fsub (decimal 1 0) (fmin r bound)).

Definition _mode_availability (mode : string) (data : gmap string value)
    : result spec_float :=
  let mode := lower mode in
  if String.eqb mode "carretera" then
    let distance := data !! "distancia_km"%string in
    match as_number distance with
    | Some distance =>
        r ← truediv distance (PyFloat (decimal 10 0));
        Ok (headroom r (decimal 1 0))
    | None =>
        Ok (if bool_decide ("carretera"%string ∈ dom data)
            then decimal 7 1 else decimal 0 0)
    end
  else if String.eqb mode "ferrocarril" then
    let value := data !! "ferrocarril"%string in
    match value with
    | Some (VBool b) => Ok (if b then decimal 1 0 else decimal 0 0)
    | _ => Ok (if truthy_get value then decimal 5 1 else decimal 0 0)
    end
  else if String.eqb mode "aeropuerto" then
    let distance := data !! "aeropuerto_km"%string in
    match as_number distance with
    | Some distance =>
        r ← truediv distance (PyFloat (decimal 50 0));
        Ok (headroom r (decimal 1 0))
    | None => Ok (decimal 0 0)
    end
  else Ok (if truthy_get (data !! mode) then decimal 5 1 else decimal 0 0).

Definition _transport_score (listing : Listing)
    (importance : list (string * number)) : result spec_float :=
  if negb (truthy_seq importance) then Ok (decimal 6 1) else
  let normalized : list (string * spec_float) := [] in
  s ← sum importance.*2;
  total ← to_float s;
  let total := if negb (is_zero total) then total else decimal 1 0 in
  normalized ←
    for_each (λ (normalized : list (string * spec_float)) '(key, value),
                w ← truediv value (PyFloat total);
                Ok (dict_set key w normalized))
             importance normalized;
  let data := transport listing in
  for_each (λ (score : spec_float) '(mode, weight),
              availability ← _mode_availability mode data;
              Ok (fadd score (fmul weight availability)))
           normalized (decimal 0 0).

Definition _score_listing (listing : Listing) (criteria : SearchCriteria)
    : result (spec_float * list (string * spec_float) * Highlights) :=
  let breakdown : list (string * spec_float) := [] in
  let score := decimal 0 0 in
  (* Ubicación *)
  let '(value, ubicacion) :=
    if truthy_seq (preferred_regions criteria) then
      if bool_decide (region listing ∈ preferred_regions criteria)
      then (decimal 1 0, "Región preferida"%string)
      else (decimal 4 1, "Región alternativa"%string)
    else if truthy_seq (preferred_macrozones criteria) then
      if bool_decide (macrozone listing ∈ preferred_macrozones criteria)
      then (decimal 9 1, "Macrozona preferida"%string)
      else (decimal 5 1, "Macrozona alternativa"%string)
    else (decimal 7 1, "Sin preferencia"%string) in
  let breakdown := dict_set "ubicación" (fmul value (decimal 25 2)) breakdown in
  let score := fadd score (fmul value (decimal 25 2)) in
  (* Servicios *)
  let services := lowered (services listing) in
  let required := lowered (required_services criteria) in
  let preferred := lowered (preferred_services criteria) in
  coverage ←
    (if truthy_seq (elements required)
     then int_truediv (len (required ∩ services)) (len required)
     else Ok (decimal 1 0));
  preferred_score ←
    (if truthy_seq (elements preferred)
     then int_truediv (len (preferred ∩ services)) (len preferred)
     else Ok (decimal 5 1));
  let services_score :=
    fmul (decimal 4 1)
         (fadd (fmul (decimal 6 1) coverage)
               (fmul (decimal 4 1) preferred_score)) in
  let breakdown := dict_set "servicios" services_score breakdown in
  let score := fadd score services_score in
  (* Precio *)
  let price_weight := decimal 2 1 in
  price_component ←
    match max_total_price criteria with
    | Some cap =>
        if truthy_num cap
        then total ← total_price listing;
             ratio ← truediv total cap;
             Ok (headroom ratio (decimal 15 1))
        else Ok (decimal 6 1)
    | None => Ok (decimal 6 1)
    end;
  price_component ←
    match max_price_per_m2 criteria with
    | Some cap =>
        if truthy_num cap
        then ratio_m2 ← truediv (price_per_m2 listing) cap;
             truediv (PyFloat (fadd price_component
                                    (headroom ratio_m2 (decimal 15 1))))
                     (PyInt 2)
        else Ok price_component
    | None => Ok price_component
    end;
  let breakdown :=
    dict_set "precio" (fmul price_component price_weight) breakdown in
  let score := fadd score (fmul price_component price_weight) in
  total ← total_price listing;
  let precio_total_clp :=
    match total with
    | PyInt n => PyInt n
    | PyFloat x => PyFloat (round2 x)
    end in
  (* Transporte y conectividad *)
  transport_score ← _transport_score listing (transport_importance criteria);
  let breakdown :=
    dict_set "conectividad" (fmul transport_score (decimal 15 2)) breakdown in
  let score := fadd score (fmul transport_score (decimal 15 2)) in
  (* Superficie *)
  threshold ← _area_threshold_m2 criteria;
  area_ratio ← truediv (area_m2 listing) (pymax threshold (PyInt 1));
  quarter ← truediv (PyFloat area_ratio) (PyInt 4);
  let area_score := fmin quarter (decimal 1 0) in
  let breakdown :=
    dict_set "superficie" (fmul area_score (decimal 2 1)) breakdown in
  let score := fadd score (fmul area_score (decimal 2 1)) in
  area_ha ← truediv (area_m2 listing) (PyInt 10000);
  let highlights := {|
    h_region := region listing;
    h_macrozona := macrozone listing;
    h_ubicacion := ubicacion;
    h_servicios_cubiertos := sorted (required ∩ services);
    h_servicios_preferidos := sorted (preferred ∩ services);
    h_precio_total_clp := precio_total_clp;
    h_precio_m2_clp := price_per_m2 listing;
    h_transporte := transport listing;
    h_area_m2 := area_m2 listing;
    h_area_ha := area_ha
  |} in
  Ok (score, breakdown, highlights).

Definition search (_listings : list Listing) (criteria : SearchCriteria)
    (top_n : Z) : result (list SearchResult) :=
  results ←
    for_each (λ (results : list SearchResult) (listing : Listing),
                passes ← matches criteria listing;
                if negb passes then Ok results else
                '(score, breakdown, highlights) ← _score_listing listing criteria;
                Ok (results ++ [Build_SearchResult listing score breakdown highlights]))
             _listings [];
  let results := sort_by_score results in
  Ok (slice_to top_n results).

End Engine.

(** *** Definitions for the statements *)

(** [abs(sum(breakdown.values()) - score) <= 1e-9] *)
Definition sums_to_score (breakdown : list (string * spec_float))
    (score : spec_float) : result bool :=
  total ← sum (PyFloat <$> breakdown.*2);
  difference ← sub total (PyFloat score);
  Ok (le (pyabs difference) (PyFloat (decimal 1 9))).

(** A computation that raises no [ZeroDivisionError], and that returns
    when [ok] holds. *)
Definition guarded {A : Type} (ok : Prop) (m : result A) : Prop :=
  m ≠ Raise ZeroDivisionError ∧ (ok → ∃ a, m = Ok a).

(** An [int] below [2 ^ 500] in absolute value, or any float. *)
Definition bounded (a : number) : Prop :=
  match a with
  | PyInt n => (Z.abs n < 2 ^ 500)%Z
  | PyFloat _ => True
  end.

(** An [int] below [2 ^ 1022] in absolute value, or any float. *)
Definition fits (a : number) : Prop :=
  match a with
  | PyInt n => (Z.abs n < 2 ^ 1022)%Z
  | PyFloat _ => True
  end.

(** The two distances of a transport mapping are bounded. *)
Definition bounded_distances (data : gmap string value) : Prop :=
  ∀ key a, key ∈ ["distancia_km"; "aeropuerto_km"]%string →
           as_number (data !! key) = Some a → bounded a.

(** The inputs whose [int]s are all bounded: the numbers of the listing
    and of the criteria, the weights, of which there are fewer than
    [2 ^ 500], and the two distances. *)
Definition in_range (listing : Listing) (criteria : SearchCriteria) : Prop :=
  bounded (area_m2 listing)
  ∧ bounded (price_per_m2 listing)
  ∧ bounded (min_area_m2 criteria)
  ∧ bounded (min_area_hectares criteria)
  ∧ (∀ cap, max_total_price criteria = Some cap → bounded cap)
  ∧ (∀ cap, max_price_per_m2 criteria = Some cap → bounded cap)
  ∧ Forall (λ kv : string * number, bounded kv.2)
           (transport_importance criteria)
  ∧ (Z.of_nat (length (transport_importance criteria)) < 2 ^ 500)%Z
  ∧ bounded_distances (transport listing).

(** *** Instances of the parameters, to run the definitions *)

(** The value of a finite float. *)
Definition rational (x : spec_float) : Q :=
  match x with
  | S754_finite s m e => inject_Z (cond_Zopp s (Zpos m)) * 2 ^ e
  | _ => 0
  end.

(** [round(x, 2)]: the float nearest to the value of [x] rounded to two
    decimals, ties to the even one. *)
Definition round_to_cents (x : spec_float) : spec_float :=
  match x with
  | S754_finite s m e =>
      let cents := round_half_even (rational x * 100) in
      if (cents =? 0)%Z then S754_zero s else nearest cents 100
  | _ => x
  end.

(** The stable descending sort, which is the order of the built-in sort
    when no score is NaN. *)
Fixpoint insert_result (r : SearchResult) (rs : list SearchResult)
    : list SearchResult :=
  match rs with
  | [] => [r]
  | r' :: rs' =>
      if SFltb (score r) (score r') then r' :: insert_result r rs'
      else r :: r' :: rs'
  end.

Definition insertion_sort (rs : list SearchResult) : list SearchResult :=
  foldr insert_result [] rs.

(** *** Sample inputs *)

(** Listing A of the sample inventory, its numbers as floats. *)
Definition parcel_A : Listing := {|
  listing_id := "A";
  listing_name := "Terreno A";
  region := "Valparaíso";
  province := "";
  commune := "";
  locality := "";
  property_type := "industrial";
  area_m2 := PyFloat (decimal 10000 0);
  price_per_m2 := PyFloat (decimal 5000 0);
  zoning := "ZI";
  services := ["agua"; "electricidad"];
  transport := {[ "distancia_km" := VNum (PyFloat (decimal 25 1)) ]};
  topography := "";
  notes := "";
  url := ""
|}%string.

(** Listing A with an area of [10 ** 400], an [int]. *)
Definition vast_parcel : Listing := {|
  listing_id := "V";
  listing_name := "Terreno V";
  region := "Valparaíso";
  province := "";
  commune := "";
  locality := "";
  property_type := "industrial";
  area_m2 := PyInt (10 ^ 400);
  price_per_m2 := PyInt 5000;
  zoning := "ZI";
  services := ["agua"; "electricidad"];
  transport := {[ "distancia_km" := VNum (PyFloat (decimal 25 1)) ]};
  topography := "";
  notes := "";
  url := ""
|}%string.

(** Listing A with an area that is not a number, the [NaN] of JSON. *)
Definition nan_parcel : Listing := {|
  listing_id := "N";
  listing_name := "Terreno N";
  region := "Valparaíso";
  province := "";
  commune := "";
  locality := "";
  property_type := "industrial";
  area_m2 := PyFloat S754_nan;
  price_per_m2 := PyFloat (decimal 5000 0);
  zoning := "ZI";
  services := ["agua"; "electricidad"];
  transport := {[ "distancia_km" := VNum (PyFloat (decimal 25 1)) ]};
  topography := "";
  notes := "";
  url := ""
|}%string.

(** [SearchCriteria()] *)
Definition default_criteria : SearchCriteria := {|
  preferred_regions := [];
  preferred_macrozones := [];
  target_zonings := [];
  min_area_m2 := PyFloat (decimal 0 0);
  min_area_hectares := PyFloat (decimal 0 0);
  max_total_price := None;
  max_price_per_m2 := None;
  required_services := [];
  preferred_services := [];
  transport_importance := [];
  desired_property_types := []
|}.

(** [SearchCriteria(max_total_price=-1e-310)] *)
Definition tiny_cap_criteria : SearchCriteria := {|
  preferred_regions := [];
  preferred_macrozones := [];
  target_zonings := [];
  min_area_m2 := PyFloat (decimal 0 0);
  min_area_hectares := PyFloat (decimal 0 0);
  max_total_price := Some (PyFloat (decimal (-1) 310));
  max_price_per_m2 := None;
  required_services := [];
  preferred_services := [];
  transport_importance := [];
  desired_property_types := []
|}.

(** [SearchCriteria(min_area_m2=5000, max_total_price=60000000,
    required_services=["electricidad"],
    transport_importance={"carretera": 2, "ferrocarril": 1})], its numbers
    as [int]s. *)
Definition example_criteria : SearchCriteria := {|
  preferred_regions := [];
  preferred_macrozones := [];
  target_zonings := [];
  min_area_m2 := PyInt 5000;
  min_area_hectares := PyInt 0;
  max_total_price := Some (PyInt 60000000);
  max_price_per_m2 := None;
  required_services := ["electricidad"%string];
  preferred_services := [];
  transport_importance :=
    [("carretera"%string, PyInt 2); ("ferrocarril"%string, PyInt 1)];
  desired_property_types := []
|}.

End Float64.

Section Agent.

Variable lower : string → string.

(** [{x.lower() for x in xs}] *)
Definition lowered (xs : list string) : gset string :=
  list_to_set (lower <$> xs).

(** One membership rule of [matches]: with a non-empty [preferred], the
    listing is rejected when the lowered [value] is not among the lowered
    preferences. *)
Definition rejects (value : string) (preferred : list string) : bool :=
  if truthy_seq preferred
  then negb (bool_decide (lower value ∈ lowered preferred))
  else false.

Definition matches (self : SearchCriteria) (listing : Listing) : bool :=
  if rejects (macrozone listing) (preferred_macrozones self) then false else
  if rejects (region listing) (preferred_regions self) then false else
  if rejects (property_type listing) (desired_property_types self) then false else
  if rejects (zoning listing) (target_zonings self) then false else
  let min_area := _area_threshold_m2 self in
  if Qltb (area_m2 listing) min_area then false else
  if match max_total_price self with
     | Some cap => Qltb cap (total_price listing)
     | None => false
     end then false else
  if match max_price_per_m2 self with
     | Some cap => Qltb cap (price_per_m2 listing)
     | None => false
     end then false else
  let services := lowered (services listing) in
  forallb (λ service, bool_decide (lower service ∈ services))
          (required_services self).

Definition _mode_availability (mode : string) (data : gmap string pyval)
    : result Q :=
  let mode := lower mode in
  if String.eqb mode "carretera" then
    let distance := data !! "distancia_km"%string in
    match as_number distance with
    | Some distance =>
        r ← pydiv distance 10; Ok (Qmax 0 (1 - Qmin r 1))
    | None =>
        Ok (if bool_decide ("carretera"%string ∈ dom data) then 0.7 else 0)
    end
  else if String.eqb mode "ferrocarril" then
    let value := data !! "ferrocarril"%string in
    match value with
    | Some (PBool b) => Ok (if b then 1 else 0)
    | _ => Ok (if truthy_get value then 0.5 else 0)
    end
  else if String.eqb mode "aeropuerto" then
    let distance := data !! "aeropuerto_km"%string in
    match as_number distance with
    | Some distance =>
        r ← pydiv distance 50; Ok (Qmax 0 (1 - Qmin r 1))
    | None => Ok 0
    end
  else Ok (if truthy_get (data !! mode) then 0.5 else 0).

Definition _transport_score (listing : Listing) (importance : gmap string Q)
    : result Q :=
  if negb (truthy_seq (map_to_list importance)) then Ok 0.6 else
  let total :=
    let s := sum_values importance in if truthy_num s then s else 1 in
  normalized ←
    for_each (λ (normalized : gmap string Q) '(key, value),
                w ← pydiv value total; Ok (<[key := w]> normalized))
             (map_to_list importance) ∅;
  let data := transport listing in
  for_each (λ (score : Q) '(mode, weight),
              availability ← _mode_availability mode data;
              Ok (score + weight * availability))
           (map_to_list normalized) 0.

Definition _score_listing (listing : Listing) (criteria : SearchCriteria)
    : result (Q * gmap string Q * Highlights) :=
  let breakdown : gmap string Q := ∅ in
  let score := 0 in
  (* Ubicación *)
  let '(value, ubicacion) :=
    if truthy_seq (preferred_regions criteria) then
      if bool_decide (region listing ∈ preferred_regions criteria)
      then (1, "Región preferida"%string)
      else (0.4, "Región alternativa"%string)
    else if truthy_seq (preferred_macrozones criteria) then
      if bool_decide (macrozone listing ∈ preferred_macrozones criteria)
      then (0.9, "Macrozona preferida"%string)
      else (0.5, "Macrozona alternativa"%string)
    else (0.7, "Sin preferencia"%string) in
  let ubic := value * 0.25 in
  let breakdown := <["ubicación"%string := ubic]> breakdown in
  let score := score + ubic in
  (* Servicios *)
  let services := lowered (services listing) in
  let required := lowered (required_services criteria) in
  let preferred := lowered (preferred_services criteria) in
  coverage ←
    (if truthy_seq (elements required)
     then pydiv (len (required ∩ services)) (len required)
     else Ok 1);
  preferred_score ←
    (if truthy_seq (elements preferred)
     then pydiv (len (preferred ∩ services)) (len preferred)
     else Ok 0.5);
  let services_score := 0.4 * (0.6 * coverage + 0.4 * preferred_score) in
  let breakdown := <["servicios"%string := services_score]> breakdown in
  let score := score + services_score in
  (* Precio *)
  let price_weight := 0.2 in
  price_component ←
    match max_total_price criteria with
    | Some cap =>
        if truthy_num cap
        then ratio ← pydiv (total_price listing) cap;
             Ok (Qmax 0 (1 - Qmin ratio 1.5))
        else Ok 0.6
    | None => Ok 0.6
    end;
  price_component ←
    match max_price_per_m2 criteria with
    | Some cap =>
        if truthy_num cap
        then ratio_m2 ← pydiv (price_per_m2 listing) cap;
             pydiv (price_component + Qmax 0 (1 - Qmin ratio_m2 1.5)) 2
        else Ok price_component
    | None => Ok price_component
    end;
  let precio := price_component * price_weight in
  let breakdown := <["precio"%string := precio]> breakdown in
  let score := score + precio in
  (* Transporte y conectividad *)
  transport_score ← _transport_score listing (transport_importance criteria);
  let conectividad := transport_score * 0.15 in
  let breakdown := <["conectividad"%string := conectividad]> breakdown in
  let score := score + conectividad in
  (* Superficie *)
  area_ratio ← pydiv (area_m2 listing) (Qmax (_area_threshold_m2 criteria) 1);
  quarter ← pydiv area_ratio 4;
  let area_score := Qmin quarter 1 in
  let superficie := area_score * 0.2 in
  let breakdown := <["superficie"%string := superficie]> breakdown in
  let score := score + superficie in
  area_ha ← pydiv (area_m2 listing) 10000;
  let highlights := {|
    h_region := region listing;
    h_macrozona := macrozone listing;
    h_ubicacion := ubicacion;
    h_servicios_cubiertos := sorted (required ∩ services);
    h_servicios_preferidos := sorted (preferred ∩ services);
    h_precio_total_clp := round2 (total_price listing);
    h_precio_m2_clp := price_per_m2 listing;
    h_transporte := transport listing;
    h_area_m2 := area_m2 listing;
    h_area_ha := area_ha
  |} in
  Ok (score, breakdown, highlights).

(** [RealEstateSearchAgent(listings).search(criteria, top_n)], with the
    agent's [_listings] as the first argument. *)
Definition search (_listings : list Listing) (criteria : SearchCriteria)
    (top_n : Z) : result (list SearchResult) :=
  results ←
    for_each (λ (results : list SearchResult) (listing : Listing),
                if negb (matches criteria listing) then Ok results else
                '(score, breakdown, highlights) ← _score_listing listing criteria;
                Ok (results ++ [Build_SearchResult listing score breakdown highlights]))
             _listings [];
  let results := sort_by_score results in
  Ok (slice_to top_n results).

(** ** The meaning of the blocks of the scoring engine *)

(** Raw value and label of the location dimension. *)
Definition location (listing : Listing) (criteria : SearchCriteria)
    : Q * string :=
  if truthy_seq (preferred_regions criteria) then
    if bool_decide (region listing ∈ preferred_regions criteria)
    then (1, "Región preferida"%string)
    else (0.4, "Región alternativa"%string)
  else if truthy_seq (preferred_macrozones criteria) then
    if bool_decide (macrozone listing ∈ preferred_macrozones criteria)
    then (0.9, "Macrozona preferida"%string)
    else (0.5, "Macrozona alternativa"%string)
  else (0.7, "Sin preferencia"%string).

Definition location_value (listing : Listing) (criteria : SearchCriteria) : Q :=
  (location listing criteria).1.

(** Share of the wanted services that the listing has, [otherwise] when
    none is wanted. *)
Definition share (wanted available : gset string) (otherwise : Q) : Q :=
  if truthy_seq (elements wanted)
  then len (wanted ∩ available) / len wanted
  else otherwise.

Definition services_value (listing : Listing) (criteria : SearchCriteria) : Q :=
  let services := lowered (services listing) in
  0.4 * (0.6 * share (lowered (required_services criteria)) services 1
         + 0.4 * share (lowered (preferred_services criteria)) services 0.5).

(** [max(0.0, 1.0 - min(x / cap, 1.5))] *)
Definition headroom (x cap : Q) : Q := Qmax 0 (1 - Qmin (x / cap) 1.5).

(** A cap takes part in the price dimension when it is set and not zero. *)
Definition active_cap (cap : option Q) : option Q :=
  match cap with
  | Some c => if truthy_num c then Some c else None
  | None => None
  end.

Definition price_component_value (listing : Listing) (criteria : SearchCriteria)
    : Q :=
  let total :=
    match active_cap (max_total_price criteria) with
    | Some cap => headroom (total_price listing) cap
    | None => 0.6
    end in
  match active_cap (max_price_per_m2 criteria) with
  | Some cap => (total + headroom (price_per_m2 listing) cap) / 2
  | None => total
  end.

Definition transport_value (listing : Listing) (criteria : SearchCriteria) : Q :=
  match _transport_score listing (transport_importance criteria) with
  | Ok t => t
  | Raise _ => 0
  end.

Definition area_value (listing : Listing) (criteria : SearchCriteria) : Q :=
  Qmin (area_m2 listing / Qmax (_area_threshold_m2 criteria) 1 / 4) 1.

Definition breakdown_value (listing : Listing) (criteria : SearchCriteria)
    : gmap string Q :=
  <["superficie"%string := area_value listing criteria * 0.2]>
  (<["conectividad"%string := transport_value listing criteria * 0.15]>
  (<["precio"%string := price_component_value listing criteria * 0.2]>
  (<["servicios"%string := services_value listing criteria]>
  (<["ubicación"%string := location_value listing criteria * 0.25]> ∅)))).

Definition score_value (listing : Listing) (criteria : SearchCriteria) : Q :=
  0 + location_value listing criteria * 0.25
    + services_value listing criteria
    + price_component_value listing criteria * 0.2
    + transport_value listing criteria * 0.15
    + area_value listing criteria * 0.2.

Definition highlights_value (listing : Listing) (criteria : SearchCriteria)
    : Highlights :=
  let services := lowered (services listing) in {|
    h_region := region listing;
    h_macrozona := macrozone listing;
    h_ubicacion := (location listing criteria).2;
    h_servicios_cubiertos :=
      sorted (lowered (required_services criteria) ∩ services);
    h_servicios_preferidos :=
      sorted (lowered (preferred_services criteria) ∩ services);
    h_precio_total_clp := round2 (total_price listing);
    h_precio_m2_clp := price_per_m2 listing;
    h_transporte := transport listing;
    h_area_m2 := area_m2 listing;
    h_area_ha := area_m2 listing / 10000
  |}.

(** The result that [search] appends for a listing that passes the filter. *)
Definition scored (criteria : SearchCriteria) (listing : Listing)
    : SearchResult := {|
  listing := listing;
  score := score_value listing criteria;
  breakdown := breakdown_value listing criteria;
  highlights := highlights_value listing criteria
|}.

(** The listings of the repository that pass the filter, in its order. *)
Definition survivors (_listings : list Listing) (criteria : SearchCriteria)
    : list Listing :=
  filter (λ listing, Is_true (matches criteria listing)) _listings.

(** A constraint of the criteria that the listing violates. *)
Definition violates (criteria : SearchCriteria) (listing : Listing) : Prop :=
  (preferred_macrozones criteria ≠ []
   ∧ lower (macrozone listing) ∉ lowered (preferred_macrozones criteria))
  ∨ (preferred_regions criteria ≠ []
     ∧ lower (region listing) ∉ lowered (preferred_regions criteria))
  ∨ (desired_property_types criteria ≠ []
     ∧ lower (property_type listing) ∉ lowered (desired_property_types criteria))
  ∨ (target_zonings criteria ≠ []
     ∧ lower (zoning listing) ∉ lowered (target_zonings criteria))
  ∨ area_m2 listing < _area_threshold_m2 criteria
  ∨ (∃ cap, max_total_price criteria = Some cap ∧ cap < total_price listing)
  ∨ (∃ cap, max_price_per_m2 criteria = Some cap ∧ cap < price_per_m2 listing)
  ∨ (∃ service, service ∈ required_services criteria
                ∧ lower service ∉ lowered (services listing)).

(** Criteria without any constraint. *)
Definition unconstrained (criteria : SearchCriteria) : Prop :=
  preferred_macrozones criteria = []
  ∧ preferred_regions criteria = []
  ∧ desired_property_types criteria = []
  ∧ target_zonings criteria = []
  ∧ min_area_m2 criteria == 0
  ∧ min_area_hectares criteria == 0
  ∧ max_total_price criteria = None
  ∧ max_price_per_m2 criteria = None
  ∧ required_services criteria = [].

(** The price component as the specification words it: a cap counts as soon
    as it is set, and the quotient by it is the division of the program. *)
Definition price_component_claimed (listing : Listing)
    (criteria : SearchCriteria) : result Q :=
  price_component ←
    match max_total_price criteria with
    | None => Ok 0.6
    | Some cap =>
        ratio ← pydiv (total_price listing) cap;
        Ok (Qmax 0 (1 - Qmin ratio 1.5))
    end;
  match max_price_per_m2 criteria with
  | None => Ok price_component
  | Some cap =>
      ratio ← pydiv (price_per_m2 listing) cap;
      Ok ((price_component + Qmax 0 (1 - Qmin ratio 1.5)) / 2)
  end.

(** The price entry as the specification states it. *)
Definition claimed_price_entry (listing : Listing) (criteria : SearchCriteria)
    : Prop :=
  ∃ pc sc bd hl v,
    price_component_claimed listing criteria = Ok pc
    ∧ _score_listing listing criteria = Ok (sc, bd, hl)
    ∧ bd !! "precio"%string = Some v
    ∧ v == 0.2 * pc.

(** A key [k] is inert in [data]: building the criteria with it gives the
    object that is built without it. *)
Definition inert (k : string) (v : pyval) (data : gmap string pyval) : Prop :=
  ∃ obj, from_dict (<[k := v]> data) = Ok obj
         ∧ from_dict (delete k data) = Ok obj.

(** ** Further definitions for the statements *)

(** [_mode_availability] as a number. *)
Definition availability (mode : string) (data : gmap string pyval) : Q :=
  match _mode_availability mode data with
  | Ok a => a
  | Raise _ => 0
  end.

(** The divisor of the normalisation in [_transport_score]. *)
Definition weight_total (importance : gmap string Q) : Q :=
  let s := sum_values importance in if truthy_num s then s else 1.

(** The weighted sum that the second loop of [_transport_score] builds. *)
Definition weighted_sum (data : gmap string pyval) (acc : Q)
    (normalized : list (string * Q)) : Q :=
  foldl (λ (score : Q) '(mode, weight), score + weight * availability mode data)
        acc normalized.




(** ** web.py: from the query to the criteria

    [str.strip] and [float] are parameters; [float_of s] is [None] where
    Python raises [ValueError]. *)

Variable strip : string → string.
Variable float_of : string → option Q.

Definition _parse_float (value : option string) : option Q :=
  match value with
  | None => None
  | Some value =>
      let value := strip value in
      if negb (truthy_str value) then None else
      let normalized :=
        replace "," "." (replace "." "" (replace " " "" (replace nbsp "" value))) in
      let normalized :=
        if (1 <? count "." normalized)%nat
        then replace_n "." "" (count "." normalized - 1) normalized
        else normalized in
      float_of normalized
  end.

Definition _split_csv (raw : option string) : list string :=
  match raw with
  | None => []
  | Some raw =>
      if negb (truthy_str raw) then [] else
      let parts := split comma (replace ";" "," raw) in
      omap (λ segment,
              if truthy_str (strip segment) then Some (strip segment) else None)
           parts
  end.

(** [params.get(key, [default])[0]] *)
Definition param (params : gmap string (list string)) (key fallback : string)
    : web_result string :=
  first (default [fallback] (params !! key)).

(** [if cond: kwargs[key] = value] *)
Definition set_if (cond : bool) (key : string) (value : pyval)
    (kwargs : gmap string pyval) : gmap string pyval :=
  if cond then <[key := value]> kwargs else kwargs.

(** [if x is not None and x > 0: kwargs[key] = x] *)
Definition set_positive (x : option Q) (key : string)
    (kwargs : gmap string pyval) : gmap string pyval :=
  match x with
  | Some x => set_if (Qltb 0 x) key (PNum x) kwargs
  | None => kwargs
  end.

Definition _build_criteria (params : gmap string (list string))
    : web_result (gmap string pyval) :=
  let kwargs : gmap string pyval := ∅ in
  raw ← param params "macrozona" "";
  let macrozona := strip raw in
  let kwargs :=
    set_if (truthy_str macrozona)
           "preferred_macrozones" (PList [PStr macrozona]) kwargs in
  raw ← param params "region" "";
  let region := strip raw in
  let kwargs :=
    set_if (truthy_str region) "preferred_regions" (PList [PStr region]) kwargs in
  raw ← param params "property_type" "";
  let property_type := strip raw in
  let kwargs :=
    set_if (truthy_str property_type)
           "desired_property_types" (PList [PStr property_type]) kwargs in
  raw ← param params "min_area" "";
  let min_area := _parse_float (Some raw) in
  area_unit ← param params "area_unit" "m2";
  let kwargs :=
    set_positive min_area
                 (if String.eqb area_unit "ha"
                  then "min_area_hectares" else "min_area_m2")
                 kwargs in
  raw ← param params "required_services" "";
  let required_services := _split_csv (Some raw) in
  let kwargs :=
    set_if (truthy_seq required_services)
           "required_services" (PList (PStr <$> required_services)) kwargs in
  raw ← param params "preferred_services" "";
  let preferred_services := _split_csv (Some raw) in
  let kwargs :=
    set_if (truthy_seq preferred_services)
           "preferred_services" (PList (PStr <$> preferred_services)) kwargs in
  raw ← param params "max_price" "";
  let max_price := _parse_float (Some raw) in
  let kwargs := set_positive max_price "max_total_price" kwargs in
  raw ← param params "max_price_m2" "";
  let max_price_m2 := _parse_float (Some raw) in
  let kwargs := set_positive max_price_m2 "max_price_per_m2" kwargs in
  lift (cls kwargs).

(** The value lists of the query are not empty, as they are in the result
    of [parse_qs]. *)
Definition nonempty_values (params : gmap string (list string)) : Prop :=
  ∀ key values, params !! key = Some values → values ≠ [].

(** The keys of the query that [_build_criteria] reads; [readable]: none
    of them has an empty list of values. *)
Definition criteria_keys : list string :=
  ["macrozona"; "region"; "property_type"; "min_area"; "area_unit";
   "required_services"; "preferred_services"; "max_price";
   "max_price_m2"]%string.

Definition readable (params : gmap string (list string)) : Prop :=
  ∀ key, key ∈ criteria_keys → params !! key ≠ Some [].

(** The first value of a key of the query, [fallback] without the key. *)
Definition param_value (params : gmap string (list string))
    (key fallback : string) : string :=
  match params !! key with
  | Some (value :: _) => value
  | _ => fallback
  end.

(** A number that is positive, if any. *)
Definition positive (x : option Q) : option Q :=
  match x with
  | Some p => if Qltb 0 p then Some p else None
  | None => None
  end.

(** The criteria that the keyword arguments of [_build_criteria] stand
    for. *)
Definition web_criteria (params : gmap string (list string)) : SearchCriteria :=
  let one (key : string) :=
    let value := strip (param_value params key "") in
    if truthy_str value then [value] else [] in
  let number (key : string) :=
    positive (_parse_float (Some (param_value params key ""))) in
  let items (key : string) := _split_csv (Some (param_value params key "")) in
  let hectares := String.eqb (param_value params "area_unit" "m2") "ha" in {|
    preferred_regions := one "region"%string;
    preferred_macrozones := one "macrozona"%string;
    target_zonings := [];
    min_area_m2 := if hectares then 0 else default 0 (number "min_area"%string);
    min_area_hectares :=
      if hectares then default 0 (number "min_area"%string) else 0;
    max_total_price := number "max_price"%string;
    max_price_per_m2 := number "max_price_m2"%string;
    required_services := items "required_services"%string;
    preferred_services := items "preferred_services"%string;
    transport_importance := ∅;
    desired_property_types := one "property_type"%string
  |}.

(** ** Basic facts *)

Lemma bind_Ok {A B : Type} (a : A) (f : A → result B) : (Ok a ≫= f) = f a.
Proof. reflexivity. Qed.

Lemma Qltb_lt (x y : Q) : Qltb x y = true ↔ x < y.
Proof.
  unfold Qltb. rewrite negb_true_iff, <- not_true_iff_false, Qle_bool_iff.
  split; [apply Qnot_le_lt | apply Qlt_not_le].
Qed.

Lemma truthy_num_neq (x : Q) : truthy_num x = true ↔ ¬ x == 0.
Proof.
  unfold truthy_num. rewrite negb_true_iff, <- not_true_iff_false, Qeq_bool_iff.
  reflexivity.
Qed.

Lemma truthy_num_eq (x : Q) : truthy_num x = false ↔ x == 0.
Proof. unfold truthy_num. rewrite negb_false_iff. apply Qeq_bool_iff. Qed.

Lemma pydiv_Ok (x y : Q) : ¬ y == 0 → pydiv x y = Ok (x / y).
Proof.
  intros Hy. unfold pydiv.
  destruct (Qeq_bool y 0) eqn:E; [|reflexivity].
  apply Qeq_bool_iff in E. contradiction.
Qed.

Lemma for_each_Ok {A S : Type} (body : S → A → result S) (l : list A) (s : S) :
  (∀ s x, x ∈ l → ∃ s', body s x = Ok s') → ∃ s', for_each body l s = Ok s'.
Proof.
  revert s. induction l as [|x l IH]; intros s Hbody; simpl.
  - by exists s.
  - destruct (Hbody s x) as [s' Hs']; [left|].
    rewrite Hs', bind_Ok. apply IH. intros s0 y Hy. apply Hbody. by right.
Qed.

Lemma truthy_seq_elements (X : gset string) :
  truthy_seq (elements X) = true → ¬ len X == 0.
Proof.
  unfold len, size, set_size. simpl.
  destruct (elements X) as [|x xs]; [done|]. intros _ H.
  unfold Qeq in H. simpl in H. lia.
Qed.

Lemma _mode_availability_Ok (mode : string) (data : gmap string pyval) :
  ∃ a, _mode_availability mode data = Ok a.
Proof.
  unfold _mode_availability.
  repeat case_match; try (rewrite pydiv_Ok by (intros H; discriminate H));
    rewrite ?bind_Ok; eauto.
Qed.

Lemma _transport_score_Ok (listing : Listing) (importance : gmap string Q) :
  ∃ t, _transport_score listing importance = Ok t.
Proof.
  unfold _transport_score.
  destruct (negb (truthy_seq (map_to_list importance))); [eauto|].
  set (total := if truthy_num (sum_values importance) then _ else 1).
  assert (Htotal : ¬ total == 0).
  { subst total. destruct (truthy_num _) eqn:E.
    - by apply truthy_num_neq.
    - intros H; discriminate H. }
  destruct (for_each_Ok
    (λ (normalized : gmap string Q) '(key, value),
       w ← pydiv value total; Ok (<[key := w]> normalized))
    (map_to_list importance) ∅) as [normalized Hn].
  { intros m [k v] _. rewrite pydiv_Ok by done. rewrite bind_Ok. eauto. }
  rewrite Hn, bind_Ok.
  apply for_each_Ok. intros sc [mode weight] _.
  destruct (_mode_availability_Ok mode (transport listing)) as [a Ha].
  rewrite Ha, bind_Ok. eauto.
Qed.

Lemma transport_value_Ok (listing : Listing) (criteria : SearchCriteria) :
  _transport_score listing (transport_importance criteria)
  = Ok (transport_value listing criteria).
Proof.
  unfold transport_value.
  destruct (_transport_score_Ok listing (transport_importance criteria)) as [t Ht].
  by rewrite Ht.
Qed.

Lemma share_Ok (wanted available : gset string) (otherwise : Q) :
  (if truthy_seq (elements wanted)
   then pydiv (len (wanted ∩ available)) (len wanted)
   else Ok otherwise) = Ok (share wanted available otherwise).
Proof.
  unfold share. destruct (truthy_seq (elements wanted)) eqn:E; [|done].
  apply pydiv_Ok. by apply truthy_seq_elements.
Qed.

Lemma total_cap_Ok (x : Q) (cap : option Q) :
  match cap with
  | Some cap =>
      if truthy_num cap
      then ratio ← pydiv x cap; Ok (Qmax 0 (1 - Qmin ratio 1.5))
      else Ok 0.6
  | None => Ok 0.6
  end
  = Ok (match active_cap cap with Some cap => headroom x cap | None => 0.6 end).
Proof.
  destruct cap as [cap|]; simpl; [|done].
  destruct (truthy_num cap) eqn:E; [|done].
  apply truthy_num_neq in E. by rewrite pydiv_Ok.
Qed.

Lemma m2_cap_Ok (x pc : Q) (cap : option Q) :
  match cap with
  | Some cap =>
      if truthy_num cap
      then ratio_m2 ← pydiv x cap;
           pydiv (pc + Qmax 0 (1 - Qmin ratio_m2 1.5)) 2
      else Ok pc
  | None => Ok pc
  end
  = Ok (match active_cap cap with
        | Some cap => (pc + headroom x cap) / 2
        | None => pc
        end).
Proof.
  destruct cap as [cap|]; simpl; [|done].
  destruct (truthy_num cap) eqn:E; [|done].
  apply truthy_num_neq in E. rewrite pydiv_Ok by done. rewrite bind_Ok.
  apply pydiv_Ok. intros H; discriminate H.
Qed.

Lemma Qmax_1_neq_0 (x : Q) : ¬ Qmax x 1 == 0.
Proof. intros H. pose proof (Q.le_max_r x 1) as Hle. rewrite H in Hle. lra. Qed.

Lemma _score_listing_Ok (listing : Listing) (criteria : SearchCriteria) :
  _score_listing listing criteria
  = Ok (score_value listing criteria, breakdown_value listing criteria,
        highlights_value listing criteria).
Proof.
  unfold _score_listing, score_value, breakdown_value, highlights_value.
  unfold location_value, services_value, price_component_value, area_value.
  change (if truthy_seq (preferred_regions criteria) then _ else _)
    with (location listing criteria).
  destruct (location listing criteria) as [value ubicacion].
  cbv zeta.
  rewrite !share_Ok, !bind_Ok.
  rewrite total_cap_Ok, bind_Ok, m2_cap_Ok, bind_Ok.
  rewrite transport_value_Ok, bind_Ok.
  rewrite (pydiv_Ok _ (Qmax _ 1)) by apply Qmax_1_neq_0. rewrite bind_Ok.
  rewrite !pydiv_Ok by (intros H; discriminate H). rewrite !bind_Ok.
  reflexivity.
Qed.

Lemma for_each_listing (criteria : SearchCriteria) (_listings : list Listing)
    (results : list SearchResult) :
  for_each (λ (results : list SearchResult) (listing : Listing),
              if negb (matches criteria listing) then Ok results else
              '(score, breakdown, highlights) ← _score_listing listing criteria;
              Ok (results ++ [Build_SearchResult listing score breakdown highlights]))
           _listings results
  = Ok (results ++ (scored criteria <$> survivors _listings criteria)).
Proof.
  revert results. induction _listings as [|l ls IH]; intros results; simpl.
  - by rewrite app_nil_r.
  - unfold survivors. rewrite filter_cons.
    destruct (matches criteria l) eqn:E; simpl.
    + rewrite _score_listing_Ok, !bind_Ok. simpl. rewrite IH.
      by rewrite <- app_assoc.
    + apply IH.
Qed.

Lemma search_Ok (_listings : list Listing) (criteria : SearchCriteria) (top_n : Z) :
  search _listings criteria top_n
  = Ok (slice_to top_n
          (sort_by_score (scored criteria <$> survivors _listings criteria))).
Proof. unfold search. by rewrite for_each_listing, bind_Ok. Qed.

(** ** The stable descending sort *)

Lemma insert_by_score_Permutation (r : SearchResult) (rs : list SearchResult) :
  insert_by_score r rs ≡ₚ r :: rs.
Proof.
  induction rs as [|r' rs IH]; simpl; [done|].
  destruct (Qle_bool (score r') (score r)); [done|].
  rewrite IH. apply perm_swap.
Qed.

Lemma sort_by_score_Permutation (rs : list SearchResult) :
  sort_by_score rs ≡ₚ rs.
Proof.
  induction rs as [|r rs IH]; simpl; [done|].
  by rewrite insert_by_score_Permutation, IH.
Qed.

Lemma length_sort_by_score (rs : list SearchResult) :
  length (sort_by_score rs) = length rs.
Proof. by rewrite sort_by_score_Permutation. Qed.

Lemma insert_by_score_sorted (r : SearchResult) (rs : list SearchResult) :
  StronglySorted by_score rs → StronglySorted by_score (insert_by_score r rs).
Proof.
  induction 1 as [|r' rs Hs IH Hall]; simpl.
  - repeat constructor.
  - destruct (Qle_bool (score r') (score r)) eqn:E.
    + apply Qle_bool_iff in E. constructor; [by constructor|].
      constructor; [done|].
      eapply Forall_impl; [exact Hall|]. unfold by_score. simpl.
      intros x Hx. by apply Qle_trans with (score r').
    + constructor; [done|].
      rewrite insert_by_score_Permutation. constructor; [|done].
      unfold by_score. apply Qlt_le_weak, Qltb_lt. unfold Qltb. by rewrite E.
Qed.

Lemma sort_by_score_sorted (rs : list SearchResult) :
  StronglySorted by_score (sort_by_score rs).
Proof.
  induction rs as [|r rs IH]; simpl; [constructor|].
  by apply insert_by_score_sorted.
Qed.

Lemma with_score_insert (s : Q) (r : SearchResult) (rs : list SearchResult) :
  with_score s (insert_by_score r rs) = with_score s (r :: rs).
Proof.
  unfold with_score.
  induction rs as [|r' rs IH]; cbn [insert_by_score]; [done|].
  destruct (Qle_bool (score r') (score r)) eqn:E; [done|].
  assert (Hlt : score r < score r').
  { apply Qltb_lt. unfold Qltb. by rewrite E. }
  rewrite (filter_cons _ r'), IH, !(filter_cons _ r), (filter_cons _ r').
  destruct (decide (score r' == s)) as [Hr'|Hr']; [|done].
  destruct (decide (score r == s)) as [Hr|]; [|done].
  rewrite Hr, Hr' in Hlt. lra.
Qed.

Lemma with_score_sort (s : Q) (rs : list SearchResult) :
  with_score s (sort_by_score rs) = with_score s rs.
Proof.
  induction rs as [|r rs IH]; [done|].
  change (sort_by_score (r :: rs)) with (insert_by_score r (sort_by_score rs)).
  rewrite with_score_insert. unfold with_score in *.
  by rewrite !(filter_cons _ r), IH.
Qed.

Lemma slice_to_prefix {A : Type} (n : Z) (xs : list A) :
  slice_to n xs `prefix_of` xs.
Proof. unfold slice_to. case_match; apply prefix_take. Qed.

Lemma with_score_prefix (s : Q) (rs rs' : list SearchResult) :
  rs `prefix_of` rs' → with_score s rs `prefix_of` with_score s rs'.
Proof.
  intros [k ->]. unfold with_score. rewrite filter_app. by eexists.
Qed.

(** ** The ranking *)

(** C4: for every criteria and every [top_n] of at least 1, [search] returns
    a list (it does not raise) whose length is the smaller of [top_n] and the
    number of listings of the repository that pass [matches]; when no listing
    passes, the list is empty. *)
Theorem search_length (_listings : list Listing) (criteria : SearchCriteria)
    (top_n : Z) :
  (1 ≤ top_n)%Z →
  ∃ rs, search _listings criteria top_n = Ok rs
        ∧ Z.of_nat (length rs)
          = Z.min top_n (Z.of_nat (length (survivors _listings criteria)))
        ∧ (survivors _listings criteria = [] → rs = []).
Proof.
  intros Hn. eexists. split; [apply search_Ok|].
  unfold slice_to. rewrite (proj2 (Z.leb_le 0 top_n)) by lia.
  split.
  - rewrite length_take, length_sort_by_score, length_fmap. lia.
  - intros ->. simpl. apply take_nil.
Qed.

(** C5: for every criteria and every [top_n] of at least 1, the list returned
    by [search] is in non-increasing order of score, and for every score the
    returned results with that score are, in the same order, the first ones
    among the results of the passing listings taken in repository order. *)
Theorem search_sorted_stable (_listings : list Listing)
    (criteria : SearchCriteria) (top_n : Z) :
  (1 ≤ top_n)%Z →
  ∃ rs, search _listings criteria top_n = Ok rs
        ∧ StronglySorted by_score rs
        ∧ ∀ s, with_score s rs
               `prefix_of`
               with_score s (scored criteria <$> survivors _listings criteria).
Proof.
  intros _. eexists. split; [apply search_Ok|].
  set (all := scored criteria <$> survivors _listings criteria).
  split.
  - destruct (slice_to_prefix top_n (sort_by_score all)) as [k Hk].
    pose proof (sort_by_score_sorted all) as Hs. rewrite Hk in Hs.
    by apply StronglySorted_app_1_l in Hs.
  - intros s. rewrite <- (with_score_sort s all).
    apply with_score_prefix, slice_to_prefix.
Qed.

(** ** The scoring engine *)


Lemma breakdown_value_lookup (listing : Listing) (criteria : SearchCriteria) :
  let bd := breakdown_value listing criteria in
  bd !! "ubicación"%string = Some (location_value listing criteria * 0.25)
  ∧ bd !! "servicios"%string = Some (services_value listing criteria)
  ∧ bd !! "precio"%string = Some (price_component_value listing criteria * 0.2)
  ∧ bd !! "conectividad"%string = Some (transport_value listing criteria * 0.15)
  ∧ bd !! "superficie"%string = Some (area_value listing criteria * 0.2).
Proof. unfold breakdown_value. by repeat split; simplify_map_eq. Qed.


(** C6, as amended: for every listing whose area is at least four times the
    larger of the area threshold and 1, the [superficie] entry of the
    breakdown is exactly 0.2. *)
Theorem area_saturation (listing : Listing) (criteria : SearchCriteria) :
  4 * Qmax (_area_threshold_m2 criteria) 1 <= area_m2 listing →
  ∃ sc bd hl v, _score_listing listing criteria = Ok (sc, bd, hl)
                ∧ bd !! "superficie"%string = Some v
                ∧ v == 0.2.
Proof.
  intros Harea. eexists _, _, _, _. split; [apply _score_listing_Ok|].
  split; [apply breakdown_value_lookup|].
  unfold area_value.
  set (m := Qmax (_area_threshold_m2 criteria) 1) in *.
  assert (Hm : 1 <= m) by apply Q.le_max_r.
  assert (Hq : 1 <= area_m2 listing / m / 4).
  { apply Qle_shift_div_l; [lra|]. apply Qle_shift_div_l; lra. }
  rewrite (Q.min_r _ 1) by exact Hq. reflexivity.
Qed.

(** C7, as amended: the [precio] entry of the breakdown is 0.2 times the
    price component, which is 0.6 when [max_total_price] is unset or zero and
    otherwise [max(0, 1 - min(total_price / max_total_price, 1.5))]; when
    [max_price_per_m2] is set and not zero, it is the mean of that value and
    [max(0, 1 - min(price_per_m2 / max_price_per_m2, 1.5))]. *)
Theorem price_entry (listing : Listing) (criteria : SearchCriteria) :
  ∃ sc bd hl v, _score_listing listing criteria = Ok (sc, bd, hl)
                ∧ bd !! "precio"%string = Some v
                ∧ v == 0.2 * price_component_value listing criteria.
Proof.
  eexists _, _, _, _. split; [apply _score_listing_Ok|].
  split; [apply breakdown_value_lookup|]. ring.
Qed.

(** Where no cap is zero, the amended price component is the claimed one. *)
Lemma price_component_claimed_Ok (listing : Listing) (criteria : SearchCriteria) :
  active_cap (max_total_price criteria) = max_total_price criteria →
  active_cap (max_price_per_m2 criteria) = max_price_per_m2 criteria →
  price_component_claimed listing criteria
  = Ok (price_component_value listing criteria).
Proof.
  unfold price_component_claimed, price_component_value, active_cap, headroom.
  destruct (max_total_price criteria) as [c1|],
           (max_price_per_m2 criteria) as [c2|]; simpl;
    repeat case_match; try done; intros _ _;
    repeat match goal with
           | H : truthy_num _ = true |- _ => apply truthy_num_neq in H
           end;
    by rewrite ?pydiv_Ok, ?bind_Ok by done.
Qed.

(** C8: when the region of the listing is among the preferred regions up to
    letter case only, the region rule of the filter does not reject it (the
    filter answers as it does without a region preference), while the scorer
    takes the branch of a region that is not preferred: raw value 0.4, label
    [Región alternativa], breakdown entry 0.1. *)
Theorem region_case_asymmetry (listing : Listing) (criteria : SearchCriteria) :
  preferred_regions criteria ≠ [] →
  lower (region listing) ∈ lowered (preferred_regions criteria) →
  region listing ∉ preferred_regions criteria →
  rejects (region listing) (preferred_regions criteria) = false
  ∧ matches criteria listing
    = matches (with_preferred_regions [] criteria) listing
  ∧ location listing criteria = (0.4, "Región alternativa"%string)
  ∧ ∃ sc bd hl v, _score_listing listing criteria = Ok (sc, bd, hl)
                  ∧ h_ubicacion hl = "Región alternativa"%string
                  ∧ bd !! "ubicación"%string = Some v
                  ∧ v == 0.1.
Proof.
  intros Hne Hlow Hraw.
  assert (Hrej : rejects (region listing) (preferred_regions criteria) = false).
  { unfold rejects. case_match; [|done]. by rewrite bool_decide_eq_true_2. }
  assert (Hloc : location listing criteria = (0.4, "Región alternativa"%string)).
  { unfold location. destruct (preferred_regions criteria); [done|]. simpl.
    by rewrite bool_decide_eq_false_2. }
  split; [exact Hrej|]. split; [|split; [exact Hloc|]].
  - unfold matches. rewrite Hrej. reflexivity.
  - eexists _, _, _, _. split; [apply _score_listing_Ok|].
    split; [by unfold highlights_value; simpl; rewrite Hloc|].
    split; [apply breakdown_value_lookup|].
    unfold location_value. rewrite Hloc. reflexivity.
Qed.


Lemma score_ignores_zero_cap (listing : Listing) (c c' : SearchCriteria) :
  preferred_regions c = preferred_regions c' →
  preferred_macrozones c = preferred_macrozones c' →
  min_area_m2 c = min_area_m2 c' →
  min_area_hectares c = min_area_hectares c' →
  active_cap (max_total_price c) = active_cap (max_total_price c') →
  active_cap (max_price_per_m2 c) = active_cap (max_price_per_m2 c') →
  required_services c = required_services c' →
  preferred_services c = preferred_services c' →
  transport_importance c = transport_importance c' →
  _score_listing listing c = _score_listing listing c'.
Proof.
  intros Hr Hz Ha Hh Ht Hm Hs Hp Hi. rewrite !_score_listing_Ok.
  unfold score_value, breakdown_value, highlights_value, location_value,
    location, services_value, price_component_value, transport_value,
    area_value, _area_threshold_m2.
  by rewrite Hr, Hz, Ha, Hh, Ht, Hm, Hs, Hp, Hi.
Qed.

(** C10: a cap that is exactly zero is a constraint for the filter and none
    for the scorer.  With [max_total_price] zero, [matches] rejects every
    listing whose total price is positive, while [_score_listing] returns
    what it returns with the cap unset (so the price component is the flat
    0.6 when there is no active cap per square metre); the same holds for
    [max_price_per_m2] and the price per square metre. *)
Theorem zero_cap_disagreement (listing : Listing) (criteria : SearchCriteria)
    (cap : Q) :
  cap == 0 →
  (max_total_price criteria = Some cap →
     (0 < total_price listing → matches criteria listing = false)
     ∧ _score_listing listing criteria
       = _score_listing listing (with_max_total_price None criteria)
     ∧ (active_cap (max_price_per_m2 criteria) = None →
        price_component_value listing criteria = 0.6))
  ∧ (max_price_per_m2 criteria = Some cap →
     (0 < price_per_m2 listing → matches criteria listing = false)
     ∧ _score_listing listing criteria
       = _score_listing listing (with_max_price_per_m2 None criteria)).
Proof.
  intros Hcap.
  assert (Hact : active_cap (Some cap) = None).
  { simpl. by rewrite (proj2 (truthy_num_eq cap)). }
  split; intros Hset.
  - split; [|split].
    + intros Hpos. unfold matches. rewrite Hset.
      rewrite (proj2 (Qltb_lt cap (total_price listing)))
        by (rewrite Hcap; exact Hpos).
      by repeat case_match.
    + apply score_ignores_zero_cap; try reflexivity.
      simpl. by rewrite Hset.
    + intros Hm2. unfold price_component_value. by rewrite Hset, Hact, Hm2.
  - split.
    + intros Hpos. unfold matches. rewrite Hset.
      rewrite (proj2 (Qltb_lt cap (price_per_m2 listing)))
        by (rewrite Hcap; exact Hpos).
      by repeat case_match.
    + apply score_ignores_zero_cap; try reflexivity.
      simpl. by rewrite Hset.
Qed.

(** ** The filter *)

Lemma rejects_true (value : string) (preferred : list string) :
  rejects value preferred = true
  ↔ preferred ≠ [] ∧ lower value ∉ lowered preferred.
Proof.
  unfold rejects. destruct preferred as [|p ps]; simpl.
  - split; [done|]. by intros [? _].
  - rewrite negb_true_iff, bool_decide_eq_false.
    split; [by split | by intros [_ ?]].
Qed.

Lemma required_services_present (required : list string) (available : gset string) :
  forallb (λ service, bool_decide (lower service ∈ available)) required = true
  ↔ ∀ service, service ∈ required → lower service ∈ available.
Proof.
  rewrite forallb_forall. setoid_rewrite <- list_elem_of_In.
  by setoid_rewrite bool_decide_eq_true.
Qed.

Lemma cap_exceeded (cap : option Q) (x : Q) :
  match cap with Some cap => Qltb cap x | None => false end = true
  ↔ ∃ c, cap = Some c ∧ c < x.
Proof.
  destruct cap as [c|].
  - rewrite Qltb_lt. split; [by exists c | by intros (? & [= <-] & ?)].
  - split; [done | by intros (? & ? & _)].
Qed.

Lemma matches_true (criteria : SearchCriteria) (listing : Listing) :
  matches criteria listing = true
  ↔ rejects (macrozone listing) (preferred_macrozones criteria) = false
    ∧ rejects (region listing) (preferred_regions criteria) = false
    ∧ rejects (property_type listing) (desired_property_types criteria) = false
    ∧ rejects (zoning listing) (target_zonings criteria) = false
    ∧ Qltb (area_m2 listing) (_area_threshold_m2 criteria) = false
    ∧ match max_total_price criteria with
      | Some cap => Qltb cap (total_price listing)
      | None => false
      end = false
    ∧ match max_price_per_m2 criteria with
      | Some cap => Qltb cap (price_per_m2 listing)
      | None => false
      end = false
    ∧ forallb (λ service, bool_decide (lower service ∈ lowered (services listing)))
              (required_services criteria) = true.
Proof.
  unfold matches.
  destruct (rejects (macrozone listing) _); [intuition congruence|].
  destruct (rejects (region listing) _); [intuition congruence|].
  destruct (rejects (property_type listing) _); [intuition congruence|].
  destruct (rejects (zoning listing) _); [intuition congruence|].
  cbv zeta.
  destruct (Qltb (area_m2 listing) _); [intuition congruence|].
  destruct (match max_total_price criteria with
            | Some cap => Qltb cap (total_price listing)
            | None => false
            end); [intuition congruence|].
  destruct (match max_price_per_m2 criteria with
            | Some cap => Qltb cap (price_per_m2 listing)
            | None => false
            end); intuition congruence.
Qed.

Lemma matches_iff (criteria : SearchCriteria) (listing : Listing) :
  matches criteria listing = true ↔ ¬ violates criteria listing.
Proof.
  rewrite matches_true. unfold violates.
  rewrite <- !not_true_iff_false, !rejects_true, Qltb_lt, !cap_exceeded,
    required_services_present.
  split.
  - intros (H1 & H2 & H3 & H4 & H5 & H6 & H7 & H8).
    intros [?|[?|[?|[?|[?|[?|[?|(s & Hs & Hn)]]]]]]]; try done.
    by apply Hn, H8.
  - intros Hv. repeat split; try (intros ?; apply Hv; tauto).
    intros s Hs.
    destruct (decide (lower s ∈ lowered (services listing))); [done|].
    exfalso. apply Hv. do 7 right. eauto.
Qed.

Lemma unconstrained_threshold (criteria : SearchCriteria) :
  unconstrained criteria → _area_threshold_m2 criteria == 0.
Proof.
  intros (_ & _ & _ & _ & Hm2 & Hha & _). unfold _area_threshold_m2.
  rewrite (proj2 (truthy_num_eq _) Hha). rewrite Hm2. reflexivity.
Qed.

(** C2: [matches] is false whenever a configured constraint is violated by
    the listing, and true when the criteria have no constraint at all, for a
    listing whose area is not negative (the data model has [area_m2 > 0] for
    every listing); a constraint that is empty or unset rejects nothing:
    [matches] is true exactly when no configured constraint is violated. *)
Theorem matches_filter (criteria : SearchCriteria) (listing : Listing) :
  (violates criteria listing → matches criteria listing = false)
  ∧ (unconstrained criteria → 0 <= area_m2 listing →
     matches criteria listing = true)
  ∧ (matches criteria listing = true ↔ ¬ violates criteria listing).
Proof.
  split; [|split; [|apply matches_iff]].
  - intros Hv. apply not_true_iff_false. intros Hm. by apply matches_iff in Hm.
  - intros Hu Harea. apply matches_iff.
    pose proof (unconstrained_threshold _ Hu) as Hthr.
    destruct Hu as (Hz & Hr & Ht & Hzo & _ & _ & Hp & Hpm & Hs).
    unfold violates. rewrite Hz, Hr, Ht, Hzo, Hp, Hpm, Hs, Hthr.
    intros [[? _]|[[? _]|[[? _]|[[? _]|[?|[(? & ? & _)|[(? & ? & _)|(? & Hin & _)]]]]]]];
      try done.
    + lra.
    + by apply elem_of_nil in Hin.
Qed.

(** ** from_dict *)

Lemma cls_Ok (kwargs : gmap string pyval) :
  dom kwargs ⊆ dom field_defaults → cls kwargs = Ok (kwargs ∪ field_defaults).
Proof. intros H. unfold cls. by rewrite bool_decide_eq_true_2. Qed.

Lemma cls_Raise (kwargs : gmap string pyval) :
  cls kwargs = Raise TypeError
  ↔ ∃ k, k ∈ dom kwargs ∧ k ∉ dom field_defaults.
Proof.
  unfold cls. case_bool_decide as Hsub.
  - split; [done|]. intros (k & Hk & Hn). exfalso. by apply Hn, Hsub.
  - split; [|done]. intros _.
    apply (not_set_Forall_Exists (λ k, k ∈ dom field_defaults)) in Hsub.
    destruct Hsub as (k & Hk & Hn). by exists k.
Qed.

(** C3, as amended: [from_dict] raises [TypeError] exactly when the mapping
    has a key that is not a field of the criteria; a mapping whose keys are
    all fields gives an object that holds every given value and, for every
    absent field, its default.  The empty mapping gives the defaults, which
    read as the criteria without constraints. *)
Theorem from_dict_fields (data : gmap string pyval) :
  (from_dict data = Raise TypeError
   ↔ ∃ k, k ∈ dom data ∧ k ∉ dom field_defaults)
  ∧ (dom data ⊆ dom field_defaults →
     ∃ obj, from_dict data = Ok obj
            ∧ (∀ k v, data !! k = Some v → obj !! k = Some v)
            ∧ (∀ k, data !! k = None → obj !! k = field_defaults !! k))
  ∧ from_dict ∅ = Ok field_defaults
  ∧ criteria_of field_defaults = Some default_criteria.
Proof.
  unfold from_dict. cbv zeta.
  split; [apply cls_Raise|]. split; [|split].
  - intros Hsub. eexists. split; [by apply cls_Ok|]. split.
    + intros k v Hk. by apply lookup_union_Some_l.
    + intros k Hk. by apply lookup_union_r.
  - vm_compute. reflexivity.
  - vm_compute. reflexivity.
Qed.

(** ** Further properties of the agent *)

(** X1: the area threshold is never negative; it is the largest of
    [min_area_m2], [min_area_hectares * 10000] and 0, so a negative minimum
    counts as none. *)
Theorem area_threshold_closed_form (criteria : SearchCriteria) :
  0 <= _area_threshold_m2 criteria
  ∧ _area_threshold_m2 criteria
    == Qmax (Qmax (min_area_m2 criteria) 0) (min_area_hectares criteria * 10000).
Proof.
  unfold _area_threshold_m2.
  set (m := Qmax (min_area_m2 criteria) 0).
  assert (Hm : 0 <= m) by apply Q.le_max_r.
  destruct (truthy_num (min_area_hectares criteria)) eqn:E.
  - split; [|reflexivity].
    apply Qle_trans with m; [exact Hm | apply Q.le_max_l].
  - apply truthy_num_eq in E. split; [exact Hm|].
    rewrite E. symmetry. apply Q.max_l.
    assert (H : 0 * 10000 == 0) by ring. rewrite H. exact Hm.
Qed.


Lemma availability_Ok (mode : string) (data : gmap string pyval) :
  _mode_availability mode data = Ok (availability mode data).
Proof.
  unfold availability.
  destruct (_mode_availability_Ok mode data) as [a Ha]. by rewrite Ha.
Qed.




(** *** The transport score as a weighted sum *)

Lemma weight_total_neq_0 (importance : gmap string Q) :
  ¬ weight_total importance == 0.
Proof.
  unfold weight_total. cbv zeta. destruct (truthy_num _) eqn:E.
  - by apply truthy_num_neq.
  - intros H; discriminate H.
Qed.

Lemma normalize_loop (total : Q) (l : list (string * Q))
    (normalized : gmap string Q) :
  ¬ total == 0 →
  for_each (λ (normalized : gmap string Q) '(key, value),
              w ← pydiv value total; Ok (<[key := w]> normalized))
           l normalized
  = Ok (foldl (λ (normalized : gmap string Q) kv,
                 <[kv.1 := kv.2 / total]> normalized) normalized l).
Proof.
  intros Ht. revert normalized.
  induction l as [|[k v] l IH]; intros normalized; simpl; [done|].
  rewrite pydiv_Ok by done. rewrite bind_Ok. apply IH.
Qed.

Lemma foldl_insert_fmap (f : Q → Q) (l : list (string * Q)) :
  NoDup (l.*1) →
  foldl (λ (m : gmap string Q) kv, <[kv.1 := f kv.2]> m) ∅ l
  = f <$> (list_to_map l : gmap string Q).
Proof.
  induction l as [|[k v] l IH] using rev_ind; intros Hnd.
  - simpl. by rewrite fmap_empty.
  - rewrite fmap_app in Hnd. apply NoDup_app in Hnd as (Hl & Hk & _).
    rewrite foldl_app. simpl. rewrite IH by done.
    rewrite list_to_map_snoc.
    + by rewrite fmap_insert.
    + intros Hin. apply (Hk k Hin). simpl. left.
Qed.

Lemma accumulate_loop (data : gmap string pyval) (l : list (string * Q))
    (acc : Q) :
  for_each (λ (score : Q) '(mode, weight),
              availability ← _mode_availability mode data;
              Ok (score + weight * availability))
           l acc
  = Ok (weighted_sum data acc l).
Proof.
  revert acc. induction l as [|[m w] l IH]; intros acc; simpl; [done|].
  rewrite availability_Ok, bind_Ok. apply IH.
Qed.

(** The transport score is 0.6 without weights, and otherwise the sum of the
    availabilities weighted by the normalised weights. *)
Lemma _transport_score_weighted (listing : Listing) (importance : gmap string Q) :
  _transport_score listing importance
  = Ok (if truthy_seq (map_to_list importance)
        then weighted_sum (transport listing) 0
               (prod_map id (λ v, v / weight_total importance)
                  <$> map_to_list importance)
        else 0.6).
Proof.
  unfold _transport_score.
  destruct (truthy_seq (map_to_list importance)); simpl; [|done].
  fold (weight_total importance).
  rewrite normalize_loop by apply weight_total_neq_0. rewrite bind_Ok.
  rewrite (foldl_insert_fmap (λ v, v / weight_total importance))
    by apply NoDup_fst_map_to_list.
  rewrite list_to_map_to_list, map_to_list_fmap.
  apply accumulate_loop.
Qed.







Lemma weighted_sum_zero (data : gmap string pyval) (total : Q)
    (l : list (string * Q)) (acc : Q) :
  Forall (λ kv : string * Q, kv.2 == 0) l →
  weighted_sum data acc (prod_map id (λ v, v / total) <$> l) == acc.
Proof.
  intros Hall. revert acc. unfold weighted_sum.
  induction Hall as [|[m v] l' Hv Hall IH]; intros acc; simpl; [reflexivity|].
  rewrite IH. simpl in Hv. rewrite Hv. unfold Qdiv. ring.
Qed.

(** X4: weights that are all zero give a transport score of 0, below the 0.6
    that no weights at all give. *)
Theorem transport_score_zero_weights (listing : Listing)
    (importance : gmap string Q) :
  (∀ mode w, importance !! mode = Some w → w == 0) →
  ∃ t, _transport_score listing importance = Ok t
       ∧ (importance = ∅ → t == 0.6)
       ∧ (importance ≠ ∅ → t == 0).
Proof.
  intros Hz. eexists. split; [apply _transport_score_weighted|].
  split.
  - intros ->. rewrite map_to_list_empty. reflexivity.
  - intros Hne.
    assert (Hall : Forall (λ kv : string * Q, kv.2 == 0) (map_to_list importance)).
    { apply Forall_forall. intros [k v] Hin. simpl.
      apply (Hz k). by apply elem_of_map_to_list. }
    destruct (map_to_list importance) as [|kv l] eqn:El.
    { by apply map_to_list_empty_iff in El. }
    cbn [truthy_seq]. apply weighted_sum_zero, Hall.
Qed.

(** *** The ranges of the five dimensions *)


Lemma len_nonneg (s : gset string) : 0 <= len s.
Proof. unfold len, Qle. simpl. lia. Qed.

Lemma len_mono (s t : gset string) : s ⊆ t → len s <= len t.
Proof.
  intros Hsub. apply subseteq_size in Hsub.
  unfold len. rewrite <- Zle_Qle. lia.
Qed.

Lemma share_range (wanted available : gset string) (otherwise : Q) :
  0 <= otherwise <= 1 → 0 <= share wanted available otherwise <= 1.
Proof.
  intros Ho. unfold share.
  destruct (truthy_seq (elements wanted)) eqn:E; [|done].
  apply truthy_seq_elements in E.
  pose proof (len_nonneg wanted) as Hw.
  pose proof (len_nonneg (wanted ∩ available)) as Hi.
  assert (Hle : len (wanted ∩ available) <= len wanted)
    by apply len_mono, intersection_subseteq_l.
  assert (Hpos : 0 < len wanted).
  { destruct (Qlt_le_dec 0 (len wanted)) as [|Hle0]; [done|].
    exfalso. apply E. lra. }
  split.
  - apply Qle_shift_div_l; [done|]. lra.
  - apply Qle_shift_div_r; [done|]. lra.
Qed.



Lemma headroom_antitone (x y cap : Q) :
  0 < cap → x <= y → headroom y cap <= headroom x cap.
Proof.
  intros Hcap Hxy. unfold headroom.
  assert (Hr : x / cap <= y / cap).
  { apply Qle_shift_div_l; [done|].
    assert (Hx : x / cap * cap == x) by (field; lra). lra. }
  apply Q.max_le_compat_l.
  pose proof (Q.min_le_compat_r _ _ 1.5 Hr). lra.
Qed.

Lemma active_cap_Some (cap : option Q) (c : Q) :
  active_cap cap = Some c → cap = Some c.
Proof.
  destruct cap as [c'|]; simpl; [|done]. by destruct (truthy_num c').
Qed.




Lemma area_divisor_pos (criteria : SearchCriteria) :
  1 <= Qmax (_area_threshold_m2 criteria) 1.
Proof. apply Q.le_max_r. Qed.

Lemma area_value_range (listing : Listing) (criteria : SearchCriteria) :
  area_value listing criteria <= 1
  ∧ (0 <= area_m2 listing → 0 <= area_value listing criteria).
Proof.
  unfold area_value. split; [apply Q.le_min_r|]. intros Ha.
  pose proof (area_divisor_pos criteria) as Hm.
  apply Q.min_glb; [|lra].
  apply Qle_shift_div_l; [lra|]. apply Qle_shift_div_l; lra.
Qed.


Lemma lowered_elem (x : string) (xs : list string) :
  x ∈ lowered xs ↔ ∃ y, y ∈ xs ∧ x = lower y.
Proof.
  unfold lowered. rewrite elem_of_list_to_set, list_elem_of_fmap.
  split; intros (y & H1 & H2); eauto.
Qed.

Lemma matches_required_covered (criteria : SearchCriteria) (listing : Listing) :
  matches criteria listing = true →
  lowered (required_services criteria) ⊆ lowered (services listing).
Proof.
  intros Hm. apply matches_true in Hm.
  destruct Hm as (_ & _ & _ & _ & _ & _ & _ & Hreq).
  rewrite required_services_present in Hreq.
  intros x Hx. apply lowered_elem in Hx as (y & Hy & ->). by apply Hreq.
Qed.

Lemma share_full (wanted available : gset string) :
  wanted ⊆ available → share wanted available 1 == 1.
Proof.
  intros Hsub. unfold share.
  destruct (truthy_seq (elements wanted)) eqn:E; [|reflexivity].
  apply truthy_seq_elements in E.
  rewrite (subseteq_intersection_1_L _ _ Hsub).
  by field.
Qed.

(** X6: for a listing that passes the filter every required service is
    covered, so the services entry is 0.4 * (0.6 + 0.4 * p), where [p] is the
    share of preferred services the listing has (0.5 without preferred
    services): it is at least 0.24, and the highlights list every required
    service. *)
Theorem services_entry_of_match (listing : Listing) (criteria : SearchCriteria) :
  matches criteria listing = true →
  ∃ sc bd hl v,
    _score_listing listing criteria = Ok (sc, bd, hl)
    ∧ bd !! "servicios"%string = Some v
    ∧ v == 0.4 * (0.6 + 0.4 * share (lowered (preferred_services criteria))
                                   (lowered (services listing)) 0.5)
    ∧ 0.24 <= v
    ∧ h_servicios_cubiertos hl = sorted (lowered (required_services criteria)).
Proof.
  intros Hm. pose proof (matches_required_covered _ _ Hm) as Hsub.
  eexists _, _, _, _. split; [apply _score_listing_Ok|].
  split; [apply breakdown_value_lookup|].
  pose proof (share_full _ _ Hsub) as Hfull.
  pose proof (share_range (lowered (preferred_services criteria))
                (lowered (services listing)) 0.5) as Hp.
  unfold services_value. cbv zeta.
  split; [rewrite Hfull; ring|]. split; [rewrite Hfull; lra|].
  unfold highlights_value. simpl. by rewrite (subseteq_intersection_1_L _ _ Hsub).
Qed.

(** X7: with positive caps, a listing that is no more expensive, in total
    and per square metre, gets a price entry that is no smaller. *)
Theorem price_entry_antitone (cheap dear : Listing) (criteria : SearchCriteria) :
  (∀ cap, max_total_price criteria = Some cap → 0 < cap) →
  (∀ cap, max_price_per_m2 criteria = Some cap → 0 < cap) →
  total_price cheap <= total_price dear →
  price_per_m2 cheap <= price_per_m2 dear →
  ∃ sc bd hl v sc' bd' hl' v',
    _score_listing cheap criteria = Ok (sc, bd, hl)
    ∧ _score_listing dear criteria = Ok (sc', bd', hl')
    ∧ bd !! "precio"%string = Some v
    ∧ bd' !! "precio"%string = Some v'
    ∧ v' <= v.
Proof.
  intros Ht Hm Htot Hm2.
  eexists _, _, _, _, _, _, _, _.
  split; [apply _score_listing_Ok|]. split; [apply _score_listing_Ok|].
  split; [apply breakdown_value_lookup|].
  split; [apply breakdown_value_lookup|].
  unfold price_component_value. cbv zeta.
  set (a := match active_cap (max_total_price criteria) with
            | Some cap => headroom (total_price dear) cap
            | None => 0.6
            end).
  set (b := match active_cap (max_total_price criteria) with
            | Some cap => headroom (total_price cheap) cap
            | None => 0.6
            end).
  assert (H1 : a <= b).
  { subst a b.
    destruct (active_cap (max_total_price criteria)) as [c|] eqn:E; [|lra].
    apply active_cap_Some, Ht in E. by apply headroom_antitone. }
  clearbody a b.
  destruct (active_cap (max_price_per_m2 criteria)) as [c|] eqn:E; [|lra].
  apply active_cap_Some, Hm in E.
  pose proof (headroom_antitone _ _ c E Hm2) as H2.
  unfold Qdiv.
  apply Qmult_le_compat_r; [|lra].
  apply Qmult_le_compat_r; [lra | discriminate].
Qed.

(** X8: the area entry never decreases when the area grows, and it is at
    most 0.2. *)
Theorem area_entry_monotone (small large : Listing) (criteria : SearchCriteria) :
  area_m2 small <= area_m2 large →
  ∃ sc bd hl v sc' bd' hl' v',
    _score_listing small criteria = Ok (sc, bd, hl)
    ∧ _score_listing large criteria = Ok (sc', bd', hl')
    ∧ bd !! "superficie"%string = Some v
    ∧ bd' !! "superficie"%string = Some v'
    ∧ v <= v' ∧ v' <= 0.2.
Proof.
  intros Hle.
  eexists _, _, _, _, _, _, _, _.
  split; [apply _score_listing_Ok|]. split; [apply _score_listing_Ok|].
  split; [apply breakdown_value_lookup|].
  split; [apply breakdown_value_lookup|].
  pose proof (area_divisor_pos criteria) as Hm.
  destruct (area_value_range large criteria) as [Hmax _].
  split; [|lra].
  unfold area_value.
  set (m := Qmax (_area_threshold_m2 criteria) 1) in *.
  assert (Hq : area_m2 small / m / 4 <= area_m2 large / m / 4).
  { unfold Qdiv.
    assert (Hinv : 0 <= / m) by (apply Qinv_le_0_compat; lra).
    apply Qmult_le_compat_r; [|discriminate].
    by apply Qmult_le_compat_r. }
  pose proof (Q.min_le_compat_r _ _ 1 Hq). lra.
Qed.

(** *** The result list *)

Lemma elem_of_survivors (_listings : list Listing) (criteria : SearchCriteria)
    (l : Listing) :
  l ∈ survivors _listings criteria
  ↔ l ∈ _listings ∧ matches criteria l = true.
Proof.
  unfold survivors. rewrite list_elem_of_filter, Is_true_true. tauto.
Qed.


(** X10: when [top_n] is at least the number of listings that pass the
    filter, nothing is cut: the result is a rearrangement of the results of
    all passing listings, so each of them is returned. *)
Theorem search_complete (_listings : list Listing) (criteria : SearchCriteria)
    (top_n : Z) :
  (Z.of_nat (length (survivors _listings criteria)) ≤ top_n)%Z →
  ∃ rs, search _listings criteria top_n = Ok rs
        ∧ rs ≡ₚ scored criteria <$> survivors _listings criteria
        ∧ ∀ l, l ∈ _listings → matches criteria l = true →
               ∃ r, r ∈ rs ∧ listing r = l.
Proof.
  intros Hn. eexists. split; [apply search_Ok|].
  assert (Hall : slice_to top_n
                   (sort_by_score (scored criteria <$> survivors _listings criteria))
                 ≡ₚ scored criteria <$> survivors _listings criteria).
  { unfold slice_to. rewrite (proj2 (Z.leb_le 0 top_n)) by lia.
    rewrite take_ge; [apply sort_by_score_Permutation|].
    rewrite length_sort_by_score, length_fmap. lia. }
  split; [exact Hall|]. intros l Hl Hm.
  exists (scored criteria l). split; [|done].
  rewrite Hall. apply list_elem_of_fmap. exists l. split; [done|].
  by apply elem_of_survivors.
Qed.

(** X11: asking for more results only extends the list: for
    [0 <= n <= m] the result for [n] is an initial segment of the result for
    [m]. *)
Theorem search_top_n_prefix (_listings : list Listing)
    (criteria : SearchCriteria) (n m : Z) :
  (0 ≤ n)%Z → (n ≤ m)%Z →
  ∃ rs rs', search _listings criteria n = Ok rs
            ∧ search _listings criteria m = Ok rs'
            ∧ rs `prefix_of` rs'.
Proof.
  intros Hn Hm. eexists _, _.
  split; [apply search_Ok|]. split; [apply search_Ok|].
  unfold slice_to.
  rewrite (proj2 (Z.leb_le 0 n)), (proj2 (Z.leb_le 0 m)) by lia.
  set (all := sort_by_score _).
  replace (take (Z.to_nat n) all)
    with (take (Z.to_nat n) (take (Z.to_nat m) all)); [apply prefix_take|].
  rewrite take_take. f_equal. lia.
Qed.

(** X12: [top_n] is a slice bound, not a count.  For [top_n = 0] the result
    is empty, and for a negative [top_n] it is the full ranking without its
    last [-top_n] results; no exception is raised. *)
Theorem search_nonpositive_top_n (_listings : list Listing)
    (criteria : SearchCriteria) (top_n : Z) :
  (top_n ≤ 0)%Z →
  ∃ rs all,
    search _listings criteria top_n = Ok rs
    ∧ search _listings criteria
        (Z.of_nat (length (survivors _listings criteria))) = Ok all
    ∧ (top_n = 0%Z → rs = [])
    ∧ ((top_n < 0)%Z →
       rs = take (length all - Z.to_nat (- top_n)) all
       ∧ Z.of_nat (length rs)
         = Z.max 0 (Z.of_nat (length (survivors _listings criteria)) + top_n)).
Proof.
  intros Hn. eexists _, _.
  split; [apply search_Ok|]. split; [apply search_Ok|].
  set (sorted_all := sort_by_score _).
  assert (Hlen : length sorted_all = length (survivors _listings criteria)).
  { subst sorted_all. by rewrite length_sort_by_score, length_fmap. }
  assert (Hfull : slice_to (Z.of_nat (length (survivors _listings criteria)))
                    sorted_all = sorted_all).
  { unfold slice_to. rewrite (proj2 (Z.leb_le 0 _)) by lia.
    apply take_ge. lia. }
  rewrite Hfull. unfold slice_to. split.
  - intros ->. reflexivity.
  - intros Hneg. rewrite (proj2 (Z.leb_gt 0 top_n)) by lia.
    split; [done|]. rewrite length_take, Hlen. lia.
Qed.

(** ** The inventory *)

#[local] Instance well_keyed_dec (row : gmap string pyval) :
  Decision (well_keyed row).
Proof. unfold well_keyed. apply _. Defined.

Lemma Listing_new_Ok (row : gmap string pyval) :
  well_keyed row → Listing_new row = Ok (row ∪ listing_defaults).
Proof.
  intros [Hreq Hall]. unfold Listing_new.
  by rewrite !bool_decide_eq_true_2.
Qed.

Lemma Listing_new_Raise (row : gmap string pyval) :
  ¬ well_keyed row → Listing_new row = Raise TypeError.
Proof.
  intros Hn. unfold Listing_new.
  case_bool_decide as Hall; simpl; [|done].
  case_bool_decide as Hreq; simpl; [|done].
  by destruct Hn.
Qed.

Lemma bind_Raise {A B : Type} (e : exn) (f : A → result B) :
  (Raise e ≫= f) = Raise e.
Proof. reflexivity. Qed.

Lemma listings_loop (rows listings : list (gmap string pyval)) :
  for_each (λ (listings : list (gmap string pyval)) row,
              listing ← Listing_new row; Ok (listings ++ [listing]))
           rows listings
  = if decide (Forall well_keyed rows)
    then Ok (listings ++ ((λ row, row ∪ listing_defaults) <$> rows))
    else Raise TypeError.
Proof.
  revert listings. induction rows as [|row rows IH]; intros listings.
  - cbn [for_each]. case_decide as H; [by rewrite app_nil_r|].
    destruct H. constructor.
  - cbn [for_each].
    destruct (decide (well_keyed row)) as [Hrow|Hrow].
    + rewrite Listing_new_Ok by done. rewrite !bind_Ok, IH.
      case_decide as Hrows; case_decide as Hall.
      * by rewrite fmap_cons, <- app_assoc.
      * destruct Hall. by constructor.
      * by apply Forall_cons in Hall as [_ ?].
      * done.
    + rewrite Listing_new_Raise by done. rewrite !bind_Raise.
      destruct (decide (Forall well_keyed (row :: rows))) as [Hall|]; [|done]. by apply Forall_cons in Hall as [? _].
Qed.

(** X13: [listings_from_iterable] builds one listing for each row, in order,
    with the values of the row and the empty string for an absent [notes] or
    [url], when every row has the thirteen required fields and no unknown
    key; otherwise it raises [TypeError], whatever the other rows are. *)
Theorem listings_from_iterable_rows (rows : list (gmap string pyval)) :
  (Forall well_keyed rows →
   ∃ listings,
     listings_from_iterable rows = Ok listings
     ∧ length listings = length rows
     ∧ ∀ i row, rows !! i = Some row →
         ∃ listing, listings !! i = Some listing
           ∧ (∀ k v, row !! k = Some v → listing !! k = Some v)
           ∧ (∀ k, row !! k = None → listing !! k = listing_defaults !! k))
  ∧ (¬ Forall well_keyed rows → listings_from_iterable rows = Raise TypeError).
Proof.
  unfold listings_from_iterable. rewrite listings_loop. split.
  - intros Hall. rewrite decide_True by done. eexists. split; [done|].
    simpl. split; [by rewrite length_fmap|].
    intros i row Hi. eexists. split.
    + by rewrite list_lookup_fmap, Hi.
    + split.
      * intros k v Hk. by apply lookup_union_Some_l.
      * intros k Hk. by apply lookup_union_r.
  - intros Hn. by rewrite decide_False.
Qed.

(** X14: the macrozone of a listing is one of the six macrozones of the
    table or [Zona Desconocida], and it is [Zona Desconocida] exactly when
    the region is not a key of the table. *)
Theorem macrozone_range (listing : Listing) :
  macrozone listing ∈ macrozone_names
  ∧ (macrozone listing = "Zona Desconocida"%string
     ↔ MACROZONE_BY_REGION !! region listing = None).
Proof.
  assert (Htable : map_Forall
            (λ _ zone, zone ∈ macrozone_names
                       ∧ zone ≠ "Zona Desconocida"%string)
            MACROZONE_BY_REGION).
  { apply (bool_decide_unpack _). vm_compute. exact I. }
  unfold macrozone.
  destruct (MACROZONE_BY_REGION !! region listing) as [zone|] eqn:E; simpl.
  - destruct (Htable _ _ E) as [Hin Hne]. split; [exact Hin|]. by split.
  - split; [|done]. apply (bool_decide_unpack _). by vm_compute.
Qed.

(** ** The strings of the query *)

Lemma append_nil (t : string) : "" +:+ t = t.
Proof. reflexivity. Qed.

Lemma append_cons (c : Ascii.ascii) (s t : string) :
  String c s +:+ t = String c (s +:+ t).
Proof. reflexivity. Qed.

Lemma prefix_char (a c : Ascii.ascii) (s : string) :
  String.prefix (String a EmptyString) (String c s) = Ascii.eqb c a.
Proof.
  simpl. destruct (Ascii.ascii_dec a c) as [->|Hne].
  - rewrite Ascii.eqb_refl. by destruct s.
  - symmetry. apply Ascii.eqb_neq. congruence.
Qed.

Lemma replace_char (a : Ascii.ascii) (new s : string) :
  replace (String a EmptyString) new s = subst_char a new s.
Proof.
  unfold replace. induction s as [|c s IH]; [done|].
  cbn [replace_from subst_char]. rewrite prefix_char.
  destruct (Ascii.eqb c a); cbn [String.length Nat.sub fmap option_fmap option_map];
    by rewrite IH.
Qed.

Lemma count_is_count_char (a : Ascii.ascii) (s : string) :
  count (String a EmptyString) s = count_char a s.
Proof.
  unfold count. induction s as [|c s IH]; [done|].
  cbn [count_from count_char]. rewrite prefix_char.
  destruct (Ascii.eqb c a); cbn [String.length Nat.sub]; by rewrite IH.
Qed.

Lemma replace_absent (a : Ascii.ascii) (rest new s : string) :
  all_chars (λ c, negb (Ascii.eqb c a)) s = true →
  replace (String a rest) new s = s.
Proof.
  unfold replace. induction s as [|c s IH]; [done|].
  cbn [all_chars]. intros [Hc Hs]%andb_true_iff.
  apply negb_true_iff in Hc. cbn [replace_from].
  assert (Hp : String.prefix (String a rest) (String c s) = false).
  { simpl. destruct (Ascii.ascii_dec a c) as [->|]; [|done].
    by rewrite Ascii.eqb_refl in Hc. }
  rewrite Hp. by rewrite IH.
Qed.

Lemma all_chars_impl (p q : Ascii.ascii → bool) (s : string) :
  (∀ c, p c = true → q c = true) →
  all_chars p s = true → all_chars q s = true.
Proof.
  intros Hpq. induction s as [|c s IH]; [done|]. cbn [all_chars].
  intros [Hc Hs]%andb_true_iff. by rewrite (Hpq c Hc), IH.
Qed.

Lemma all_chars_app (p : Ascii.ascii → bool) (s t : string) :
  all_chars p (s +:+ t) = all_chars p s && all_chars p t.
Proof.
  induction s as [|c s IH]; [done|]. rewrite append_cons. cbn [all_chars].
  by rewrite IH, andb_assoc.
Qed.

Lemma subst_char_absent (a : Ascii.ascii) (new s : string) :
  all_chars (λ c, negb (Ascii.eqb c a)) s = true → subst_char a new s = s.
Proof.
  induction s as [|c s IH]; [done|]. cbn [all_chars subst_char].
  intros [Hc Hs]%andb_true_iff. apply negb_true_iff in Hc.
  by rewrite Hc, IH.
Qed.

Lemma subst_char_delete (a : Ascii.ascii) (s : string) :
  subst_char a "" s = without_char a s.
Proof.
  induction s as [|c s IH]; [done|]. cbn [subst_char without_char].
  destruct (Ascii.eqb c a); by rewrite ?append_nil, IH.
Qed.

Lemma string_app_assoc (s t u : string) : (s +:+ t) +:+ u = s +:+ (t +:+ u).
Proof. induction s as [|c s IH]; [done|]. by rewrite !append_cons, IH. Qed.

Lemma subst_char_app (a : Ascii.ascii) (new s t : string) :
  subst_char a new (s +:+ t) = subst_char a new s +:+ subst_char a new t.
Proof.
  induction s as [|c s IH]; [done|]. rewrite append_cons. cbn [subst_char].
  destruct (Ascii.eqb c a); rewrite IH; [|by rewrite append_cons].
  by rewrite string_app_assoc.
Qed.

Lemma without_char_absent (a : Ascii.ascii) (s : string) :
  all_chars (λ c, negb (Ascii.eqb c a)) s = true → without_char a s = s.
Proof. intros H. by rewrite <- subst_char_delete, subst_char_absent. Qed.

Lemma without_char_app (a : Ascii.ascii) (s t : string) :
  without_char a (s +:+ t) = without_char a s +:+ without_char a t.
Proof. by rewrite <- !subst_char_delete, subst_char_app. Qed.

Lemma all_chars_without_char (p : Ascii.ascii → bool) (a : Ascii.ascii)
    (s : string) :
  (∀ c, p c = true → Ascii.eqb c a = false → is_digit c = true) →
  all_chars p s = true → all_chars is_digit (without_char a s) = true.
Proof.
  intros Hp. induction s as [|c s IH]; [done|]. cbn [all_chars without_char].
  intros [Hc Hs]%andb_true_iff.
  destruct (Ascii.eqb c a) eqn:E; [by apply IH|].
  cbn [all_chars]. by rewrite (Hp c Hc E), IH.
Qed.

Lemma count_char_absent (a : Ascii.ascii) (s : string) :
  all_chars (λ c, negb (Ascii.eqb c a)) s = true → count_char a s = 0%nat.
Proof.
  induction s as [|c s IH]; [done|]. cbn [all_chars count_char].
  intros [Hc Hs]%andb_true_iff. apply negb_true_iff in Hc.
  by rewrite Hc, IH.
Qed.

Lemma count_char_app (a : Ascii.ascii) (s t : string) :
  count_char a (s +:+ t) = (count_char a s + count_char a t)%nat.
Proof.
  induction s as [|c s IH]; [done|]. rewrite append_cons. cbn [count_char].
  destruct (Ascii.eqb c a); by rewrite IH.
Qed.

(** A digit is none of the separators. *)
Lemma digit_not (c : Ascii.ascii) (n : nat) :
  (n < 48 ∨ 57 < n)%nat → (n < 256)%nat →
  is_digit c = true → negb (Ascii.eqb c (Ascii.ascii_of_nat n)) = true.
Proof.
  intros Hn Hlt Hd. apply negb_true_iff, Ascii.eqb_neq. intros ->.
  unfold is_digit in Hd. cbv zeta in Hd.
  apply andb_true_iff in Hd as [H1%Nat.leb_le H2%Nat.leb_le].
  rewrite Ascii.nat_ascii_embedding in H1, H2 by done. lia.
Qed.

Lemma digit_or_point_not (c : Ascii.ascii) (n : nat) :
  (n < 46 ∨ 57 < n)%nat → (n < 256)%nat →
  is_digit_or_point c = true → negb (Ascii.eqb c (Ascii.ascii_of_nat n)) = true.
Proof.
  intros Hn Hlt [Hd|Hp]%orb_true_iff.
  - apply digit_not; [lia | done | done].
  - apply Ascii.eqb_eq in Hp as ->.
    apply negb_true_iff, Ascii.eqb_neq. intros Heq.
    apply (f_equal Ascii.nat_of_ascii) in Heq.
    rewrite Ascii.nat_ascii_embedding in Heq by done.
    vm_compute in Heq. lia.
Qed.

Lemma digits_have_no (n : nat) (s : string) :
  (n < 48 ∨ 57 < n)%nat → (n < 256)%nat →
  all_chars is_digit s = true →
  all_chars (λ c, negb (Ascii.eqb c (Ascii.ascii_of_nat n))) s = true.
Proof.
  intros Hn Hlt. apply all_chars_impl. intros c. by apply digit_not.
Qed.

Lemma digits_and_points_have_no (n : nat) (s : string) :
  (n < 46 ∨ 57 < n)%nat → (n < 256)%nat →
  all_chars is_digit_or_point s = true →
  all_chars (λ c, negb (Ascii.eqb c (Ascii.ascii_of_nat n))) s = true.
Proof.
  intros Hn Hlt. apply all_chars_impl. intros c. by apply digit_or_point_not.
Qed.

Lemma digits_without_points (s : string) :
  all_chars is_digit_or_point s = true →
  all_chars is_digit (without_char point s) = true.
Proof.
  apply all_chars_without_char. intros c [Hd|Hp]%orb_true_iff Hne; [done|].
  congruence.
Qed.

(** What [_parse_float] hands to [float] for a stripped value without
    no-break space and blank: the points are dropped, the commas become
    points, and of several points only the last is kept. *)
Lemma _parse_float_normalized (value : string) :
  truthy_str (strip value) = true →
  all_chars (λ c, negb (Ascii.eqb c (Ascii.ascii_of_nat 194))) (strip value) = true →
  all_chars (λ c, negb (Ascii.eqb c (Ascii.ascii_of_nat 32))) (strip value) = true →
  _parse_float (Some value)
  = let normalized := subst_char comma "." (without_char point (strip value)) in
    float_of (if (1 <? count_char point normalized)%nat
              then replace_n "." "" (count_char point normalized - 1) normalized
              else normalized).
Proof.
  intros Ht Hn Hs. unfold _parse_float. rewrite Ht. cbn [negb]. cbv zeta.
  assert (E1 : replace nbsp "" (strip value) = strip value)
    by by apply (replace_absent (Ascii.ascii_of_nat 194)).
  assert (E2 : replace " " "" (strip value) = strip value)
    by by apply (replace_absent (Ascii.ascii_of_nat 32) "").
  assert (E3 : replace "." "" (strip value) = without_char point (strip value)).
  { rewrite <- subst_char_delete. apply (replace_char point). }
  assert (E4 : ∀ s, replace "," "." s = subst_char comma "." s)
    by (intros s; apply (replace_char comma)).
  assert (E5 : ∀ s, count "." s = count_char point s)
    by (intros s; apply (count_is_count_char point)).
  by rewrite E1, E2, E3, E4, !E5.
Qed.

(** X15: a value made of digits and points only is read with every point
    dropped: the point is a thousands separator, never a decimal one. *)
Theorem parse_float_points (value : string) :
  truthy_str (strip value) = true →
  all_chars is_digit_or_point (strip value) = true →
  _parse_float (Some value) = float_of (without_char point (strip value)).
Proof.
  intros Ht Hv.
  rewrite _parse_float_normalized;
    [|done|by apply digits_and_points_have_no; [lia|lia|]
          |by apply digits_and_points_have_no; [lia|lia|]].
  cbv zeta. pose proof (digits_without_points _ Hv) as Hd.
  rewrite (subst_char_absent comma)
    by (apply (digits_have_no 44); [lia|lia|done]).
  rewrite (count_char_absent point)
    by (apply (digits_have_no 46); [lia|lia|done]).
  reflexivity.
Qed.

(** X16: a value [a,b] with digits and points before the comma and digits
    after it is read as the number with the points of [a] dropped and the
    comma as the decimal point. *)
Theorem parse_float_comma (value a b : string) :
  strip value = a +:+ "," +:+ b →
  all_chars is_digit_or_point a = true →
  all_chars is_digit b = true →
  _parse_float (Some value) = float_of (without_char point a +:+ "." +:+ b).
Proof.
  intros Hv Ha Hb.
  rewrite _parse_float_normalized; rewrite Hv.
  - cbv zeta.
    pose proof (digits_without_points _ Ha) as Hd.
    rewrite !without_char_app.
    rewrite (without_char_absent point b)
      by (apply (digits_have_no 46); [lia|lia|done]).
    change (without_char point ",") with ","%string.
    rewrite !subst_char_app.
    rewrite (subst_char_absent comma _ (without_char point a))
      by (apply (digits_have_no 44); [lia|lia|done]).
    rewrite (subst_char_absent comma _ b)
      by (apply (digits_have_no 44); [lia|lia|done]).
    change (subst_char comma "." ",") with "."%string.
    rewrite !count_char_app.
    rewrite (count_char_absent point (without_char point a))
      by (apply (digits_have_no 46); [lia|lia|done]).
    rewrite (count_char_absent point b)
      by (apply (digits_have_no 46); [lia|lia|done]).
    reflexivity.
  - by destruct a.
  - rewrite !all_chars_app.
    rewrite (digits_and_points_have_no 194 a), (digits_have_no 194 b)
      by (lia || done).
    reflexivity.
  - rewrite !all_chars_app.
    rewrite (digits_and_points_have_no 32 a), (digits_have_no 32 b)
      by (lia || done).
    reflexivity.
Qed.

Lemma split_nonempty (sep : Ascii.ascii) (s : string) : split sep s ≠ [].
Proof.
  induction s as [|c s IH]; [done|]. cbn [split].
  destruct (Ascii.eqb c sep); [done|]. by destruct (split sep s).
Qed.

Lemma split_app (sep : Ascii.ascii) (s t : string) :
  split sep (s +:+ String sep t) = split sep s ++ split sep t.
Proof.
  induction s as [|c s IH].
  - rewrite append_nil. cbn [split]. by rewrite Ascii.eqb_refl.
  - rewrite append_cons. cbn [split]. rewrite IH.
    destruct (Ascii.eqb c sep); [done|].
    pose proof (split_nonempty sep s). by destruct (split sep s).
Qed.

(** The items of a list of segments: stripped, the empty ones left out. *)
Lemma _split_csv_parts (raw : string) :
  strip "" = ""%string →
  _split_csv (Some raw)
  = omap (λ segment,
            if truthy_str (strip segment) then Some (strip segment) else None)
         (split comma (subst_char semicolon "," raw)).
Proof.
  intros Hstrip. unfold _split_csv.
  destruct raw as [|c raw]; cbn [truthy_str negb].
  - simpl. by rewrite Hstrip.
  - cbv zeta. by rewrite (replace_char semicolon ",").
Qed.

Lemma split_csv_items_aux (raw : option string) (item : string) :
  item ∈ _split_csv raw → truthy_str item = true.
Proof.
  intros Hin. destruct raw as [raw|]; [|by apply elem_of_nil in Hin].
  unfold _split_csv in Hin.
  destruct (negb (truthy_str raw)); [by apply elem_of_nil in Hin|].
  cbv zeta in Hin. apply list_elem_of_omap in Hin as (segment & _ & Hitem).
  destruct (truthy_str (strip segment)) eqn:E; [|done].
  by injection Hitem as <-.
Qed.

(** X17: [_split_csv] never returns an empty item: every item is a stripped
    segment that is not empty; an absent or empty string gives no item. *)
Theorem split_csv_items (raw : option string) :
  (∀ item, item ∈ _split_csv raw →
           truthy_str item = true ∧ ∃ segment, item = strip segment)
  ∧ (raw = None ∨ raw = Some ""%string → _split_csv raw = []).
Proof.
  split.
  - intros item Hin. destruct raw as [raw|]; [|by apply elem_of_nil in Hin].
    unfold _split_csv in Hin.
    destruct (negb (truthy_str raw)); [by apply elem_of_nil in Hin|].
    cbv zeta in Hin. apply list_elem_of_omap in Hin as (segment & _ & Hitem).
    destruct (truthy_str (strip segment)) eqn:E; [|done].
    injection Hitem as <-. eauto.
  - by intros [-> | ->].
Qed.

(** X18: comma and semicolon both separate: the items of [a,b] and of [a;b]
    are the items of [a] followed by the items of [b] ([str.strip] leaves
    the empty string empty). *)
Theorem split_csv_separators (a b : string) :
  strip "" = ""%string →
  _split_csv (Some (a +:+ "," +:+ b))
  = _split_csv (Some a) ++ _split_csv (Some b)
  ∧ _split_csv (Some (a +:+ ";" +:+ b))
    = _split_csv (Some a) ++ _split_csv (Some b).
Proof.
  intros Hstrip. rewrite !_split_csv_parts by done.
  rewrite !subst_char_app.
  change (subst_char semicolon "," ",") with (String comma "").
  change (subst_char semicolon "," ";") with (String comma "").
  rewrite !append_cons, !append_nil, split_app, omap_app. done.
Qed.

(** ** From the query to the criteria *)

Lemma bind_Returns {A B : Type} (a : A) (f : A → web_result B) :
  (Returns a ≫= f) = f a.
Proof. reflexivity. Qed.

Lemma param_Returns (params : gmap string (list string)) (key fallback : string) :
  params !! key ≠ Some [] →
  param params key fallback = Returns (param_value params key fallback).
Proof.
  intros Hne. unfold param, param_value.
  by destruct (params !! key) as [[|value values]|] eqn:E.
Qed.

Lemma nonempty_values_readable (params : gmap string (list string)) :
  nonempty_values params → readable params.
Proof. intros Hne key _ E. by destruct (Hne _ _ E). Qed.

Lemma param_IndexError (params : gmap string (list string)) (key fallback : string) :
  params !! key = Some [] → param params key fallback = IndexError.
Proof. intros E. unfold param. by rewrite E. Qed.

Section kwargs.

Context (m : gmap string pyval).

Lemma lookup_set_if_ne (b : bool) (k k' : string) (v : pyval) :
  k ≠ k' → set_if b k v m !! k' = m !! k'.
Proof. intros Hne. unfold set_if. destruct b; [|done]. by rewrite lookup_insert_ne. Qed.

Lemma lookup_set_if_eq (b : bool) (k : string) (v : pyval) :
  set_if b k v m !! k = if b then Some v else m !! k.
Proof. unfold set_if. destruct b; [|done]. by rewrite lookup_insert_eq. Qed.

Lemma lookup_number_ne (x : option Q) (k k' : string) :
  k ≠ k' →
  set_positive x k m !! k' = m !! k'.
Proof.
  intros Hne. destruct x as [p|]; [|done]. by apply lookup_set_if_ne.
Qed.

Lemma lookup_number_eq (x : option Q) (k : string) :
  set_positive x k m !! k
  = match positive x with Some p => Some (PNum p) | None => m !! k end.
Proof.
  destruct x as [p|]; [|done]. simpl. rewrite lookup_set_if_eq.
  by destruct (Qltb 0 p).
Qed.

Context (D : gset string).

Lemma dom_set_if (b : bool) (k : string) (v : pyval) :
  k ∈ D → dom m ⊆ D → dom (set_if b k v m) ⊆ D.
Proof.
  intros Hk Hm. unfold set_if. destruct b; [|done]. rewrite dom_insert.
  apply union_subseteq. split; [|done]. by apply singleton_subseteq_l.
Qed.

Lemma dom_number (x : option Q) (k : string) :
  k ∈ D → dom m ⊆ D →
  dom (set_positive x k m) ⊆ D.
Proof.
  intros Hk Hm. destruct x as [p|]; [|done]. by apply dom_set_if.
Qed.

End kwargs.

Lemma mapM_as_str (l : list string) : mapM as_str (PStr <$> l) = Some l.
Proof.
  induction l as [|x l IH]; [done|]. rewrite fmap_cons. cbn. by rewrite IH.
Qed.

Lemma criteria_of_fields (o : gmap string pyval)
    (regions macrozones zonings required preferred types : list string)
    (m2 ha : Q) (total per_m2 : option Q) :
  o !! "preferred_regions"%string = Some (PList (PStr <$> regions)) →
  o !! "preferred_macrozones"%string = Some (PList (PStr <$> macrozones)) →
  o !! "target_zonings"%string = Some (PList (PStr <$> zonings)) →
  o !! "min_area_m2"%string = Some (PNum m2) →
  o !! "min_area_hectares"%string = Some (PNum ha) →
  o !! "max_total_price"%string
  = Some (match total with Some p => PNum p | None => PNone end) →
  o !! "max_price_per_m2"%string
  = Some (match per_m2 with Some p => PNum p | None => PNone end) →
  o !! "required_services"%string = Some (PList (PStr <$> required)) →
  o !! "preferred_services"%string = Some (PList (PStr <$> preferred)) →
  o !! "transport_importance"%string = Some (PDict []) →
  o !! "desired_property_types"%string = Some (PList (PStr <$> types)) →
  criteria_of o = Some {|
    preferred_regions := regions;
    preferred_macrozones := macrozones;
    target_zonings := zonings;
    min_area_m2 := m2;
    min_area_hectares := ha;
    max_total_price := total;
    max_price_per_m2 := per_m2;
    required_services := required;
    preferred_services := preferred;
    transport_importance := ∅;
    desired_property_types := types
  |}.
Proof.
  intros H1 H2 H3 H4 H5 H6 H7 H8 H9 H10 H11. unfold criteria_of.
  rewrite H1, H2, H3, H4, H5, H6, H7, H8, H9, H10, H11.
  cbn [as_strs as_float as_weights]. rewrite !mapM_as_str.
  by destruct total, per_m2.
Qed.

Lemma field_defaults_lookup :
  field_defaults !! "preferred_regions"%string = Some (PList [])
  ∧ field_defaults !! "preferred_macrozones"%string = Some (PList [])
  ∧ field_defaults !! "target_zonings"%string = Some (PList [])
  ∧ field_defaults !! "min_area_m2"%string = Some (PNum 0)
  ∧ field_defaults !! "min_area_hectares"%string = Some (PNum 0)
  ∧ field_defaults !! "max_total_price"%string = Some PNone
  ∧ field_defaults !! "max_price_per_m2"%string = Some PNone
  ∧ field_defaults !! "required_services"%string = Some (PList [])
  ∧ field_defaults !! "preferred_services"%string = Some (PList [])
  ∧ field_defaults !! "transport_importance"%string = Some (PDict [])
  ∧ field_defaults !! "desired_property_types"%string = Some (PList []).
Proof. vm_compute. by repeat split. Qed.

Ltac field_name :=
  apply (bool_decide_unpack _); vm_compute; exact I.

Ltac through_kwargs :=
  repeat lazymatch goal with
    | |- context [set_if ?b ?k ?v ?m !! ?k] =>
        rewrite (lookup_set_if_eq m b k v)
    | |- context [set_if ?b ?k ?v ?m !! ?k'] =>
        rewrite (lookup_set_if_ne m b k k' v) by discriminate
    | |- context [set_positive ?x ?k ?m !! ?k] =>
        rewrite (lookup_number_eq m x k)
    | |- context [set_positive ?x ?k ?m !! ?k'] =>
        rewrite (lookup_number_ne m x k k') by discriminate
    | |- context [∅ !! ?k] => rewrite lookup_empty
    end.

Lemma truthy_seq_fmap_nil (l : list string) :
  truthy_seq l = false → l = [].
Proof. by destruct l. Qed.

Ltac kwargs_dom :=
  apply dom_number; [field_name|]; apply dom_number; [field_name|];
  do 2 (apply dom_set_if; [field_name|]);
  apply dom_number; [field_name|];
  do 3 (apply dom_set_if; [field_name|]); by rewrite dom_empty.

Ltac one_field D :=
  rewrite lookup_union; through_kwargs; rewrite D;
  lazymatch goal with
  | |- context [truthy_str ?s] => destruct (truthy_str s); reflexivity
  | |- context [truthy_seq ?l] => destruct l; reflexivity
  | |- context [positive ?x] => destruct (positive x); reflexivity
  | |- _ => reflexivity
  end.

Ltac in_list := by repeat constructor.

Lemma _build_criteria_Returns (params : gmap string (list string)) :
  readable params →
  ∃ obj, _build_criteria params = Returns obj
         ∧ criteria_of obj = Some (web_criteria params).
Proof.
  intros Hr. unfold _build_criteria. cbv zeta.
  assert (Hp : ∀ k d, k ∈ criteria_keys →
                      param params k d = Returns (param_value params k d)).
  { intros k d Hk. by apply param_Returns, Hr. }
  rewrite !Hp by in_list. rewrite !bind_Returns. clear Hp.
  unfold web_criteria. cbv zeta.
  destruct field_defaults_lookup
    as (D1 & D2 & D3 & D4 & D5 & D6 & D7 & D8 & D9 & D10 & D11).
  destruct (String.eqb (param_value params "area_unit" "m2") "ha").
  - rewrite cls_Ok by kwargs_dom.
    eexists. split; [reflexivity|].
    apply criteria_of_fields;
      [ one_field D1 | one_field D2 | one_field D3 | one_field D4
      | one_field D5 | one_field D6 | one_field D7 | one_field D8
      | one_field D9 | one_field D10 | one_field D11 ].
  - rewrite cls_Ok by kwargs_dom.
    eexists. split; [reflexivity|].
    apply criteria_of_fields;
      [ one_field D1 | one_field D2 | one_field D3 | one_field D4
      | one_field D5 | one_field D6 | one_field D7 | one_field D8
      | one_field D9 | one_field D10 | one_field D11 ].
Qed.

Lemma positive_Some (x : option Q) (p : Q) : positive x = Some p → 0 < p.
Proof.
  destruct x as [q|]; simpl; [|done].
  destruct (Qltb 0 q) eqn:E; [|done]. intros [= <-]. by apply Qltb_lt.
Qed.

Lemma positive_active (x : option Q) : active_cap (positive x) = positive x.
Proof.
  destruct (positive x) as [p|] eqn:E; [|done]. simpl.
  apply positive_Some in E.
  rewrite (proj2 (truthy_num_neq p)); [done|]. intros H. rewrite H in E. lra.
Qed.

Lemma positive_default (x : option Q) : 0 <= default 0 (positive x).
Proof.
  destruct (positive x) as [p|] eqn:E; simpl; [|lra].
  apply positive_Some in E. lra.
Qed.

(** X19: for a query whose nine keys have a first value, [_build_criteria]
    returns criteria (it raises neither [IndexError] nor [TypeError]) of the
    annotated types in which a price cap that is set is positive, so that
    filter and scorer agree on it; the two minimum areas are not negative
    and at most one is not zero; there is no zoning and no transport weight;
    and no region, macrozone, property type or service is the empty
    string. *)
Theorem build_criteria_of_query (params : gmap string (list string)) :
  readable params →
  ∃ obj c,
    _build_criteria params = Returns obj
    ∧ criteria_of obj = Some c
    ∧ (∀ cap, max_total_price c = Some cap → 0 < cap)
    ∧ (∀ cap, max_price_per_m2 c = Some cap → 0 < cap)
    ∧ active_cap (max_total_price c) = max_total_price c
    ∧ active_cap (max_price_per_m2 c) = max_price_per_m2 c
    ∧ 0 <= min_area_m2 c
    ∧ 0 <= min_area_hectares c
    ∧ (min_area_m2 c = 0 ∨ min_area_hectares c = 0)
    ∧ target_zonings c = []
    ∧ transport_importance c = ∅
    ∧ ∀ x, x ∈ preferred_regions c ++ preferred_macrozones c
               ++ desired_property_types c ++ required_services c
               ++ preferred_services c →
           truthy_str x = true.
Proof.
  intros Hr. destruct (_build_criteria_Returns params Hr) as (obj & Hobj & Hc).
  exists obj, (web_criteria params). split; [exact Hobj|]. split; [exact Hc|].
  unfold web_criteria. cbv zeta. cbn [max_total_price max_price_per_m2
    min_area_m2 min_area_hectares target_zonings transport_importance
    preferred_regions preferred_macrozones desired_property_types
    required_services preferred_services].
  split; [intros cap; apply positive_Some|].
  split; [intros cap; apply positive_Some|].
  split; [apply positive_active|]. split; [apply positive_active|].
  split; [case_match; [lra | apply positive_default]|].
  split; [case_match; [apply positive_default | lra]|].
  split; [case_match; [by left | by right]|].
  split; [done|]. split; [done|].
  intros x Hx.
  repeat (apply elem_of_app in Hx as [Hx|Hx]);
    try (by apply split_csv_items_aux in Hx);
    (case_match eqn:E; [by apply list_elem_of_singleton in Hx as ->
                       | by apply elem_of_nil in Hx]).
Qed.

(** X20: [_build_criteria] raises [IndexError] exactly when one of the nine
    keys it reads is in the query with an empty list of values. *)
Theorem build_criteria_index_error (params : gmap string (list string)) :
  _build_criteria params = IndexError
  ↔ ∃ key, key ∈ criteria_keys ∧ params !! key = Some [].
Proof.
  split.
  - intros Herr.
    destruct (decide (Exists (λ key, params !! key = Some []) criteria_keys))
      as [Hex|Hall].
    + apply Exists_exists in Hex as (key & Hin & Hk). eauto.
    + exfalso. apply not_Exists_Forall in Hall; [|apply _].
      assert (Hr : readable params).
      { intros key Hin. by apply (proj1 (Forall_forall _ _) Hall). }
      destruct (_build_criteria_Returns params Hr) as (obj & Hobj & _).
      congruence.
  - intros (key & Hin & Hk). unfold _build_criteria. cbv zeta.
    assert (Hcases : ∀ k d {A} (f : string → web_result A),
              (param params k d ≫= f) = IndexError
              ∨ (param params k d ≫= f) = f (param_value params k d)
                ∧ params !! k ≠ Some []).
    { intros k d A f. unfold param, param_value.
      destruct (params !! k) as [[|value values]|]; [by left|by right..]. }
    repeat match goal with
           | |- (param params ?k ?d ≫= ?f) = IndexError =>
               destruct (Hcases k d _ f) as [->|[-> ?]]; [done|]; cbv beta
           end.
    exfalso.
    repeat (apply elem_of_cons in Hin as [->|Hin]; [done|]).
    by apply elem_of_nil in Hin.
Qed.

End Agent.

(** ** The statements on the sample inventory *)

Ltac by_computation := vm_compute; first [reflexivity | discriminate | exact I].

(** The end-to-end example: only listing A passes the filter. *)
Example search_example :
  ∃ r, search ascii_lower [parcel_A; parcel_B] example_criteria 5 = Ok [r]
       ∧ listing r = parcel_A.
Proof. rewrite search_Ok. eexists. split; reflexivity. Qed.

(** Listing A under weights on the road only: 2.5 km from the road give an
    availability of 0.75, and the five entries add up to 0.8275. *)
Example score_example :
  let criteria := {|
    preferred_regions := [];
    preferred_macrozones := [];
    target_zonings := [];
    min_area_m2 := 5000;
    min_area_hectares := 0;
    max_total_price := None;
    max_price_per_m2 := None;
    required_services := ["electricidad"%string];
    preferred_services := [];
    transport_importance := {[ "Carretera"%string := 2 ]};
    desired_property_types := []
  |} in
  ∃ t sc bd hl,
    _transport_score ascii_lower parcel_A (transport_importance criteria) = Ok t
    ∧ t == 0.75
    ∧ _score_listing ascii_lower parcel_A criteria = Ok (sc, bd, hl)
    ∧ sc == 0.8275.
Proof.
  cbv zeta. eexists _, _, _, _.
  split; [vm_compute; reflexivity|]. split; [reflexivity|].
  split; [vm_compute; reflexivity|]. reflexivity.
Qed.

(** A zero divisor raises. *)
Example pydiv_example :
  pydiv 1 0 = Raise ZeroDivisionError ∧ pydiv 1 4 = Ok (1 / 4).
Proof. split; reflexivity. Qed.

Lemma search_length_witness :
  (1 ≤ 5)%Z
  ∧ ∃ rs, search ascii_lower [parcel_A; parcel_B] example_criteria 5 = Ok rs
          ∧ Z.of_nat (length rs)
            = Z.min 5 (Z.of_nat (length (survivors ascii_lower
                                           [parcel_A; parcel_B] example_criteria)))
          ∧ (survivors ascii_lower [parcel_A; parcel_B] example_criteria = []
             → rs = []).
Proof.
  split; [lia|].
  apply (search_length ascii_lower [parcel_A; parcel_B] example_criteria 5).
  lia.
Defined.

Lemma search_sorted_stable_witness :
  (1 ≤ 2)%Z
  ∧ ∃ rs, search ascii_lower [parcel_B; parcel_A; parcel_B] default_criteria 2
          = Ok rs
          ∧ StronglySorted by_score rs
          ∧ ∀ s, with_score s rs
                 `prefix_of`
                 with_score s (scored ascii_lower default_criteria
                               <$> survivors ascii_lower
                                     [parcel_B; parcel_A; parcel_B]
                                     default_criteria).
Proof.
  split; [lia|].
  apply (search_sorted_stable ascii_lower [parcel_B; parcel_A; parcel_B]
           default_criteria 2).
  lia.
Defined.

Lemma area_saturation_witness :
  4 * Qmax (_area_threshold_m2 default_criteria) 1 <= area_m2 parcel_A
  ∧ ∃ sc bd hl v,
      _score_listing ascii_lower parcel_A default_criteria = Ok (sc, bd, hl)
      ∧ bd !! "superficie"%string = Some v
      ∧ v == 0.2.
Proof.
  assert (H : 4 * Qmax (_area_threshold_m2 default_criteria) 1 <= area_m2 parcel_A)
    by by_computation.
  split; [exact H|].
  exact (area_saturation ascii_lower parcel_A default_criteria H).
Defined.

(** C6 as stated fails: with no minimum area the threshold is 0, a plot of
    two square metres has at least four times that area, and its
    [superficie] entry is 0.1, not 0.2. *)
Lemma area_saturation_counterexample :
  4 * _area_threshold_m2 default_criteria <= area_m2 small_plot
  ∧ ¬ ∃ sc bd hl v,
        _score_listing ascii_lower small_plot default_criteria = Ok (sc, bd, hl)
        ∧ bd !! "superficie"%string = Some v
        ∧ v == 0.2.
Proof.
  split; [by_computation|].
  intros (sc & bd & hl & v & Hs & Hl & Hv).
  rewrite _score_listing_Ok in Hs. injection Hs as <- <- <-.
  rewrite (proj2 (proj2 (proj2 (proj2
             (breakdown_value_lookup ascii_lower small_plot default_criteria)))))
    in Hl.
  injection Hl as <-. vm_compute in Hv. discriminate Hv.
Qed.

(** C7 as stated fails: with [max_total_price] set to 0 the claimed
    component divides by the cap, while the scoring engine returns the
    entry of the flat component, 0.2 * 0.6. *)
Lemma price_entry_counterexample :
  max_total_price zero_cap_criteria = Some 0
  ∧ (∃ sc bd hl v,
       _score_listing ascii_lower parcel_A zero_cap_criteria = Ok (sc, bd, hl)
       ∧ bd !! "precio"%string = Some v
       ∧ v == 0.12)
  ∧ price_component_claimed parcel_A zero_cap_criteria
    = Raise ZeroDivisionError
  ∧ ¬ claimed_price_entry ascii_lower parcel_A zero_cap_criteria.
Proof.
  split; [reflexivity|]. split; [|split].
  - eexists _, _, _, _. split; [apply _score_listing_Ok|].
    split; [apply breakdown_value_lookup|]. by_computation.
  - reflexivity.
  - intros (pc & sc & bd & hl & v & Hpc & _). discriminate Hpc.
Qed.

Lemma region_case_asymmetry_witness :
  preferred_regions maule_criteria ≠ []
  ∧ ascii_lower (region parcel_B)
    ∈ lowered ascii_lower (preferred_regions maule_criteria)
  ∧ (region parcel_B ∉ preferred_regions maule_criteria)
  ∧ rejects ascii_lower (region parcel_B) (preferred_regions maule_criteria)
    = false
  ∧ matches ascii_lower maule_criteria parcel_B
    = matches ascii_lower (with_preferred_regions [] maule_criteria) parcel_B
  ∧ location parcel_B maule_criteria = (0.4, "Región alternativa"%string)
  ∧ ∃ sc bd hl v,
      _score_listing ascii_lower parcel_B maule_criteria = Ok (sc, bd, hl)
      ∧ h_ubicacion hl = "Región alternativa"%string
      ∧ bd !! "ubicación"%string = Some v
      ∧ v == 0.1.
Proof.
  assert (H1 : preferred_regions maule_criteria ≠ []) by discriminate.
  assert (H2 : ascii_lower (region parcel_B)
               ∈ lowered ascii_lower (preferred_regions maule_criteria)).
  { apply (bool_decide_unpack _). by_computation. }
  assert (H3 : region parcel_B ∉ preferred_regions maule_criteria).
  { apply (bool_decide_unpack _). by_computation. }
  split; [exact H1|]. split; [exact H2|]. split; [exact H3|].
  exact (region_case_asymmetry ascii_lower parcel_B maule_criteria H1 H2 H3).
Defined.

Lemma zero_cap_disagreement_witness :
  0 == 0
  ∧ (max_total_price zero_cap_criteria = Some 0 →
       (0 < total_price parcel_A →
        matches ascii_lower zero_cap_criteria parcel_A = false)
       ∧ _score_listing ascii_lower parcel_A zero_cap_criteria
         = _score_listing ascii_lower parcel_A
             (with_max_total_price None zero_cap_criteria)
       ∧ (active_cap (max_price_per_m2 zero_cap_criteria) = None →
          price_component_value parcel_A zero_cap_criteria = 0.6))
  ∧ (max_price_per_m2 zero_cap_criteria = Some 0 →
       (0 < price_per_m2 parcel_A →
        matches ascii_lower zero_cap_criteria parcel_A = false)
       ∧ _score_listing ascii_lower parcel_A zero_cap_criteria
         = _score_listing ascii_lower parcel_A
             (with_max_price_per_m2 None zero_cap_criteria)).
Proof.
  split; [reflexivity|].
  apply (zero_cap_disagreement ascii_lower parcel_A zero_cap_criteria 0).
  reflexivity.
Defined.

(** The zero cap at work: the filter rejects listing A, the scorer gives it
    the price entry of criteria without caps. *)
Example zero_cap_example :
  matches ascii_lower zero_cap_criteria parcel_A = false
  ∧ matches ascii_lower default_criteria parcel_A = true
  ∧ _score_listing ascii_lower parcel_A zero_cap_criteria
    = _score_listing ascii_lower parcel_A default_criteria.
Proof.
  split; [by_computation|]. split; [by_computation|].
  by apply score_ignores_zero_cap.
Qed.

Lemma matches_filter_witness :
  violates ascii_lower example_criteria parcel_B
  ∧ matches ascii_lower example_criteria parcel_B = false
  ∧ unconstrained default_criteria
  ∧ 0 <= area_m2 parcel_A
  ∧ matches ascii_lower default_criteria parcel_A = true.
Proof.
  assert (Hv : violates ascii_lower example_criteria parcel_B).
  { do 4 right. left. by_computation. }
  assert (Hu : unconstrained default_criteria).
  { repeat split; reflexivity. }
  assert (Ha : 0 <= area_m2 parcel_A) by by_computation.
  split; [exact Hv|].
  split; [exact (proj1 (matches_filter ascii_lower example_criteria parcel_B) Hv)|].
  split; [exact Hu|]. split; [exact Ha|].
  exact (proj1 (proj2 (matches_filter ascii_lower default_criteria parcel_A))
           Hu Ha).
Defined.

Lemma from_dict_fields_witness :
  dom ({[ "min_area_m2"%string := PNum 5000 ]} : gmap string pyval)
  ⊆ dom field_defaults
  ∧ ∃ obj, from_dict {[ "min_area_m2"%string := PNum 5000 ]} = Ok obj
           ∧ (∀ k v, ({[ "min_area_m2"%string := PNum 5000 ]} : gmap string pyval)
                       !! k = Some v → obj !! k = Some v)
           ∧ (∀ k, ({[ "min_area_m2"%string := PNum 5000 ]} : gmap string pyval)
                     !! k = None → obj !! k = field_defaults !! k).
Proof.
  assert (H : dom ({[ "min_area_m2"%string := PNum 5000 ]} : gmap string pyval)
              ⊆ dom field_defaults).
  { apply (bool_decide_unpack _). by_computation. }
  split; [exact H|].
  exact (proj1 (proj2 (from_dict_fields {[ "min_area_m2"%string := PNum 5000 ]}))
           H).
Defined.

(** C3 as stated fails: a key that is not a field makes [from_dict] raise,
    while the mapping without it builds the default criteria. *)
Lemma from_dict_counterexample :
  ("color"%string ∉ dom field_defaults)
  ∧ from_dict {[ "color"%string := PStr "rojo" ]} = Raise TypeError
  ∧ from_dict ∅ = Ok field_defaults
  ∧ ¬ inert "color" (PStr "rojo") ∅.
Proof.
  split; [apply (bool_decide_unpack _); by_computation|].
  split; [by_computation|]. split; [by_computation|].
  intros (obj & Hobj & _). vm_compute in Hobj. discriminate Hobj.
Qed.

(** ** The further properties on the sample inputs *)






Lemma transport_score_zero_weights_witness :
  (∀ mode w, ({[ "carretera"%string := 0 ]} : gmap string Q) !! mode = Some w
             → w == 0)
  ∧ ∃ t, _transport_score ascii_lower parcel_A {[ "carretera"%string := 0 ]}
         = Ok t
         ∧ (({[ "carretera"%string := 0 ]} : gmap string Q) = ∅ → t == 0.6)
         ∧ (({[ "carretera"%string := 0 ]} : gmap string Q) ≠ ∅ → t == 0).
Proof.
  assert (Hz : ∀ mode w,
            ({[ "carretera"%string := 0 ]} : gmap string Q) !! mode = Some w
            → w == 0).
  { intros mode w [_ <-]%lookup_singleton_Some. reflexivity. }
  split; [exact Hz|].
  exact (transport_score_zero_weights ascii_lower parcel_A _ Hz).
Defined.


Lemma services_entry_of_match_witness :
  matches ascii_lower example_criteria parcel_A = true
  ∧ ∃ sc bd hl v,
      _score_listing ascii_lower parcel_A example_criteria = Ok (sc, bd, hl)
      ∧ bd !! "servicios"%string = Some v
      ∧ v == 0.4 * (0.6 + 0.4 * share (lowered ascii_lower
                                         (preferred_services example_criteria))
                                      (lowered ascii_lower (services parcel_A))
                                      0.5)
      ∧ 0.24 <= v
      ∧ h_servicios_cubiertos hl
        = sorted (lowered ascii_lower (required_services example_criteria)).
Proof.
  assert (Hm : matches ascii_lower example_criteria parcel_A = true)
    by by_computation.
  split; [exact Hm|].
  exact (services_entry_of_match ascii_lower parcel_A example_criteria Hm).
Defined.

Lemma price_entry_antitone_witness :
  (∀ cap, max_total_price capped_criteria = Some cap → 0 < cap)
  ∧ (∀ cap, max_price_per_m2 capped_criteria = Some cap → 0 < cap)
  ∧ total_price parcel_B <= total_price parcel_A
  ∧ price_per_m2 parcel_B <= price_per_m2 parcel_A
  ∧ ∃ sc bd hl v sc' bd' hl' v',
      _score_listing ascii_lower parcel_B capped_criteria = Ok (sc, bd, hl)
      ∧ _score_listing ascii_lower parcel_A capped_criteria = Ok (sc', bd', hl')
      ∧ bd !! "precio"%string = Some v
      ∧ bd' !! "precio"%string = Some v'
      ∧ v' <= v.
Proof.
  assert (H1 : ∀ cap, max_total_price capped_criteria = Some cap → 0 < cap)
    by (intros cap [= <-]; by_computation).
  assert (H2 : ∀ cap, max_price_per_m2 capped_criteria = Some cap → 0 < cap)
    by (intros cap [= <-]; by_computation).
  assert (H3 : total_price parcel_B <= total_price parcel_A) by by_computation.
  assert (H4 : price_per_m2 parcel_B <= price_per_m2 parcel_A)
    by by_computation.
  split; [exact H1|]. split; [exact H2|]. split; [exact H3|].
  split; [exact H4|].
  exact (price_entry_antitone ascii_lower parcel_B parcel_A capped_criteria
           H1 H2 H3 H4).
Defined.

Lemma area_entry_monotone_witness :
  area_m2 parcel_B <= area_m2 parcel_A
  ∧ ∃ sc bd hl v sc' bd' hl' v',
      _score_listing ascii_lower parcel_B example_criteria = Ok (sc, bd, hl)
      ∧ _score_listing ascii_lower parcel_A example_criteria = Ok (sc', bd', hl')
      ∧ bd !! "superficie"%string = Some v
      ∧ bd' !! "superficie"%string = Some v'
      ∧ v <= v' ∧ v' <= 0.2.
Proof.
  assert (H : area_m2 parcel_B <= area_m2 parcel_A) by by_computation.
  split; [exact H|].
  exact (area_entry_monotone ascii_lower parcel_B parcel_A example_criteria H).
Defined.

Lemma search_complete_witness :
  (Z.of_nat (length (survivors ascii_lower [parcel_A; parcel_B] example_criteria))
   ≤ 5)%Z
  ∧ ∃ rs, search ascii_lower [parcel_A; parcel_B] example_criteria 5 = Ok rs
          ∧ rs ≡ₚ scored ascii_lower example_criteria
                  <$> survivors ascii_lower [parcel_A; parcel_B] example_criteria
          ∧ ∀ l, l ∈ [parcel_A; parcel_B] →
                 matches ascii_lower example_criteria l = true →
                 ∃ r, r ∈ rs ∧ listing r = l.
Proof.
  assert (H : (Z.of_nat (length (survivors ascii_lower [parcel_A; parcel_B]
                                   example_criteria)) ≤ 5)%Z)
    by by_computation.
  split; [exact H|].
  exact (search_complete ascii_lower [parcel_A; parcel_B] example_criteria 5 H).
Defined.

Lemma search_top_n_prefix_witness :
  (0 ≤ 1)%Z ∧ (1 ≤ 2)%Z
  ∧ ∃ rs rs',
      search ascii_lower [parcel_B; parcel_A] default_criteria 1 = Ok rs
      ∧ search ascii_lower [parcel_B; parcel_A] default_criteria 2 = Ok rs'
      ∧ rs `prefix_of` rs'.
Proof.
  split; [lia|]. split; [lia|].
  apply (search_top_n_prefix ascii_lower [parcel_B; parcel_A] default_criteria 1 2);
    lia.
Defined.

Lemma search_nonpositive_top_n_witness :
  (-1 ≤ 0)%Z
  ∧ ∃ rs all,
      search ascii_lower [parcel_B; parcel_A] default_criteria (-1) = Ok rs
      ∧ search ascii_lower [parcel_B; parcel_A] default_criteria
          (Z.of_nat (length (survivors ascii_lower [parcel_B; parcel_A]
                               default_criteria))) = Ok all
      ∧ ((-1)%Z = 0%Z → rs = [])
      ∧ ((-1 < 0)%Z →
         rs = take (length all - Z.to_nat (- -1)) all
         ∧ Z.of_nat (length rs)
           = Z.max 0 (Z.of_nat (length (survivors ascii_lower
                                          [parcel_B; parcel_A]
                                          default_criteria)) + -1)).
Proof.
  split; [lia|].
  apply (search_nonpositive_top_n ascii_lower [parcel_B; parcel_A]
           default_criteria (-1)).
  lia.
Defined.

Lemma listings_from_iterable_rows_witness :
  Forall well_keyed [row_A]
  ∧ (∃ listings,
       listings_from_iterable [row_A] = Ok listings
       ∧ length listings = length [row_A]
       ∧ ∀ i row, [row_A] !! i = Some row →
           ∃ listing, listings !! i = Some listing
             ∧ (∀ k v, row !! k = Some v → listing !! k = Some v)
             ∧ (∀ k, row !! k = None → listing !! k = listing_defaults !! k))
  ∧ ¬ Forall well_keyed [row_A; delete "zoning"%string row_A]
  ∧ listings_from_iterable [row_A; delete "zoning"%string row_A]
    = Raise TypeError.
Proof.
  assert (H1 : Forall well_keyed [row_A]).
  { apply (bool_decide_unpack _). by_computation. }
  assert (H2 : ¬ Forall well_keyed [row_A; delete "zoning"%string row_A]).
  { apply (bool_decide_unpack _). by_computation. }
  split; [exact H1|].
  split; [exact (proj1 (listings_from_iterable_rows [row_A]) H1)|].
  split; [exact H2|].
  exact (proj2 (listings_from_iterable_rows _) H2).
Defined.

Lemma parse_float_points_witness :
  truthy_str (ascii_strip "1.5") = true
  ∧ all_chars is_digit_or_point (ascii_strip "1.5") = true
  ∧ _parse_float ascii_strip decimal_of (Some "1.5"%string)
    = decimal_of (without_char point (ascii_strip "1.5")).
Proof.
  split; [reflexivity|]. split; [reflexivity|].
  apply (parse_float_points ascii_strip decimal_of "1.5"); reflexivity.
Defined.

(** The decimal point of the form is lost: 1.5 is read as 15. *)
Example parse_float_example :
  _parse_float ascii_strip decimal_of (Some "1.5"%string) = Some 15
  ∧ _parse_float ascii_strip decimal_of (Some " 1.234,56 "%string)
    = Some 1234.56.
Proof. split; reflexivity. Qed.

Lemma parse_float_comma_witness :
  ascii_strip " 1.234,56 " = ("1.234" +:+ "," +:+ "56")%string
  ∧ all_chars is_digit_or_point "1.234" = true
  ∧ all_chars is_digit "56" = true
  ∧ _parse_float ascii_strip decimal_of (Some " 1.234,56 "%string)
    = decimal_of (without_char point "1.234" +:+ "." +:+ "56").
Proof.
  split; [reflexivity|]. split; [reflexivity|]. split; [reflexivity|].
  apply (parse_float_comma ascii_strip decimal_of " 1.234,56 " "1.234" "56");
    reflexivity.
Defined.

Lemma split_csv_separators_witness :
  ascii_strip "" = ""%string
  ∧ _split_csv ascii_strip (Some ("agua" +:+ "," +:+ " luz")%string)
    = _split_csv ascii_strip (Some "agua"%string)
      ++ _split_csv ascii_strip (Some " luz"%string)
  ∧ _split_csv ascii_strip (Some ("agua" +:+ ";" +:+ " luz")%string)
    = _split_csv ascii_strip (Some "agua"%string)
      ++ _split_csv ascii_strip (Some " luz"%string).
Proof.
  split; [reflexivity|].
  apply (split_csv_separators ascii_strip "agua" " luz"). reflexivity.
Defined.

Lemma sample_query_readable : readable sample_query.
Proof.
  intros key Hin.
  assert (H : Forall (λ key, sample_query !! key ≠ Some []) criteria_keys).
  { apply (bool_decide_unpack _). by_computation. }
  by apply (proj1 (Forall_forall _ _) H).
Qed.

Lemma build_criteria_of_query_witness :
  readable sample_query
  ∧ ∃ obj c,
      _build_criteria ascii_strip decimal_of sample_query = Returns obj
      ∧ criteria_of obj = Some c
      ∧ (∀ cap, max_total_price c = Some cap → 0 < cap)
      ∧ (∀ cap, max_price_per_m2 c = Some cap → 0 < cap)
      ∧ active_cap (max_total_price c) = max_total_price c
      ∧ active_cap (max_price_per_m2 c) = max_price_per_m2 c
      ∧ 0 <= min_area_m2 c
      ∧ 0 <= min_area_hectares c
      ∧ (min_area_m2 c = 0 ∨ min_area_hectares c = 0)
      ∧ target_zonings c = []
      ∧ transport_importance c = ∅
      ∧ ∀ x, x ∈ preferred_regions c ++ preferred_macrozones c
                 ++ desired_property_types c ++ required_services c
                 ++ preferred_services c →
             truthy_str x = true.
Proof.
  split; [exact sample_query_readable|].
  exact (build_criteria_of_query ascii_strip decimal_of sample_query
           sample_query_readable).
Defined.

(** The criteria of the sample query: 1.5 hectares, no cap for the price 0,
    two required services. *)
Example build_criteria_example :
  match _build_criteria ascii_strip decimal_of sample_query with
  | Returns obj => criteria_of obj
  | _ => None
  end
  = Some {|
      preferred_regions := ["Maule"%string];
      preferred_macrozones := [];
      target_zonings := [];
      min_area_m2 := 0;
      min_area_hectares := 1.5;
      max_total_price := None;
      max_price_per_m2 := None;
      required_services := ["agua"; "luz"]%string;
      preferred_services := [];
      transport_importance := ∅;
      desired_property_types := []
    |}.
Proof. by_computation. Qed.

(** The upper bound of the score is reached: the five weights add up to
    1.2. *)
Example score_above_one :
  let listing := {|
    listing_id := "T"; listing_name := "T"; region := "Maule"; province := "";
    commune := ""; locality := ""; property_type := "";
    area_m2 := 40000; price_per_m2 := 0; zoning := "";
    services := ["agua"%string];
    transport := {[ "ferrocarril"%string := PBool true ]};
    topography := ""; notes := ""; url := "" |} in
  let criteria := {|
    preferred_regions := ["Maule"%string];
    preferred_macrozones := [];
    target_zonings := [];
    min_area_m2 := 10000;
    min_area_hectares := 0;
    max_total_price := Some 1;
    max_price_per_m2 := None;
    required_services := ["agua"%string];
    preferred_services := ["agua"%string];
    transport_importance := {[ "ferrocarril"%string := 1 ]};
    desired_property_types := []
  |} in
  match _score_listing ascii_lower listing criteria with
  | Ok (sc, _, _) => Qeq_bool sc 1.2
  | Raise _ => false
  end = true.
Proof. by_computation. Qed.

(** ** The scoring engine on Python's numbers: the statements

    From here on the names are those of the module [Float64]. *)

Import Float64.

(** *** Binary digits and powers of two *)

Lemma pow2_pos (k : Z) : (0 <= k → 0 < 2 ^ k)%Z.
Proof. intros Hk. apply Z.pow_pos_nonneg; lia. Qed.

Lemma digits2_pos_bounds (p : BinNums.positive) :
  (2 ^ (Zpos (digits2_pos p) - 1) <= Zpos p < 2 ^ Zpos (digits2_pos p))%Z.
Proof.
  induction p as [p IH|p IH|]; cbn [digits2_pos].
  - rewrite Pos2Z.inj_succ, (Pos2Z.inj_xI p).
    replace (Z.succ (Zpos (digits2_pos p)) - 1)%Z
      with (Z.succ (Zpos (digits2_pos p) - 1)) by lia.
    rewrite !Z.pow_succ_r by lia. lia.
  - rewrite Pos2Z.inj_succ, (Pos2Z.inj_xO p).
    replace (Z.succ (Zpos (digits2_pos p)) - 1)%Z
      with (Z.succ (Zpos (digits2_pos p) - 1)) by lia.
    rewrite !Z.pow_succ_r by lia. lia.
  - split; [discriminate | reflexivity].
Qed.

Lemma Zdigits2_nonneg (m : Z) : (0 <= Zdigits2 m)%Z.
Proof. destruct m; simpl; lia. Qed.

Lemma Zdigits2_bounds (m : Z) :
  (0 < m → 2 ^ (Zdigits2 m - 1) <= m < 2 ^ Zdigits2 m)%Z.
Proof. destruct m as [|p|p]; try lia. intros _. apply digits2_pos_bounds. Qed.

Lemma Zdigits2_le (m k : Z) :
  (0 <= m → 0 <= k → m < 2 ^ k → Zdigits2 m <= k)%Z.
Proof.
  intros Hm Hk Hlt. destruct (Z.eq_dec m 0%Z) as [->|Hne]; [exact Hk|].
  destruct (Zdigits2_bounds m) as [Hlo _]; [lia|].
  assert (H : (2 ^ (Zdigits2 m - 1) < 2 ^ k)%Z) by lia.
  apply Z.pow_lt_mono_r_iff in H; lia.
Qed.

Lemma Zdigits2_gt (m j : Z) :
  (0 < m → 0 <= j → 2 ^ j <= m → j < Zdigits2 m)%Z.
Proof.
  intros Hm Hj Hle. destruct (Zdigits2_bounds m Hm) as [_ Hhi].
  assert (H : (2 ^ j < 2 ^ Zdigits2 m)%Z) by lia.
  apply Z.pow_lt_mono_r_iff in H; [lia..|]. apply Zdigits2_nonneg.
Qed.

(** *** Rounding to the format *)

Lemma shr_1_m (mrs : shr_record) :
  (0 <= shr_m mrs)%Z → shr_m (shr_1 mrs) = (shr_m mrs / 2)%Z.
Proof.
  rewrite <- Z.div2_div. destruct mrs as [m r s]. simpl.
  destruct m as [|[p|p|]|p]; intros H; try reflexivity; lia.
Qed.

Lemma iter_shr_1 (p : BinNums.positive) (mrs : shr_record) :
  (0 <= shr_m mrs)%Z →
  shr_m (SpecFloat.iter_pos shr_1 p mrs) = (shr_m mrs / 2 ^ Zpos p)%Z.
Proof.
  revert mrs. induction p as [p IH|p IH|]; intros mrs H; cbn [SpecFloat.iter_pos].
  - assert (H1 : (0 <= shr_m (shr_1 mrs))%Z).
    { rewrite shr_1_m by exact H. apply Z.div_pos; lia. }
    assert (H2 : (0 <= shr_m (SpecFloat.iter_pos shr_1 p (shr_1 mrs)))%Z).
    { rewrite IH by exact H1. apply Z.div_pos; [exact H1 | by apply pow2_pos]. }
    rewrite IH by exact H2. rewrite IH by exact H1. rewrite shr_1_m by exact H.
    rewrite !Z.div_div by (try apply pow2_pos; lia).
    f_equal. rewrite (Pos2Z.inj_xI p).
    replace (2 * Zpos p + 1)%Z with (1 + Zpos p + Zpos p)%Z by lia.
    rewrite !Z.pow_add_r by lia. rewrite Z.pow_1_r. lia.
  - assert (H1 : (0 <= shr_m (SpecFloat.iter_pos shr_1 p mrs))%Z).
    { rewrite IH by exact H. apply Z.div_pos; [exact H | by apply pow2_pos]. }
    rewrite IH by exact H1. rewrite IH by exact H.
    rewrite Z.div_div by (try apply pow2_pos; lia).
    f_equal. rewrite (Pos2Z.inj_xO p).
    replace (2 * Zpos p)%Z with (Zpos p + Zpos p)%Z by lia.
    by rewrite Z.pow_add_r by lia.
  - rewrite shr_1_m by exact H. by rewrite Z.pow_1_r.
Qed.

Lemma shr_m_of_loc (m : Z) (l : SpecFloat.location) : shr_m (shr_record_of_loc m l) = m.
Proof. by destruct l as [|[]]. Qed.

(** The shift of [shr_fexp]: the exponent becomes the larger of [e] and the
    exponent of the format, the significand loses the bits shifted out. *)
Lemma shr_fexp_spec (m e : Z) (l : SpecFloat.location) :
  (0 <= m)%Z →
  ∃ mrs, shr_fexp prec emax m e l
         = (mrs, Z.max e (fexp prec emax (Zdigits2 m + e)))
         ∧ shr_m mrs
           = (m / 2 ^ (Z.max e (fexp prec emax (Zdigits2 m + e)) - e))%Z.
Proof.
  intros Hm. unfold shr_fexp, shr.
  pose proof (shr_m_of_loc m l) as Hrec.
  destruct (fexp prec emax (Zdigits2 m + e) - e)%Z as [|p|p] eqn:Hn.
  - eexists. split; [f_equal; lia|].
    replace (Z.max e (fexp prec emax (Zdigits2 m + e)) - e)%Z with 0%Z by lia.
    by rewrite Z.pow_0_r, Z.div_1_r.
  - eexists. split; [f_equal; lia|].
    replace (Z.max e (fexp prec emax (Zdigits2 m + e)) - e)%Z with (Zpos p)
      by lia.
    rewrite iter_shr_1 by (rewrite Hrec; exact Hm). by rewrite Hrec.
  - eexists. split; [f_equal; lia|].
    replace (Z.max e (fexp prec emax (Zdigits2 m + e)) - e)%Z with 0%Z by lia.
    by rewrite Z.pow_0_r, Z.div_1_r.
Qed.

Lemma round_nearest_even_bounds (m : Z) (l : SpecFloat.location) :
  (m <= round_nearest_even m l <= m + 1)%Z.
Proof. destruct l as [|[]]; simpl; try lia. destruct (Z.even m); lia. Qed.

Ltac unfold_fexp := unfold fexp, emin, prec, emax in *.

(** A significand below [2 ^ k] with [k + e] below the largest exponent
    rounds to a finite float. *)
Lemma binary_round_aux_finite (s : bool) (m e : Z) (l : SpecFloat.location) (k : Z) :
  (0 <= m → 0 <= k → m < 2 ^ k → k + e <= emax - 1 → e <= emax - prec →
   is_finite (binary_round_aux prec emax s m e l) = true)%Z.
Proof.
  intros Hm Hk Hlt Hke He. unfold binary_round_aux.
  destruct (shr_fexp_spec m e l Hm) as (mrs' & -> & Hm').
  pose proof (Zdigits2_le m k Hm Hk Hlt) as Hdm.
  pose proof (Zdigits2_nonneg m) as Hdm0.
  set (e' := Z.max e (fexp prec emax (Zdigits2 m + e))) in *.
  assert (He' : (e <= e' <= emax - prec)%Z) by (subst e'; unfold_fexp; lia).
  set (m1 := round_nearest_even (shr_m mrs') (loc_of_shr_record mrs')).
  pose proof (round_nearest_even_bounds (shr_m mrs') (loc_of_shr_record mrs'))
    as Hm1. fold m1 in Hm1.
  assert (Hm'0 : (0 <= shr_m mrs')%Z).
  { rewrite Hm'. apply Z.div_pos; [exact Hm | apply pow2_pos; lia]. }
  assert (Hbound : (m1 <= 2 ^ Z.max 0 (k - (e' - e)))%Z).
  { destruct (Z_le_gt_dec (e' - e)%Z k) as [Hn|Hn].
    - rewrite Z.max_r by lia.
      assert ((shr_m mrs' < 2 ^ (k - (e' - e)))%Z); [|lia].
      rewrite Hm'. apply Z.div_lt_upper_bound; [apply pow2_pos; lia|].
      rewrite <- Z.pow_add_r by lia.
      by replace (e' - e + (k - (e' - e)))%Z with k by lia.
    - rewrite Z.max_l by lia. rewrite Z.pow_0_r.
      assert (shr_m mrs' = 0%Z); [|lia].
      rewrite Hm'. apply Z.div_small. split; [exact Hm|].
      eapply Z.lt_le_trans; [exact Hlt|]. apply Z.pow_le_mono_r; lia. }
  destruct (shr_fexp_spec m1 e' loc_Exact) as (mrs'' & -> & Hm''); [lia|].
  assert (Hd1 : (Zdigits2 m1 <= Z.max 0 (k - (e' - e)) + 1)%Z).
  { apply Zdigits2_le; [lia..|].
    rewrite Z.pow_add_r, Z.pow_1_r by lia.
    pose proof (pow2_pos (Z.max 0 (k - (e' - e)))). lia. }
  set (e'' := Z.max e' (fexp prec emax (Zdigits2 m1 + e'))) in *.
  assert (He'' : (e'' <= emax - prec)%Z) by (subst e''; unfold_fexp; lia).
  assert (Hm''0 : (0 <= shr_m mrs'')%Z).
  { rewrite Hm''. apply Z.div_pos; [lia|].
    apply pow2_pos. subst e''. lia. }
  destruct (shr_m mrs'') as [|q|q]; [reflexivity| |lia].
  by rewrite (proj2 (Z.leb_le _ _) He'').
Qed.

(** A significand that is not zero, above the range of the subnormal
    numbers, does not round to zero. *)
Lemma binary_round_aux_nonzero (s : bool) (m e : Z) (l : SpecFloat.location) :
  (0 < m → emin prec emax <= Zdigits2 m + e - prec →
   is_zero (binary_round_aux prec emax s m e l) = false)%Z.
Proof.
  intros Hm Hmin. unfold binary_round_aux.
  destruct (shr_fexp_spec m e l) as (mrs' & -> & Hm'); [lia|].
  destruct (Zdigits2_bounds m Hm) as [Hlo Hhi].
  assert (Hdm : (1 <= Zdigits2 m)%Z) by (destruct m; simpl; lia).
  set (e' := Z.max e (fexp prec emax (Zdigits2 m + e))) in *.
  assert (He' : (0 <= e' - e <= Zdigits2 m - 1 ∧ emin prec emax <= e')%Z)
    by (subst e'; unfold_fexp; lia).
  set (m1 := round_nearest_even (shr_m mrs') (loc_of_shr_record mrs')).
  pose proof (round_nearest_even_bounds (shr_m mrs') (loc_of_shr_record mrs'))
    as Hm1. fold m1 in Hm1.
  assert (Hm'1 : (1 <= shr_m mrs')%Z).
  { rewrite Hm'. apply Z.div_le_lower_bound; [apply pow2_pos; lia|].
    rewrite Z.mul_1_r. eapply Z.le_trans; [|exact Hlo].
    apply Z.pow_le_mono_r; lia. }
  destruct (shr_fexp_spec m1 e' loc_Exact) as (mrs'' & -> & Hm''); [lia|].
  destruct (Zdigits2_bounds m1) as [Hlo1 Hhi1]; [lia|].
  assert (Hd1 : (1 <= Zdigits2 m1)%Z) by (destruct m1; simpl; lia).
  set (e'' := Z.max e' (fexp prec emax (Zdigits2 m1 + e'))) in *.
  assert (He'' : (0 <= e'' - e' <= Zdigits2 m1 - 1)%Z)
    by (subst e''; unfold_fexp; lia).
  assert (Hm''1 : (1 <= shr_m mrs'')%Z).
  { rewrite Hm''. apply Z.div_le_lower_bound; [apply pow2_pos; lia|].
    rewrite Z.mul_1_r. eapply Z.le_trans; [|exact Hlo1].
    apply Z.pow_le_mono_r; lia. }
  destruct (shr_m mrs'') as [|q|q]; [lia| |reflexivity].
  by destruct (Z.leb _ _).
Qed.

(** *** The nearest float of a quotient *)

(** The quotient that [SFdiv] rounds, for two integers. *)
Lemma SFdiv_exact (sx sy : bool) (a b : BinNums.positive) :
  ∃ e' l,
    (e' <= 0)%Z
    ∧ SFdiv prec emax (S754_finite sx a 0) (S754_finite sy b 0)
      = binary_round_aux prec emax (xorb sx sy)
          (Zpos a * 2 ^ (- e') / Zpos b) e' l.
Proof.
  unfold SFdiv, SFdiv_core_binary.
  rewrite !Z.add_0_r, Z.sub_0_r.
  set (e' := Z.min (fexp prec emax (Zdigits2 (Zpos a) - Zdigits2 (Zpos b))) 0).
  assert (He' : (e' <= 0)%Z) by (subst e'; lia).
  set (m' := match (0 - e')%Z with
             | Zpos _ => Z.shiftl (Zpos a) (0 - e')
             | Z0 => Zpos a
             | Zneg _ => 0%Z
             end).
  assert (Hm' : m' = (Zpos a * 2 ^ (- e'))%Z).
  { subst m'. destruct (0 - e')%Z as [|p|p] eqn:Hs.
    - replace (- e')%Z with 0%Z by lia. by rewrite Z.pow_0_r, Z.mul_1_r.
    - rewrite Z.shiftl_mul_pow2 by lia. f_equal. f_equal. lia.
    - lia. }
  destruct (Z.div_eucl m' (Zpos b)) as [q r] eqn:Hqr.
  assert (Hq : q = (m' / Zpos b)%Z) by (unfold Z.div; by rewrite Hqr).
  exists e', (new_location (Zpos b) r). split; [exact He'|].
  by rewrite Hq, Hm'.
Qed.

Lemma is_finite_not_infinite (x : spec_float) :
  is_finite x = true → is_infinite x = false.
Proof. by destruct x. Qed.

(** A quotient below [2 ^ 1022] in absolute value is in the range of the
    floats. *)
Lemma nearest_finite (n d : Z) :
  (d ≠ 0 → Z.abs n < Z.abs d * 2 ^ 1022 → is_finite (nearest n d) = true)%Z.
Proof.
  intros Hd Hlt. unfold nearest.
  destruct n as [|a|a]; [by destruct d| |];
    (destruct d as [|b|b]; [done| |]); cbn [exact];
    match goal with
    | |- context [SFdiv _ _ (S754_finite ?sx ?a _) (S754_finite ?sy ?b _)] =>
        destruct (SFdiv_exact sx sy a b) as (e' & l & He' & ->)
    end;
    (apply binary_round_aux_finite with (k := (1022 - e')%Z);
     [apply Z.div_pos; [|lia]; apply Z.mul_nonneg_nonneg; [lia|];
      apply Z.lt_le_incl, pow2_pos; lia
     |lia
     |apply Z.div_lt_upper_bound; [lia|];
      replace (1022 - e')%Z with (1022 + - e')%Z by lia;
      rewrite Z.pow_add_r by lia; simpl Z.abs in Hlt;
      pose proof (pow2_pos (- e')); nia
     |unfold emax; lia
     |unfold emax, prec; lia]).
Qed.

(** The float of an integer that is not zero is not zero. *)
Lemma nearest_int_nonzero (n : Z) : n ≠ 0%Z → is_zero (nearest n 1) = false.
Proof.
  intros Hn. unfold nearest.
  destruct n as [|a|a]; [done| |]; cbn [exact];
    match goal with
    | |- context [SFdiv _ _ (S754_finite ?sx ?a _) (S754_finite ?sy ?b _)] =>
        destruct (SFdiv_exact sx sy a b) as (e' & l & He' & ->)
    end;
    rewrite Z.div_1_r;
    (apply binary_round_aux_nonzero;
     [pose proof (pow2_pos (- e')); nia|];
     destruct (digits2_pos_bounds a) as [Hlo _];
     assert (Hd : (Zpos (digits2_pos a) - 1 + - e'
                   < Zdigits2 (Zpos a * 2 ^ (- e')))%Z);
     [apply Zdigits2_gt;
      [pose proof (pow2_pos (- e')); nia | lia |];
      rewrite Z.pow_add_r by lia;
      apply Z.mul_le_mono_nonneg_r; [apply Z.lt_le_incl, pow2_pos; lia|];
      exact Hlo
     |unfold emin, emax, prec; lia]).
Qed.

(** *** Computations that raise no [ZeroDivisionError] *)

Lemma guarded_Ok {A : Type} (ok : Prop) (a : A) : guarded ok (Ok a).
Proof. split; [discriminate | eauto]. Qed.

Lemma guarded_bind {A B : Type} (ok : Prop) (m : result A) (f : A → result B) :
  guarded ok m → (∀ a, m = Ok a → guarded ok (f a)) → guarded ok (m ≫= f).
Proof.
  intros [Hz Hok] Hf. destruct m as [a|e]; [by apply Hf|].
  split.
  - intros H. injection H as ->. by apply Hz.
  - intros H. destruct (Hok H) as [a Ha]. discriminate Ha.
Qed.

Lemma guarded_weaken {A : Type} (ok ok' : Prop) (m : result A) :
  (ok' → ok) → guarded ok m → guarded ok' m.
Proof. intros Himp [Hz Hok]. split; [exact Hz | eauto]. Qed.

Lemma guarded_for_each {A S : Type} (ok : Prop) (body : S → A → result S)
    (l : list A) (s : S) :
  (∀ s x, x ∈ l → guarded ok (body s x)) → guarded ok (for_each body l s).
Proof.
  revert s. induction l as [|x l IH]; intros s Hbody; simpl.
  - apply guarded_Ok.
  - apply guarded_bind; [apply Hbody; left|].
    intros s' _. apply IH. intros s'' y Hy. apply Hbody. by right.
Qed.

Lemma bounded_fits (a : number) : bounded a → fits a.
Proof.
  destruct a as [n|x]; [|done]. simpl. intros H.
  eapply Z.lt_trans; [exact H|]. reflexivity.
Qed.

Lemma float_of_int_guarded (n : Z) :
  guarded (Z.abs n < 2 ^ 1022)%Z (float_of_int n).
Proof.
  unfold float_of_int. cbv zeta. split.
  - by destruct (is_infinite (nearest n 1)).
  - intros H. rewrite is_finite_not_infinite; [eauto|].
    apply nearest_finite; [done|]. simpl Z.abs. lia.
Qed.

Lemma float_of_int_nonzero (n : Z) (x : spec_float) :
  n ≠ 0%Z → float_of_int n = Ok x → is_zero x = false.
Proof.
  intros Hn. unfold float_of_int. cbv zeta.
  destruct (is_infinite (nearest n 1)); [discriminate|].
  intros [= <-]. by apply nearest_int_nonzero.
Qed.

Lemma to_float_guarded (a : number) : guarded (fits a) (to_float a).
Proof.
  destruct a as [n|x]; [apply float_of_int_guarded | apply guarded_Ok].
Qed.

Lemma to_float_nonzero (a : number) (x : spec_float) :
  truthy_num a = true → to_float a = Ok x → is_zero x = false.
Proof.
  destruct a as [n|y]; simpl.
  - intros Hn. apply float_of_int_nonzero.
    intros ->. discriminate Hn.
  - intros Hy [= <-]. by destruct (is_zero y).
Qed.

Lemma int_truediv_guarded (n d : Z) :
  d ≠ 0%Z → guarded (Z.abs n < Z.abs d * 2 ^ 1022)%Z (int_truediv n d).
Proof.
  intros Hd. unfold int_truediv. cbv zeta.
  rewrite (proj2 (Z.eqb_neq d 0) Hd). split.
  - by destruct (is_infinite (nearest n d)).
  - intros H. rewrite is_finite_not_infinite; [eauto|].
    by apply nearest_finite.
Qed.

(** A division by a number that is not zero raises no
    [ZeroDivisionError], and it returns when the [int]s among its operands
    fit in a float. *)
Lemma truediv_guarded (a b : number) :
  truthy_num b = true → guarded (fits a ∧ fits b) (truediv a b).
Proof.
  intros Hb.
  assert (Hmixed :
    guarded (fits a ∧ fits b)
      (x ← to_float a; y ← to_float b;
       if is_zero y then Raise ZeroDivisionError else Ok (fdiv x y))).
  { apply guarded_bind.
    { eapply guarded_weaken; [|apply to_float_guarded]. tauto. }
    intros x _. apply guarded_bind.
    { eapply guarded_weaken; [|apply to_float_guarded]. tauto. }
    intros y Hy. rewrite (to_float_nonzero b y Hb Hy). apply guarded_Ok. }
  destruct a as [m|x], b as [n|y]; try exact Hmixed.
  simpl in Hb. apply negb_true_iff, Z.eqb_neq in Hb.
  eapply guarded_weaken; [|by apply int_truediv_guarded].
  simpl. intros [Hm _]. pose proof (pow2_pos 1022). nia.
Qed.

Lemma mul_guarded (a b : number) : guarded (fits a ∧ fits b) (mul a b).
Proof.
  assert (Hmixed :
    guarded (fits a ∧ fits b)
      (x ← to_float a; y ← to_float b; Ok (PyFloat (fmul x y)))).
  { apply guarded_bind.
    { eapply guarded_weaken; [|apply to_float_guarded]. tauto. }
    intros x _. apply guarded_bind.
    { eapply guarded_weaken; [|apply to_float_guarded]. tauto. }
    intros y _. apply guarded_Ok. }
  destruct a as [m|x], b as [n|y]; try exact Hmixed. apply guarded_Ok.
Qed.

Lemma pow2_500_1022 : (2 ^ 500 * 2 ^ 500 < 2 ^ 1022)%Z.
Proof. reflexivity. Qed.

Lemma mul_fits (a b c : number) :
  bounded a → bounded b → mul a b = Ok c → fits c.
Proof.
  destruct a as [m|x], b as [n|y]; simpl; intros Ha Hb H.
  - injection H as <-. simpl. rewrite Z.abs_mul.
    pose proof pow2_500_1022. pose proof (pow2_pos 500).
    pose proof (Z.abs_nonneg m). pose proof (Z.abs_nonneg n). nia.
  - destruct (float_of_int m); [|discriminate]. by injection H as <-.
  - destruct (float_of_int n); [|discriminate]. by injection H as <-.
  - by injection H as <-.
Qed.

(** *** Comparisons *)

Lemma pymax_fits (a b : number) : fits a → fits b → fits (pymax a b).
Proof. unfold pymax. by destruct (gt b a). Qed.

(** [max(threshold, 1)] is never zero. *)
Lemma pymax_one_truthy (threshold : number) :
  truthy_num (pymax threshold (PyInt 1)) = true.
Proof.
  unfold pymax, gt. destruct threshold as [n|x].
  - change (compare (PyInt 1) (PyInt n)) with (Some (1 ?= n)%Z).
    destruct (1 ?= n)%Z eqn:E; [| |reflexivity].
    + apply Z.compare_eq in E. by subst n.
    + rewrite Z.compare_lt_iff in E.
      apply negb_true_iff, Z.eqb_neq. lia.
  - destruct x as [s|s| |s m e]; try reflexivity.
    + by destruct s.
    + by destruct (compare (PyInt 1) (PyFloat (S754_finite s m e))) as [[]|].
Qed.

(** *** The area threshold and the total price *)

Lemma float_of_int_10000 : float_of_int 10000 = Ok (decimal 10000 0).
Proof. reflexivity. Qed.

Lemma _area_threshold_m2_returns (criteria : SearchCriteria) :
  ∃ threshold,
    _area_threshold_m2 criteria = Ok threshold
    ∧ (bounded (min_area_m2 criteria) →
       bounded (min_area_hectares criteria) → fits threshold).
Proof.
  unfold _area_threshold_m2. cbv zeta.
  assert (Hmin : bounded (min_area_m2 criteria) →
                 fits (pymax (min_area_m2 criteria) (PyFloat (decimal 0 0)))).
  { intros H. apply pymax_fits; [by apply bounded_fits | done]. }
  destruct (truthy_num (min_area_hectares criteria)); [|eauto].
  destruct (min_area_hectares criteria) as [n|x].
  - change (mul (PyInt n) (PyInt 10000)) with (Ok (PyInt (n * 10000))).
    eexists. split; [reflexivity|]. intros Hm Hn.
    apply pymax_fits; [by apply Hmin|]. unfold fits, bounded in *.
    rewrite Z.abs_mul. change (Z.abs 10000) with 10000%Z.
    assert (H : (2 ^ 500 * 10000 < 2 ^ 1022)%Z) by reflexivity. lia.
  - change (mul (PyFloat x) (PyInt 10000))
      with (y ← float_of_int 10000; Ok (PyFloat (fmul x y))).
    rewrite float_of_int_10000. eexists. split; [reflexivity|].
    intros Hm _. apply pymax_fits; [by apply Hmin | done].
Qed.

Lemma total_price_guarded (self : Listing) :
  guarded (bounded (area_m2 self) ∧ bounded (price_per_m2 self))
          (total_price self).
Proof.
  eapply guarded_weaken; [|apply mul_guarded].
  intros [Ha Hp]. split; by apply bounded_fits.
Qed.

Lemma total_price_fits (self : Listing) (total : number) :
  bounded (area_m2 self) → bounded (price_per_m2 self) →
  total_price self = Ok total → fits total.
Proof. apply mul_fits. Qed.

Lemma float_bind_Ok {A B : Type} (a : A) (f : A → result B) : Ok a ≫= f = f a.
Proof. reflexivity. Qed.

(** [sum] of the weights: the [int]s are added exactly until the first
    float, so the partial sums must fit in a float. *)
Lemma sum_loop_guarded (ws : list number) (acc : number) :
  for_each add ws acc ≠ Raise ZeroDivisionError
  ∧ (Forall bounded ws →
     match acc with
     | PyInt z => (Z.abs z + Z.of_nat (length ws) * 2 ^ 500 < 2 ^ 1022)%Z
     | PyFloat _ => True
     end →
     ∃ total, for_each add ws acc = Ok total ∧ fits total).
Proof.
  revert acc. induction ws as [|w ws IH]; intros acc.
  { simpl. split; [discriminate|]. intros _ H. exists acc. split; [done|].
    destruct acc; simpl in *; lia. }
  cbn [for_each length]. destruct acc as [z|x], w as [n|y].
  - change (add (PyInt z) (PyInt n)) with (Ok (PyInt (z + n))).
    rewrite float_bind_Ok. destruct (IH (PyInt (z + n))) as [IHz IHok].
    split; [exact IHz|]. intros Hall Hacc. apply IHok.
    + by inversion Hall.
    + inversion Hall as [|? ? Hn _]; subst. simpl in Hn. lia.
  - change (add (PyInt z) (PyFloat y))
      with (x ← float_of_int z; Ok (PyFloat (fadd x y))).
    destruct (float_of_int_guarded z) as [Hz Hok].
    destruct (float_of_int z) as [x|e].
    + rewrite !float_bind_Ok. destruct (IH (PyFloat (fadd x y))) as [IHz IHok].
      split; [exact IHz|]. intros Hall _. apply IHok; [by inversion Hall | done].
    + split; [intros H; injection H as ->; by apply Hz|].
      intros _ Hacc. destruct Hok as [x Hx]; [lia | discriminate Hx].
  - change (add (PyFloat x) (PyInt n))
      with (y ← float_of_int n; Ok (PyFloat (fadd x y))).
    destruct (float_of_int_guarded n) as [Hz Hok].
    destruct (float_of_int n) as [y|e].
    + rewrite !float_bind_Ok. destruct (IH (PyFloat (fadd x y))) as [IHz IHok].
      split; [exact IHz|]. intros Hall _. apply IHok; [by inversion Hall | done].
    + split; [intros H; injection H as ->; by apply Hz|].
      intros Hall _. inversion Hall as [|? ? Hn _]; subst.
      destruct Hok as [y Hy]; [|discriminate Hy].
      eapply Z.lt_trans; [exact Hn | reflexivity].
  - change (add (PyFloat x) (PyFloat y)) with (Ok (PyFloat (fadd x y))).
    rewrite float_bind_Ok. destruct (IH (PyFloat (fadd x y))) as [IHz IHok].
    split; [exact IHz|]. intros Hall _. apply IHok; [by inversion Hall | done].
Qed.

(** The share of the wanted services: the divisor is the size of a set
    that is not empty, and the quotient is at most 1. *)
Lemma share_guarded (ok : Prop) (wanted available : gset string)
    (otherwise : spec_float) :
  guarded ok (if truthy_seq (elements wanted)
              then int_truediv (len (wanted ∩ available)) (len wanted)
              else Ok otherwise).
Proof.
  destruct (elements wanted) as [|x xs] eqn:E; [apply guarded_Ok|].
  cbn [truthy_seq].
  assert (Hsize : (0 < len wanted)%Z).
  { unfold len. change (size wanted) with (length (elements wanted)).
    rewrite E. simpl. lia. }
  assert (Hle : (len (wanted ∩ available) <= len wanted)%Z).
  { unfold len. apply Nat2Z.inj_le, subseteq_size, intersection_subseteq_l. }
  eapply guarded_weaken; [|apply int_truediv_guarded; lia].
  intros _. unfold len in *.
  assert (H : (1 < 2 ^ 1022)%Z) by reflexivity. nia.
Qed.

Section Float64_facts.

Variable lower : string → string.
Variable round2 : spec_float → spec_float.
Variable sort_by_score : list SearchResult → list SearchResult.

Lemma _mode_availability_guarded (mode : string) (data : gmap string value) :
  guarded (bounded_distances data) (_mode_availability lower mode data).
Proof.
  unfold _mode_availability. cbv zeta.
  destruct (String.eqb (lower mode) "carretera").
  { destruct (as_number (data !! "distancia_km"%string)) as [d|] eqn:Hd;
      [|apply guarded_Ok].
    apply guarded_bind; [|intros; apply guarded_Ok].
    eapply guarded_weaken; [|by apply truediv_guarded].
    intros H. split; [|done].
    apply bounded_fits, (H "distancia_km"%string); [|exact Hd].
    apply list_elem_of_here. }
  destruct (String.eqb (lower mode) "ferrocarril").
  { destruct (data !! "ferrocarril"%string) as [[]|]; apply guarded_Ok. }
  destruct (String.eqb (lower mode) "aeropuerto"); [|apply guarded_Ok].
  destruct (as_number (data !! "aeropuerto_km"%string)) as [d|] eqn:Hd;
    [|apply guarded_Ok].
  apply guarded_bind; [|intros; apply guarded_Ok].
  eapply guarded_weaken; [|by apply truediv_guarded].
  intros H. split; [|done].
  apply bounded_fits, (H "aeropuerto_km"%string); [|exact Hd].
  apply list_elem_of_further, list_elem_of_here.
Qed.

Lemma _transport_score_guarded (listing : Listing)
    (importance : list (string * number)) :
  guarded (Forall (λ kv : string * number, bounded kv.2) importance
           ∧ (Z.of_nat (length importance) < 2 ^ 500)%Z
           ∧ bounded_distances (transport listing))
          (_transport_score lower listing importance).
Proof.
  unfold _transport_score.
  destruct (negb (truthy_seq importance)); [apply guarded_Ok|]. cbv zeta.
  destruct (sum_loop_guarded importance.*2 (PyInt 0)) as [Hz Hok].
  assert (Hsum : Forall (λ kv : string * number, bounded kv.2) importance →
                 (Z.of_nat (length importance) < 2 ^ 500)%Z →
                 ∃ total, sum importance.*2 = Ok total ∧ fits total).
  { intros Hb Hlen. apply Hok; [by apply Forall_fmap|].
    rewrite length_fmap. simpl.
    assert (H : (2 ^ 500 * 2 ^ 500 < 2 ^ 1022)%Z) by reflexivity. nia. }
  apply guarded_bind.
  { split; [exact Hz|]. intros (Hb & Hlen & _).
    destruct (Hsum Hb Hlen) as (total & Ht & _). eauto. }
  intros s Hs. apply guarded_bind.
  { eapply guarded_weaken; [|apply to_float_guarded].
    intros (Hb & Hlen & _). destruct (Hsum Hb Hlen) as (total & Ht & Hfits).
    rewrite Hs in Ht. by injection Ht as ->. }
  intros total _.
  set (total' := if negb (is_zero total) then total else decimal 1 0).
  assert (Ht : truthy_num (PyFloat total') = true).
  { subst total'. simpl. by destruct (is_zero total) eqn:E; simpl; rewrite ?E. }
  apply guarded_bind.
  { apply guarded_for_each. intros normalized [key value] Hin. cbv beta iota.
    apply guarded_bind; [|intros; apply guarded_Ok].
    eapply guarded_weaken; [|by apply truediv_guarded].
    intros (Hb & _). split; [|done]. apply bounded_fits.
    rewrite Forall_forall in Hb. by apply (Hb (key, value)). }
  intros normalized _. apply guarded_for_each.
  intros score [mode weight] _. cbv beta iota.
  apply guarded_bind; [|intros; apply guarded_Ok].
  eapply guarded_weaken; [|apply _mode_availability_guarded]. tauto.
Qed.

Lemma _score_listing_guarded (listing : Listing) (criteria : SearchCriteria) :
  guarded (in_range listing criteria)
          (_score_listing lower round2 listing criteria).
Proof.
  unfold _score_listing.
  match goal with
  | |- context [let '(_, _) := ?x in _] => destruct x as [value ubicacion]
  end.
  cbv zeta.
  apply guarded_bind; [apply share_guarded|]. intros coverage _.
  apply guarded_bind; [apply share_guarded|]. intros preferred_score _.
  apply guarded_bind.
  { destruct (max_total_price criteria) as [cap|] eqn:Hcap; [|apply guarded_Ok].
    destruct (truthy_num cap) eqn:Ht; [|apply guarded_Ok].
    apply guarded_bind.
    { eapply guarded_weaken; [|apply total_price_guarded].
      unfold in_range. tauto. }
    intros total Htotal. apply guarded_bind; [|intros; apply guarded_Ok].
    eapply guarded_weaken; [|by apply truediv_guarded].
    intros (Ha & Hp & _ & _ & Hct & _). split.
    - by apply (total_price_fits listing).
    - by apply bounded_fits, Hct. }
  intros price_component _. apply guarded_bind.
  { destruct (max_price_per_m2 criteria) as [cap|] eqn:Hcap; [|apply guarded_Ok].
    destruct (truthy_num cap) eqn:Ht; [|apply guarded_Ok].
    apply guarded_bind.
    { eapply guarded_weaken; [|by apply truediv_guarded].
      intros (_ & Hp & _ & _ & _ & Hcm & _).
      split; [by apply bounded_fits | by apply bounded_fits, Hcm]. }
    intros ratio_m2 _.
    eapply guarded_weaken; [|by apply truediv_guarded].
    intros _. split; [done | reflexivity]. }
  intros price_component' _. apply guarded_bind.
  { eapply guarded_weaken; [|apply total_price_guarded].
    unfold in_range. tauto. }
  intros total _. apply guarded_bind.
  { eapply guarded_weaken; [|apply _transport_score_guarded].
    unfold in_range. tauto. }
  intros transport_score _.
  destruct (_area_threshold_m2_returns criteria) as (threshold & -> & Hthr).
  rewrite float_bind_Ok. apply guarded_bind.
  { eapply guarded_weaken; [|apply truediv_guarded, pymax_one_truthy].
    intros (Ha & _ & Hm & Hh & _). split; [by apply bounded_fits|].
    apply pymax_fits; [by apply Hthr | reflexivity]. }
  intros area_ratio _. apply guarded_bind.
  { eapply guarded_weaken; [|by apply truediv_guarded].
    intros _. split; [done | reflexivity]. }
  intros quarter _. apply guarded_bind; [|intros; apply guarded_Ok].
  eapply guarded_weaken; [|by apply truediv_guarded].
  intros (Ha & _). split; [by apply bounded_fits | reflexivity].
Qed.

Lemma matches_guarded (criteria : SearchCriteria) (listing : Listing) :
  guarded (in_range listing criteria) (matches lower criteria listing).
Proof.
  unfold matches.
  repeat match goal with
         | |- guarded _ (if rejects ?l ?v ?p then _ else _) =>
             destruct (rejects l v p); [apply guarded_Ok|]
         end.
  destruct (_area_threshold_m2_returns criteria) as (threshold & -> & _).
  rewrite float_bind_Ok.
  destruct (lt (area_m2 listing) threshold); [apply guarded_Ok|].
  apply guarded_bind.
  { destruct (max_total_price criteria) as [cap|]; [|apply guarded_Ok].
    apply guarded_bind; [|intros; apply guarded_Ok].
    eapply guarded_weaken; [|apply total_price_guarded].
    unfold in_range. tauto. }
  intros [] _; [apply guarded_Ok|].
  match goal with
  | |- guarded _ (if ?c then _ else _) => destruct c; apply guarded_Ok
  end.
Qed.

Lemma search_guarded (_listings : list Listing) (criteria : SearchCriteria)
    (top_n : Z) :
  guarded (∀ l, l ∈ _listings → in_range l criteria)
          (search lower round2 sort_by_score _listings criteria top_n).
Proof.
  unfold search. apply guarded_bind; [|intros; apply guarded_Ok].
  assert (Hloop : ∀ ls results,
    (∀ l, l ∈ ls → l ∈ _listings) →
    guarded (∀ l, l ∈ _listings → in_range l criteria)
      (for_each
         (λ (results : list SearchResult) (listing : Listing),
            passes ← matches lower criteria listing;
            if negb passes then Ok results else
            '(score, breakdown, highlights)
              ← _score_listing lower round2 listing criteria;
            Ok (results
                ++ [Build_SearchResult listing score breakdown highlights]))
         ls results)).
  { intros ls results Hsub. apply guarded_for_each.
    intros s listing Hin. cbv beta.
    apply guarded_bind.
    { eapply guarded_weaken; [|apply matches_guarded]. intros H. by apply H, Hsub. }
    intros passes _. destruct (negb passes); [apply guarded_Ok|].
    apply guarded_bind; [|intros [[? ?] ?] _; apply guarded_Ok].
    eapply guarded_weaken; [|apply _score_listing_guarded].
    intros H. by apply H, Hsub. }
  by apply Hloop.
Qed.

(** C9, as amended: the scoring engine raises no [ZeroDivisionError], on
    any listing, criteria, weights, mode, transport mapping or repository:
    every division is guarded.  It returns when the [int]s of its inputs
    are bounded (floats are not restricted: infinities and NaN are
    allowed), and then [search] returns a list. *)
Theorem scoring_raises_no_zero_division (listing : Listing)
    (criteria : SearchCriteria) :
  (_score_listing lower round2 listing criteria ≠ Raise ZeroDivisionError
   ∧ (∀ importance,
        _transport_score lower listing importance ≠ Raise ZeroDivisionError)
   ∧ (∀ mode data,
        _mode_availability lower mode data ≠ Raise ZeroDivisionError)
   ∧ (∀ _listings top_n,
        search lower round2 sort_by_score _listings criteria top_n
        ≠ Raise ZeroDivisionError))
  ∧ (in_range listing criteria →
     (∃ r, _score_listing lower round2 listing criteria = Ok r)
     ∧ (∃ t, _transport_score lower listing (transport_importance criteria)
             = Ok t)
     ∧ (∀ mode, ∃ a, _mode_availability lower mode (transport listing) = Ok a))
  ∧ (∀ _listings top_n,
       (∀ l, l ∈ _listings → in_range l criteria) →
       ∃ rs, search lower round2 sort_by_score _listings criteria top_n = Ok rs).
Proof.
  split; [|split].
  - split; [apply _score_listing_guarded|].
    split; [intros importance; apply _transport_score_guarded|].
    split; [intros mode data; apply _mode_availability_guarded|].
    intros ls n. apply search_guarded.
  - intros Hr. split; [by apply _score_listing_guarded|].
    split.
    + apply _transport_score_guarded. unfold in_range in Hr. tauto.
    + intros mode. apply _mode_availability_guarded.
      unfold in_range in Hr. tauto.
  - intros ls n Hr. by apply search_guarded.
Qed.

(** *** The sum of the breakdown *)

Lemma fsub_diag (x : spec_float) :
  fsub x x = if is_finite x then S754_zero false else S754_nan.
Proof.
  destruct x as [[]|[]| |s m e]; try reflexivity.
  unfold fsub, SFsub. cbv zeta. by rewrite Z.sub_diag.
Qed.

(** The breakdown has its five entries in the order of insertion, and the
    score is their sum from left to right. *)
Lemma _score_listing_shape (listing : Listing) (criteria : SearchCriteria)
    (sc : spec_float) (bd : list (string * spec_float)) (hl : Highlights) :
  _score_listing lower round2 listing criteria = Ok (sc, bd, hl) →
  ∃ ubicacion servicios precio conectividad superficie,
    bd = [("ubicación"%string, ubicacion); ("servicios"%string, servicios);
          ("precio"%string, precio); ("conectividad"%string, conectividad);
          ("superficie"%string, superficie)]
    ∧ sc = fadd (fadd (fadd (fadd (fadd (decimal 0 0) ubicacion) servicios)
                            precio) conectividad) superficie.
Proof.
  unfold _score_listing.
  match goal with
  | |- context [let '(_, _) := ?x in _] => destruct x as [value ubicacion]
  end.
  cbv zeta. unfold mbind, result_bind. intros H.
  repeat match type of H with
         | match ?m with Ok _ => _ | Raise _ => _ end = _ =>
             destruct m; [|discriminate H]
         end.
  injection H as <- <- _. eexists _, _, _, _, _. split; reflexivity.
Qed.

(** C1, as amended: when the scoring engine returns, the breakdown has
    the five entries in the order of insertion; their sum, added from left
    to right as [sum] does, is the very float that is the score; and the
    test [abs(sum(breakdown.values()) - score) <= 1e-9] holds exactly when
    the score is finite: for an infinite or NaN score it fails. *)
Theorem breakdown_sum_is_score (listing : Listing) (criteria : SearchCriteria)
    (sc : spec_float) (bd : list (string * spec_float)) (hl : Highlights) :
  _score_listing lower round2 listing criteria = Ok (sc, bd, hl) →
  bd.*1 = ["ubicación"; "servicios"; "precio"; "conectividad";
           "superficie"]%string
  ∧ sum (PyFloat <$> bd.*2) = Ok (PyFloat sc)
  ∧ sums_to_score bd sc = Ok (is_finite sc).
Proof.
  intros H.
  destruct (_score_listing_shape listing criteria sc bd hl H)
    as (u & s & p & c & a & -> & ->).
  split; [reflexivity|].
  assert (Hsum : sum (PyFloat <$> [("ubicación"%string, u);
                   ("servicios"%string, s); ("precio"%string, p);
                   ("conectividad"%string, c); ("superficie"%string, a)].*2)
                 = Ok (PyFloat (fadd (fadd (fadd (fadd (fadd (decimal 0 0) u)
                                                       s) p) c) a)))
    by reflexivity.
  split; [exact Hsum|].
  unfold sums_to_score. rewrite Hsum, float_bind_Ok.
  set (total := fadd _ a).
  change (sub (PyFloat total) (PyFloat total))
    with (Ok (PyFloat (fsub total total))).
  rewrite float_bind_Ok, fsub_diag. by destruct (is_finite total).
Qed.

End Float64_facts.

(** *** The statements on the sample inputs *)

(** The floats of the literals are those of the binary64 format: [0.1] is
    [0x1.999999999999ap-4], [-1e-310] is subnormal. *)
Example decimal_examples :
  decimal 1 1 = S754_finite false 7205759403792794 (-56)
  ∧ decimal (-1) 310 = S754_finite true 20240225330731 (-1074)
  ∧ valid_binary prec emax (decimal 1 1) = true
  ∧ valid_binary prec emax (decimal (-1) 310) = true.
Proof. split; [|split; [|split]]; by_computation. Qed.

Lemma breakdown_sum_is_score_witness :
  ∃ sc bd hl,
    _score_listing ascii_lower round_to_cents parcel_A example_criteria
    = Ok (sc, bd, hl)
    ∧ bd.*1 = ["ubicación"; "servicios"; "precio"; "conectividad";
               "superficie"]%string
    ∧ sum (PyFloat <$> bd.*2) = Ok (PyFloat sc)
    ∧ sums_to_score bd sc = Ok (is_finite sc).
Proof.
  destruct (_score_listing ascii_lower round_to_cents parcel_A example_criteria)
    as [[[sc bd] hl]|e] eqn:H.
  - exists sc, bd, hl. split; [reflexivity|].
    exact (breakdown_sum_is_score ascii_lower round_to_cents
             parcel_A example_criteria sc bd hl H).
  - exfalso. vm_compute in H. discriminate H.
Defined.

(** C1 as stated fails.  With [max_total_price = -1e-310] the quotient
    [5e7 / -1e-310] overflows, the [precio] entry and the score are
    infinite, and the test of the tolerance is false.  A listing whose
    area is NaN passes the filter, its score is NaN, and the test is false
    as well. *)
Lemma breakdown_sum_counterexample :
  (∃ bd hl,
     _score_listing ascii_lower round_to_cents parcel_A tiny_cap_criteria
     = Ok (S754_infinity false, bd, hl)
     ∧ bd !! 2%nat = Some ("precio"%string, S754_infinity false)
     ∧ sums_to_score bd (S754_infinity false) = Ok false)
  ∧ (matches ascii_lower default_criteria nan_parcel = Ok true
     ∧ ∃ bd hl,
         _score_listing ascii_lower round_to_cents nan_parcel default_criteria
         = Ok (S754_nan, bd, hl)
         ∧ sums_to_score bd S754_nan = Ok false)
  ∧ ¬ (∀ listing criteria sc bd hl,
         _score_listing ascii_lower round_to_cents listing criteria
         = Ok (sc, bd, hl) →
         sums_to_score bd sc = Ok true).
Proof.
  assert (H1 : ∃ bd hl,
     _score_listing ascii_lower round_to_cents parcel_A tiny_cap_criteria
     = Ok (S754_infinity false, bd, hl)
     ∧ bd !! 2%nat = Some ("precio"%string, S754_infinity false)
     ∧ sums_to_score bd (S754_infinity false) = Ok false).
  { destruct (_score_listing ascii_lower round_to_cents parcel_A
                tiny_cap_criteria) as [[[sc bd] hl]|e] eqn:H;
      vm_compute in H; [|discriminate H].
    injection H as <- <- <-. eexists _, _. split; [reflexivity|].
    split; by_computation. }
  split; [exact H1|]. split; [split; [by_computation|]|].
  - destruct (_score_listing ascii_lower round_to_cents nan_parcel
                default_criteria) as [[[sc bd] hl]|e] eqn:H;
      vm_compute in H; [|discriminate H].
    injection H as <- <- <-. eexists _, _. split; [reflexivity|].
    by_computation.
  - intros Hall. destruct H1 as (bd & hl & Hs & _ & Hfalse).
    rewrite (Hall _ _ _ _ _ Hs) in Hfalse. discriminate Hfalse.
Qed.

Lemma sample_in_range : in_range parcel_A example_criteria.
Proof.
  repeat split; try exact I; try reflexivity.
  - intros cap [= <-]. reflexivity.
  - intros cap H. discriminate H.
  - repeat constructor.
  - intros key a Hin Ha. apply list_elem_of_In in Hin.
    destruct Hin as [<-|[<-|[]]]; vm_compute in Ha;
      [by injection Ha as <- | discriminate Ha].
Qed.

Lemma scoring_raises_no_zero_division_witness :
  in_range parcel_A example_criteria
  ∧ (∃ r, _score_listing ascii_lower round_to_cents parcel_A example_criteria
          = Ok r)
  ∧ (∃ rs, search ascii_lower round_to_cents insertion_sort
             [parcel_A] example_criteria 5 = Ok rs).
Proof.
  destruct (scoring_raises_no_zero_division ascii_lower round_to_cents
              insertion_sort parcel_A example_criteria)
    as (_ & Hok & Hsearch).
  split; [exact sample_in_range|].
  split; [exact (proj1 (Hok sample_in_range))|].
  apply Hsearch. intros l Hl. apply list_elem_of_singleton in Hl.
  rewrite Hl. exact sample_in_range.
Defined.

(** C9 as stated fails.  A listing whose area is the [int] [10 ** 400]
    passes the filter of the default criteria, and the scoring engine
    raises [OverflowError] at the quotient of the area by
    [max(threshold, 1)], so [search] raises as well. *)
Lemma scoring_overflow_counterexample :
  area_m2 vast_parcel = PyInt (10 ^ 400)
  ∧ matches ascii_lower default_criteria vast_parcel = Ok true
  ∧ truediv (area_m2 vast_parcel) (PyInt 1) = Raise OverflowError
  ∧ _score_listing ascii_lower round_to_cents vast_parcel default_criteria
    = Raise OverflowError
  ∧ search ascii_lower round_to_cents insertion_sort
      [vast_parcel] default_criteria 5 = Raise OverflowError
  ∧ ¬ (∀ listing criteria,
         ∃ r, _score_listing ascii_lower round_to_cents listing criteria = Ok r)
  ∧ ¬ (∀ _listings criteria top_n,
         ∃ rs, search ascii_lower round_to_cents insertion_sort
                 _listings criteria top_n = Ok rs).
Proof.
  assert (Hs : _score_listing ascii_lower round_to_cents vast_parcel
                 default_criteria = Raise OverflowError) by by_computation.
  assert (Hr : search ascii_lower round_to_cents insertion_sort
                 [vast_parcel] default_criteria 5 = Raise OverflowError)
    by by_computation.
  split; [reflexivity|]. split; [by_computation|]. split; [by_computation|].
  split; [exact Hs|]. split; [exact Hr|]. split.
  - intros Hall. destruct (Hall vast_parcel default_criteria) as [r Hr'].
    rewrite Hs in Hr'. discriminate Hr'.
  - intros Hall.
    destruct (Hall [vast_parcel] default_criteria 5%Z) as [rs Hrs].
    rewrite Hr in Hrs. discriminate Hrs.
Qed.
